(** * The SmartAdServer bid adapter of pbs-on-fastly

    A shallow embedding of [adapter/smartadserver] (the [Builder] and the
    [SmartAdServerAdapter] with [BuildBidder], [MakeRequests] and [MakeBids])
    and of the wire types of the [adapter] package, with the properties
    of the translation core: request enrichment, status classification
    and bid normalization.

    Conventions of the embedding:
    - a Go [string] and a [[]byte] are Rocq strings (sequences of bytes);
    - Go's [int], [int8] and [int64] are [Z]; the adapter only stores,
      compares and prints them, it never does arithmetic on them;
    - [float64] is the kernel's binary64 [float];
    - an [error] is identified with its message;
    - a nil slice and an empty slice are both the empty list, a pointer that
      is only read is an [option], and the [*openrtb2.Site] of a request,
      which the adapter writes through, is a location of an explicit heap;
    - a call either returns or panics ([outcome]); the receiver of a
      method and the request and response handed to it are not nil, as
      the handler of [main] passes them;
    - [log.Printf] calls write to the process log only and are left out.

    The handler of [main] is embedded too, up to the round trip to the
    backend, which it takes as given.

    The properties of the adapter and of the handler hold for any codec
    of the typed objects. The last part reads back, through the
    executable codec, what [json.Marshal] wrote: string literals,
    integers, the impression extension and the whole outbound body. *)

From Stdlib Require Import ZArith List String Ascii Lia DecimalString.
From Stdlib Require Import DecimalPos DecimalN DecimalFacts.
From Stdlib Require Import Floats.PrimFloat Floats.SpecFloat Floats.FloatOps.
From stdpp Require Import base option list gmap strings sorting.

Local Open Scope string_scope.
Local Open Scope Z_scope.

(* ===================================================================== *)
(** ** Go values shared by every package *)
(* ===================================================================== *)

Module Go.

(** [[]byte] *)
Definition bytes := string.

(** An [error] value, through [err.Error()]. *)
Definition error := string.

(** The two results [(v, err)] of a fallible library call, of which
    exactly one is meaningful. *)
Inductive result (A : Type) : Type :=
  | Ok (a : A)
  | Err (e : error).
Arguments Ok {A} a.
Arguments Err {A} e.

(** A call returns its results or panics. *)
Inductive outcome (A : Type) : Type :=
  | Returned (a : A)
  | Panicked (msg : string).
Arguments Returned {A} a.
Arguments Panicked {A} msg.

(** The runtime error of a nil pointer dereference. *)
Definition nil_dereference : string :=
  "runtime error: invalid memory address or nil pointer dereference".

(** The verb [%d] of [fmt], and [strconv.AppendInt] in base 10. *)
Definition itoa (z : Z) : string := NilZero.string_of_int (Z.to_int z).

(** The double quote character (byte 34). *)
Definition double_quote : ascii := "034"%char.

(** [hex[n]] for the table of lower-case hexadecimal digits. *)
Definition hex_digit (n : N) : ascii :=
  match n with
  | 0%N => "0" | 1%N => "1" | 2%N => "2" | 3%N => "3"
  | 4%N => "4" | 5%N => "5" | 6%N => "6" | 7%N => "7"
  | 8%N => "8" | 9%N => "9" | 10%N => "a" | 11%N => "b"
  | 12%N => "c" | 13%N => "d" | 14%N => "e" | _ => "f"
  end%char.

End Go.
Export Go.

(* ===================================================================== *)
(** ** encoding/json: marshalling of dynamically typed values

    [json.Marshal] applied to an [interface{}] tree, as the adapter uses it
    for the impression extension. *)
(* ===================================================================== *)

Module json.

(** What an [interface{}] handed to [json.Marshal] can hold: nil (of any
    type), a boolean, an integer, a string, a slice or a map that is not
    nil, or a value of a kind the encoder rejects (a channel, a function,
    a complex number), given by the name of its type. *)
Inductive value : Type :=
  | VNil
  | VBool (b : bool)
  | VInt (z : Z)
  | VString (s : string)
  | VSlice (xs : list value)
  | VMap (m : gmap string value)
  | VUnsupported (type_name : string).

(** *** String literals ([appendString] with [escapeHTML] set) *)

(** How the scan of [appendString] stands inside a multi-byte rune:
    the next [n] bytes continue a rune that is copied, or one that was
    replaced by an escape and is dropped. *)
Inductive rune_tail : Type :=
  | Scan
  | Copy (n : nat)
  | Drop (n : nat).

Definition in_range (lo hi : N) (c : ascii) : bool :=
  let b := N_of_ascii c in (lo <=? b)%N && (b <=? hi)%N.

Definition continuation (c : ascii) : bool := in_range 128 191 c.

(** [utf8.DecodeRuneInString]: the size of the rune that starts with [c]
    followed by [rest], or [None] for [(RuneError, 1)]. *)
Definition rune_size (c : ascii) (rest : string) : option nat :=
  let b := N_of_ascii c in
  let second lo hi :=
    match rest with
    | String c2 _ => in_range lo hi c2
    | EmptyString => false
    end in
  let third :=
    match rest with
    | String _ (String c3 _) => continuation c3
    | _ => false
    end in
  let fourth :=
    match rest with
    | String _ (String _ (String c4 _)) => continuation c4
    | _ => false
    end in
  if (b <? 194)%N then None
  else if (b <=? 223)%N then
    if second 128%N 191%N then Some 2%nat else None
  else if (b =? 224)%N then
    if second 160%N 191%N && third then Some 3%nat else None
  else if (b =? 237)%N then
    if second 128%N 159%N && third then Some 3%nat else None
  else if (b <=? 239)%N then
    if second 128%N 191%N && third then Some 3%nat else None
  else if (b =? 240)%N then
    if second 144%N 191%N && third && fourth then Some 4%nat else None
  else if (b <=? 243)%N then
    if second 128%N 191%N && third && fourth then Some 4%nat else None
  else if (b =? 244)%N then
    if second 128%N 143%N && third && fourth then Some 4%nat else None
  else None.

(** U+2028 and U+2029, the runes [E2 80 A8] and [E2 80 A9]: the last hex
    digit of the escape that replaces them. *)
Definition line_separator (c : ascii) (rest : string) : option ascii :=
  match N_of_ascii c, rest with
  | 226%N, String c2 (String c3 _) =>
      if (N_of_ascii c2 =? 128)%N then
        if (N_of_ascii c3 =? 168)%N then Some "8"%char
        else if (N_of_ascii c3 =? 169)%N then Some "9"%char
        else None
      else None
  | _, _ => None
  end.

(** One byte below [utf8.RuneSelf]: copied when [htmlSafeSet] holds,
    escaped otherwise. *)
Definition escape_ascii (c : ascii) : string :=
  let b := N_of_ascii c in
  if (b =? 34)%N then String "\" (String double_quote "")
  else if (b =? 92)%N then "\\"
  else if (b =? 8)%N then "\b"
  else if (b =? 12)%N then "\f"
  else if (b =? 10)%N then "\n"
  else if (b =? 13)%N then "\r"
  else if (b =? 9)%N then "\t"
  else if (b <? 32)%N || (b =? 60)%N || (b =? 62)%N || (b =? 38)%N then
    String "\" (String "u" (String "0" (String "0"
      (String (hex_digit (b / 16)) (String (hex_digit (b mod 16)) "")))))
  else String c "".

Fixpoint escape (tail : rune_tail) (s : string) : string :=
  match s with
  | EmptyString => EmptyString
  | String c rest =>
      match tail with
      | Copy (S n) => String c (escape (Copy n) rest)
      | Drop (S n) => escape (Drop n) rest
      | _ =>
          if (N_of_ascii c <? 128)%N then escape_ascii c ++ escape Scan rest
          else
            match rune_size c rest with
            | None => "\ufffd" ++ escape Scan rest
            | Some size =>
                match line_separator c rest with
                | Some d =>
                    "\u202" ++ String d (escape (Drop (size - 1)) rest)
                | None => String c (escape (Copy (size - 1)) rest)
                end
            end
      end
  end.

(** [appendString]: the JSON string literal for [s]. *)
Definition quote (s : string) : bytes :=
  String double_quote (escape Scan s ++ String double_quote "").

(** *** Objects and arrays *)

(** Map keys are written in the order of [strings.Compare]. *)
Definition key_le (x y : string * result bytes) : Prop :=
  String.leb x.1 y.1 = true.

#[global] Instance key_le_dec : RelDecision key_le.
Proof. intros x y. unfold key_le. apply _. Defined.

(** The encodings of a sequence of elements, up to the first error. *)
Fixpoint sequence {K : Type} (xs : list (K * result bytes))
  : result (list (K * bytes)) :=
  match xs with
  | [] => Ok []
  | (k, Err e) :: _ => Err e
  | (k, Ok b) :: rest =>
      match sequence rest with
      | Ok bs => Ok ((k, b) :: bs)
      | Err e => Err e
      end
  end.

Fixpoint join (sep : string) (parts : list string) : string :=
  match parts with
  | [] => ""
  | [p] => p
  | p :: rest => p ++ sep ++ join sep rest
  end.

Definition member (kb : string * bytes) : string :=
  quote kb.1 ++ ":" ++ kb.2.

(** The text of an object with the given members, and of an array. *)
Definition object (members : list (string * bytes)) : bytes :=
  "{" ++ join "," (map member members) ++ "}".

Definition array (elements : list bytes) : bytes :=
  "[" ++ join "," elements ++ "]".

(** [json.Marshal(v)] *)
Fixpoint Marshal (v : value) : result bytes :=
  match v with
  | VNil => Ok "null"
  | VBool b => Ok (if b then "true" else "false")
  | VInt z => Ok (itoa z)
  | VString s => Ok (quote s)
  | VSlice xs =>
      match sequence (map (fun x => (tt, Marshal x)) xs) with
      | Ok bs => Ok (array (map snd bs))
      | Err e => Err e
      end
  | VMap m =>
      let entries :=
        map_fold (fun k x acc => (k, Marshal x) :: acc) [] m in
      match sequence (merge_sort key_le entries) with
      | Ok bs => Ok (object bs)
      | Err e => Err e
      end
  | VUnsupported t => Err ("json: unsupported type: " ++ t)
  end.

End json.

(* ===================================================================== *)
(** ** github.com/prebid/openrtb/v20/openrtb2

    The OpenRTB objects, with the fields the adapter reads or writes and
    the ones that identify an object. Every field left out is copied
    unchanged wherever the object is copied, and is never read. *)
(* ===================================================================== *)

Module openrtb2.

(** A pointer to a [Site] on the heap. *)
Definition loc := positive.

Module Format.
Record t : Type := mk { W : Z; H : Z }.
End Format.

Module Banner.
Record t : Type := mk {
  Format : list Format.t;
  W : option Z;
  H : option Z
}.
End Banner.

Module Imp.
Record t : Type := mk {
  ID : string;
  Banner : option Banner.t;
  BidFloor : float;
  BidFloorCur : string;
  Ext : bytes
}.
Definition with_Ext (ext : bytes) (i : t) : t :=
  mk (ID i) (Banner i) (BidFloor i) (BidFloorCur i) ext.
Definition with_Banner (b : option Banner.t) (i : t) : t :=
  mk (ID i) b (BidFloor i) (BidFloorCur i) (Ext i).
Definition with_BidFloor (f : float) (i : t) : t :=
  mk (ID i) (Banner i) f (BidFloorCur i) (Ext i).
Definition with_BidFloorCur (c : string) (i : t) : t :=
  mk (ID i) (Banner i) (BidFloor i) c (Ext i).
End Imp.

Module Site.
Record t : Type := mk {
  ID : string;
  Domain : string;
  Page : string
}.
(** [openrtb2.Site{}] *)
Definition zero : t := mk "" "" "".
Definition with_Page (p : string) (s : t) : t := mk (ID s) (Domain s) p.
End Site.

Module BidRequest.
Record t : Type := mk {
  ID : string;
  Imp : list Imp.t;
  Site : option loc;
  Test : Z;
  AT : Z;
  TMax : Z;
  Ext : bytes
}.
Definition with_Imp (imps : list Imp.t) (r : t) : t :=
  mk (ID r) imps (Site r) (Test r) (AT r) (TMax r) (Ext r).
Definition with_Site (s : option loc) (r : t) : t :=
  mk (ID r) (Imp r) s (Test r) (AT r) (TMax r) (Ext r).
Definition with_Test (n : Z) (r : t) : t :=
  mk (ID r) (Imp r) (Site r) n (AT r) (TMax r) (Ext r).
Definition with_AT (n : Z) (r : t) : t :=
  mk (ID r) (Imp r) (Site r) (Test r) n (TMax r) (Ext r).
Definition with_TMax (n : Z) (r : t) : t :=
  mk (ID r) (Imp r) (Site r) (Test r) (AT r) n (Ext r).
End BidRequest.

Module Bid.
Record t : Type := mk {
  ID : string;
  ImpID : string;
  Price : float;
  AdM : string
}.
End Bid.

Module SeatBid.
Record t : Type := mk {
  Bid : list Bid.t;
  Seat : string
}.
End SeatBid.

Module BidResponse.
Record t : Type := mk {
  ID : string;
  SeatBid : list SeatBid.t
}.
End BidResponse.

End openrtb2.
Export openrtb2.

(* ===================================================================== *)
(** ** The heap of [Site] objects and calls that run on it *)
(* ===================================================================== *)

Module mem.

Abbreviation Heap := (gmap loc Site.t).

(** A call: from the heap to its results and the heap it leaves, or a
    panic. *)
Definition Exec (A : Type) : Type := Heap → outcome (A * Heap).

#[global] Instance Exec_ret : MRet Exec := λ A a h, Returned (a, h).

#[global] Instance Exec_bind : MBind Exec := λ A B f m h,
  match m h with
  | Returned (a, h') => f a h'
  | Panicked msg => Panicked msg
  end.

(** Go has no dangling pointers: a location outside the heap is not a
    state a program reaches. A read of one is given this outcome. *)
Definition unallocated : string := "unallocated location".

(** [*p]; a nil [p] panics. *)
Definition deref (p : option loc) : Exec Site.t := λ h,
  match p with
  | None => Panicked nil_dereference
  | Some l =>
      match h !! l with
      | Some s => Returned (s, h)
      | None => Panicked unallocated
      end
  end.

(** [p.f = v], as the update [upd] of the object [p] points to. *)
Definition assign (p : option loc) (upd : Site.t → Site.t) : Exec unit := λ h,
  match p with
  | None => Panicked nil_dereference
  | Some l =>
      match h !! l with
      | Some s => Returned (tt, <[l := upd s]> h)
      | None => Panicked unallocated
      end
  end.

(** [&openrtb2.Site{...}]: a location that was not in use. *)
Definition new (s : Site.t) : Exec loc := λ h,
  let l := fresh (dom h) in Returned (l, <[l := s]> h).

(** What an encoder that follows [p] sees: nothing for nil. *)
Definition pointee (p : option loc) : Exec (option Site.t) :=
  match p with
  | None => mret None
  | Some _ => s ← deref p; mret (Some s)
  end.

End mem.
Export mem.

(* ===================================================================== *)
(** ** prebid-fastly-compute/adapter *)
(* ===================================================================== *)

Module adapter.

Module HttpRequest.
Record t : Type := mk {
  Method : string;
  Uri : string;
  Body : bytes;
  Headers : gmap string string
}.
End HttpRequest.

Module HttpResponse.
Record t : Type := mk {
  StatusCode : Z;
  Body : bytes;
  Headers : gmap string string
}.
End HttpResponse.

(** [Bid] holds the bid the pointer [&seatBid.Bid[i]] refers to. *)
Module TypedBid.
Record t : Type := mk {
  Bid : Bid.t;
  BidType : string
}.
End TypedBid.

Module BidderResponse.
Record t : Type := mk { Bids : list TypedBid.t }.
End BidderResponse.

End adapter.
Export adapter.

(* ===================================================================== *)
(** ** smartadserver: the configuration structure

    [PBSConfig], whose nested anonymous structs are named after their
    fields. *)
(* ===================================================================== *)

Module PBSConfig.
Module DefaultConfig.
Record t : Type := mk {
  SiteID : Z;
  PageID : Z;
  FormatID : Z;
  PlatformID : Z
}.
End DefaultConfig.
Module SmartAdServer.
Record t : Type := mk {
  Enabled : bool;
  Endpoint : string;
  PlatformID : Z;
  DefaultConfig : DefaultConfig.t
}.
End SmartAdServer.
Module Adapters.
Record t : Type := mk { SmartAdServer : SmartAdServer.t }.
End Adapters.
Record t : Type := mk { Adapters : Adapters.t }.
End PBSConfig.

(* ===================================================================== *)
(** ** The codecs of the typed objects

    [encoding/json] on the OpenRTB structs and [yaml.v2] on the
    configuration are libraries outside the repository: the adapter is
    embedded over any implementation of them. *)
(* ===================================================================== *)

Class Codec : Type := {
  (** [json.Marshal(&r)], where [site] is what [r.Site] points to *)
  json_Marshal_BidRequest : BidRequest.t → option Site.t → result bytes;
  (** [json.Unmarshal(body, &r)] for a zero [r], with the [Site] it
      allocates *)
  json_Unmarshal_BidRequest : bytes → result (BidRequest.t * option Site.t);
  (** [json.Unmarshal(body, &bidResp)] for a zero [bidResp] *)
  json_Unmarshal_BidResponse : bytes → result BidResponse.t;
  (** [yaml.Unmarshal(config, &pbsConfig)] for a zero [pbsConfig] *)
  yaml_Unmarshal_PBSConfig : bytes → result PBSConfig.t
}.

(* ===================================================================== *)
(** ** prebid-fastly-compute/adapter/smartadserver *)
(* ===================================================================== *)

Module smartadserver.

(** [SmartAdServerAdapter] *)
Record SmartAdServerAdapter : Type := mkAdapter {
  endpoint : string;
  platformID : Z;
  defaultConfig : PBSConfig.DefaultConfig.t
}.

(** The map literal for the impression extension. *)
Definition impExt (a : SmartAdServerAdapter) (domain : string) : json.value :=
  json.VMap {[
    "prebid" := json.VMap {[
      "bidder" := json.VMap {[
        "smartadserver" := json.VMap (
          <["siteId" := json.VInt (PBSConfig.DefaultConfig.SiteID (defaultConfig a))]> (
          <["networkId" := json.VInt (platformID a)]> (
          <["pageId" := json.VInt (PBSConfig.DefaultConfig.PageID (defaultConfig a))]> (
          <["formatId" := json.VInt (PBSConfig.DefaultConfig.FormatID (defaultConfig a))]> (
          <["target" := json.VString "testing=prebid"]> (
          <["domain" := json.VString domain]> ∅))))))
      ]}
    ]}
  ]}.

(** The header map of the outbound request. *)
Definition headers : gmap string string :=
  <["Content-Type" := "application/json;charset=utf-8"]> (
  <["Accept" := "application/json"]> (
  <["X-Openrtb-Version" := "2.5"]> ∅)).

Section methods.
Context `{Codec}.

(** [Builder.BuildBidder]: the adapter and the error it returns. *)
Definition BuildBidder (config : bytes)
  : option SmartAdServerAdapter * option error :=
  match yaml_Unmarshal_PBSConfig config with
  | Err err => (None, Some ("error parsing PBS config: " ++ err))
  | Ok pbsConfig =>
      let sas := PBSConfig.Adapters.SmartAdServer (PBSConfig.Adapters pbsConfig) in
      if negb (PBSConfig.SmartAdServer.Enabled sas) then
        (None, Some "SmartAdServer adapter is not enabled in config")
      else
        let adapter :=
          mkAdapter
            (PBSConfig.SmartAdServer.Endpoint sas)
            (PBSConfig.SmartAdServer.PlatformID sas)
            (PBSConfig.DefaultConfig.mk
               (PBSConfig.DefaultConfig.SiteID (PBSConfig.SmartAdServer.DefaultConfig sas))
               (PBSConfig.DefaultConfig.PageID (PBSConfig.SmartAdServer.DefaultConfig sas))
               (PBSConfig.DefaultConfig.FormatID (PBSConfig.SmartAdServer.DefaultConfig sas))
               (PBSConfig.DefaultConfig.PlatformID (PBSConfig.SmartAdServer.DefaultConfig sas))) in
        (Some adapter, None)
  end.

(** Lines 85 to 130: the impression copied from [request.Imp[0]] and
    modified, once its extension is marshalled. *)
Definition enrichImp (impExtJSON : bytes) (imp : Imp.t) : Imp.t :=
  (* imp.Ext = impExtJSON *)
  let imp := Imp.with_Ext impExtJSON imp in
  (* if imp.Banner == nil { imp.Banner = &openrtb2.Banner{...} } *)
  let imp :=
    match Imp.Banner imp with
    | None =>
        Imp.with_Banner
          (Some (Banner.mk [Format.mk 728 90] None None)) imp
    | Some _ => imp
    end in
  (* imp.BidFloor = 0.01; imp.BidFloorCur = USD *)
  let imp := Imp.with_BidFloor 0.01%float imp in
  Imp.with_BidFloorCur "USD" imp.

(** [enrichedRequest := *request] and the four assignments after it. *)
Definition enrichRequest (imp : Imp.t) (request : BidRequest.t)
  : BidRequest.t :=
  let enrichedRequest := request in
  let enrichedRequest := BidRequest.with_Imp [imp] enrichedRequest in
  let enrichedRequest := BidRequest.with_Test 1 enrichedRequest in
  let enrichedRequest := BidRequest.with_TMax 1000 enrichedRequest in
  BidRequest.with_AT 1 enrichedRequest.

(** [SmartAdServerAdapter.MakeRequests]: the request list and the
    error list it returns. *)
Definition MakeRequests (a : SmartAdServerAdapter) (request : BidRequest.t)
  : Exec (list HttpRequest.t * list error) :=
  match BidRequest.Imp request with
  | [] => mret ([], ["no impressions in bid request"])
  | imp :: _ =>
      (* the map entry for domain reads request.Site.Domain *)
      site ← deref (BidRequest.Site request);
      match json.Marshal (impExt a (Site.Domain site)) with
      | Err err => mret ([], ["error marshaling imp.ext: " ++ err])
      | Ok impExtJSON =>
          let imp := enrichImp impExtJSON imp in
          let enrichedRequest := enrichRequest imp request in
          (* if enrichedRequest.Site == nil *)
          enrichedRequest ←
            match BidRequest.Site enrichedRequest with
            | None =>
                l ← new Site.zero;
                mret (BidRequest.with_Site (Some l) enrichedRequest)
            | Some _ => mret enrichedRequest
            end;
          (* the condition on line 136, evaluated left to right:
             Page is empty, request.Site is not nil, Domain is not empty *)
          esite ← deref (BidRequest.Site enrichedRequest);
          cond ←
            (if String.eqb (Site.Page esite) "" then
               match BidRequest.Site request with
               | None => mret false
               | Some _ =>
                   rsite ← deref (BidRequest.Site request);
                   mret (negb (String.eqb (Site.Domain rsite) ""))
               end
             else mret false);
          _ ←
            (if cond : bool then
               rsite ← deref (BidRequest.Site request);
               assign (BidRequest.Site enrichedRequest)
                 (Site.with_Page ("https://" ++ Site.Domain rsite))
             else mret tt);
          (* json.Marshal(&enrichedRequest) *)
          wire_site ← pointee (BidRequest.Site enrichedRequest);
          match json_Marshal_BidRequest enrichedRequest wire_site with
          | Err err => mret ([], [err])
          | Ok reqBody =>
              mret ([HttpRequest.mk "POST" (endpoint a) reqBody headers], [])
          end
      end
  end.

(** [SmartAdServerAdapter.MakeBids]: the response pointer (nil is
    [None]) and the error list it returns. *)
Definition MakeBids (a : SmartAdServerAdapter) (request : BidRequest.t)
    (response : HttpResponse.t)
  : option BidderResponse.t * list error :=
  let code := HttpResponse.StatusCode response in
  let body := HttpResponse.Body response in
  if code =? 204 then (None, [])
  else if code =? 400 then (None, ["Bad request: " ++ body])
  else if code =? 404 then (None, ["404 Not Found: " ++ body])
  else if negb (code =? 200) then
    (None, ["Unexpected status code: " ++ itoa code ++ ". Body: " ++ body])
  else
    match json_Unmarshal_BidResponse body with
    | Err err => (None, [err])
    | Ok bidResp =>
        let bids :=
          fold_left
            (fun bids seatBid =>
               fold_left
                 (fun bids bid => app bids [TypedBid.mk bid "banner"])
                 (SeatBid.Bid seatBid) bids)
            (BidResponse.SeatBid bidResp) [] in
        (Some (BidderResponse.mk bids), [])
    end.

End methods.

End smartadserver.
Export smartadserver.

(* ===================================================================== *)
(** ** main: the handler of /openrtb2/auction *)
(* ===================================================================== *)

Module main.

(** What the handler writes to the client. *)
Record Response : Type := mkResponse {
  status : Z;
  body : bytes;
  content_type : option string
}.

(** The round trip to the backend smartadserver_backend:
    [fsthttp.NewRequest], [Send] and [io.ReadAll] of the response body,
    each of which can fail. *)
Class Backend : Type := {
  round_trip : HttpRequest.t → result HttpResponse.t
}.

Section handler.
Context `{Codec} `{Backend}.

(** The loop over the requests: a failed round trip is skipped, the first
    response is relayed, and the handler answers 500 when none is left. *)
Fixpoint relay (httpRequests : list HttpRequest.t) : Response :=
  match httpRequests with
  | [] => mkResponse 500 "" None
  | req :: rest =>
      match round_trip req with
      | Err _ => relay rest
      | Ok beresp =>
          mkResponse (HttpResponse.StatusCode beresp) (HttpResponse.Body beresp)
            (Some "application/json")
      end
  end.

(** The function given to [fsthttp.ServeFunc], for the adapter that
    [BuildBidder] returned, the path of the request and the result of
    reading its body. The decoder allocates the Site of the request. *)
Definition serve (bidder : SmartAdServerAdapter) (path : string)
    (read : result bytes) : Exec Response :=
  if negb (String.eqb path "/openrtb2/auction") then
    mret (mkResponse 404 "" None)
  else
    match read with
    | Err _ => mret (mkResponse 400 "" None)
    | Ok body =>
        match json_Unmarshal_BidRequest body with
        | Err _ => mret (mkResponse 400 "" None)
        | Ok (decoded, site) =>
            bidRequest ←
              match site with
              | Some s =>
                  l ← new s; mret (BidRequest.with_Site (Some l) decoded)
              | None => mret (BidRequest.with_Site None decoded)
              end;
            out ← MakeRequests bidder bidRequest;
            if (0 <? length out.2)%nat then mret (mkResponse 500 "" None)
            else mret (relay out.1)
        end
    end.

(** What [main] does once the embedded configuration is read: it
    returns, or it hands [fsthttp.ServeFunc] the handler closed over
    [bidder] (which is [serve bidder] for a bidder that is not nil). *)
Inductive Startup : Type :=
  | Exits
  | Serves (bidder : option SmartAdServerAdapter).

(** [main], for the result of [pbsConfig.ReadFile]. *)
Definition main (readFile : result bytes) : Startup :=
  match readFile with
  | Err _ => Exits
  | Ok configBytes =>
      let '(bidder, err) := BuildBidder configBytes in
      match err with
      | Some _ => Exits
      | None => Serves bidder
      end
  end.

End handler.

End main.

(* ===================================================================== *)
(** ** JSON text

    The grammar of RFC 8259 as [encoding/json] reads it: documents, the
    parser, and the compaction applied to a [json.RawMessage]. *)
(* ===================================================================== *)

Module jsontext.

(** A parsed value. An object keeps, with each member, the input text of
    its value, which is what a [json.RawMessage] field receives. *)
Inductive doc : Type :=
  | JNull
  | JBool (b : bool)
  | JNumber (lit : string)
  | JString (s : string)
  | JArray (xs : list doc)
  | JObject (members : list (string * (bytes * doc))).

Definition is_ws (c : ascii) : bool :=
  let b := N_of_ascii c in
  (b =? 32)%N || (b =? 9)%N || (b =? 10)%N || (b =? 13)%N.

Fixpoint skip_ws (s : string) : string :=
  match s with
  | String c rest => if is_ws c then skip_ws rest else s
  | EmptyString => s
  end.

Definition is_digit (c : ascii) : bool := json.in_range 48 57 c.

Fixpoint span_digits (s : string) : string * string :=
  match s with
  | String c rest =>
      if is_digit c then
        let (ds, r) := span_digits rest in (String c ds, r)
      else ("", s)
  | EmptyString => ("", "")
  end.

Definition leading_zero (ds : string) : bool :=
  match ds with
  | String "0" (String _ _) => true
  | _ => false
  end.

(** A number literal at the head of [s], and what follows it. *)
Definition scan_number (s : string) : option (string * string) :=
  let (sign, s1) :=
    match s with
    | String "-" r => ("-", r)
    | _ => ("", s)
    end in
  let (int, s2) := span_digits s1 in
  if String.eqb int "" || leading_zero int then None
  else
    let frac :=
      match s2 with
      | String "." r =>
          let (ds, s3) := span_digits r in
          if String.eqb ds "" then None else Some ("." ++ ds, s3)
      | _ => Some ("", s2)
      end in
    match frac with
    | None => None
    | Some (frac, s3) =>
        let exp :=
          match s3 with
          | String e r =>
              if Ascii.eqb e "e" || Ascii.eqb e "E" then
                let (esign, r1) :=
                  match r with
                  | String "+" r' => ("+", r')
                  | String "-" r' => ("-", r')
                  | _ => ("", r)
                  end in
                let (ds, s4) := span_digits r1 in
                if String.eqb ds "" then None
                else Some (String e (esign ++ ds), s4)
              else Some ("", s3)
          | EmptyString => Some ("", s3)
          end in
        match exp with
        | None => None
        | Some (exp, s4) => Some (sign ++ int ++ frac ++ exp, s4)
        end
    end.

Definition hex_value (c : ascii) : option N :=
  let b := N_of_ascii c in
  if json.in_range 48 57 c then Some (b - 48)%N
  else if json.in_range 97 102 c then Some (b - 87)%N
  else if json.in_range 65 70 c then Some (b - 55)%N
  else None.

(** [getu4]: the code unit of four hexadecimal digits. *)
Definition getu4 (s : string) : option (N * string) :=
  match s with
  | String a (String b (String c (String d rest))) =>
      match hex_value a, hex_value b, hex_value c, hex_value d with
      | Some a, Some b, Some c, Some d =>
          Some (((a * 16 + b) * 16 + c) * 16 + d, rest)%N
      | _, _, _, _ => None
      end
  | _ => None
  end.

Definition byte (n : N) : ascii := ascii_of_N n.

(** [utf8.EncodeRune] *)
Definition encode_rune (cp : N) : string :=
  (if cp <? 128 then String (byte cp) ""
   else if cp <? 2048 then
     String (byte (192 + cp / 64)) (String (byte (128 + cp mod 64)) "")
   else if cp <? 65536 then
     String (byte (224 + cp / 4096))
       (String (byte (128 + (cp / 64) mod 64))
          (String (byte (128 + cp mod 64)) ""))
   else
     String (byte (240 + cp / 262144))
       (String (byte (128 + (cp / 4096) mod 64))
          (String (byte (128 + (cp / 64) mod 64))
             (String (byte (128 + cp mod 64)) ""))))%N.

Definition replacement : N := 65533%N.

(** The rune of a [\u] escape whose first unit is [u], with what
    follows it: a surrogate pair when the next escape completes one. *)
Definition escaped_rune (u : N) (rest : string) : N * string :=
  (if (55296 <=? u) && (u <? 56320) then
     match rest with
     | String "\" (String "u" r) =>
         match getu4 r with
         | Some (lo, r') =>
             if (56320 <=? lo) && (lo <? 57344) then
               (65536 + (u - 55296) * 1024 + (lo - 56320), r')
             else (replacement, rest)
         | None => (replacement, rest)
         end
     | _ => (replacement, rest)
     end
   else if (56320 <=? u) && (u <? 57344) then (replacement, rest)
   else (u, rest))%N.

(** [unquote]: the string whose literal starts after the opening quote
    of [s], and what follows the closing quote. *)
Fixpoint read_string (fuel : nat) (copy : nat) (s : string)
  : option (string * string) :=
  match fuel, s with
  | O, _ => None
  | _, EmptyString => None
  | S fuel, String c rest =>
      let continue_with x k r :=
        match read_string fuel k r with
        | Some (str, r') => Some (x ++ str, r')
        | None => None
        end in
      match copy with
      | S k => continue_with (String c "") k rest
      | O =>
          if Ascii.eqb c double_quote then Some ("", rest)
          else if Ascii.eqb c "\" then
            match rest with
            | String e r =>
                if Ascii.eqb e double_quote then
                  continue_with (String double_quote "") O r
                else if Ascii.eqb e "\" then continue_with "\" O r
                else if Ascii.eqb e "/" then continue_with "/" O r
                else if Ascii.eqb e "b" then continue_with (String (byte 8) "") O r
                else if Ascii.eqb e "f" then continue_with (String (byte 12) "") O r
                else if Ascii.eqb e "n" then continue_with (String (byte 10) "") O r
                else if Ascii.eqb e "r" then continue_with (String (byte 13) "") O r
                else if Ascii.eqb e "t" then continue_with (String (byte 9) "") O r
                else if Ascii.eqb e "u" then
                  match getu4 r with
                  | Some (u, r1) =>
                      let (cp, r2) := escaped_rune u r1 in
                      continue_with (encode_rune cp) O r2
                  | None => None
                  end
                else None
            | EmptyString => None
            end
          else if (N_of_ascii c <? 32)%N then None
          else if (N_of_ascii c <? 128)%N then continue_with (String c "") O rest
          else
            match json.rune_size c rest with
            | Some size => continue_with (String c "") (size - 1)%nat rest
            | None => continue_with (encode_rune replacement) O rest
            end
      end
  end.

Definition strip_prefix (p s : string) : option string :=
  if String.prefix p s
  then Some (substring (String.length p) (String.length s - String.length p) s)
  else None.

(** The text consumed between [before] and its suffix [after]. *)
Definition consumed (before after : string) : string :=
  substring 0 (String.length before - String.length after) before.

Fixpoint parse_value (fuel : nat) (s : string) : option (doc * string) :=
  match fuel with
  | O => None
  | S fuel =>
      match skip_ws s with
      | EmptyString => None
      | String c rest as s' =>
          if Ascii.eqb c "{" then
            match skip_ws rest with
            | String "}" r => Some (JObject [], r)
            | _ => parse_members fuel rest []
            end
          else if Ascii.eqb c "[" then
            match skip_ws rest with
            | String "]" r => Some (JArray [], r)
            | _ => parse_elements fuel rest []
            end
          else if Ascii.eqb c double_quote then
            match read_string (String.length rest) O rest with
            | Some (str, r) => Some (JString str, r)
            | None => None
            end
          else if Ascii.eqb c "t" then
            option_map (pair (JBool true)) (strip_prefix "true" s')
          else if Ascii.eqb c "f" then
            option_map (pair (JBool false)) (strip_prefix "false" s')
          else if Ascii.eqb c "n" then
            option_map (pair JNull) (strip_prefix "null" s')
          else
            match scan_number s' with
            | Some (lit, r) => Some (JNumber lit, r)
            | None => None
            end
      end
  end
with parse_elements (fuel : nat) (s : string) (acc : list doc)
  : option (doc * string) :=
  match fuel with
  | O => None
  | S fuel =>
      match parse_value fuel s with
      | Some (v, r) =>
          match skip_ws r with
          | String "," r' => parse_elements fuel r' (app acc [v])
          | String "]" r' => Some (JArray (app acc [v]), r')
          | _ => None
          end
      | None => None
      end
  end
with parse_members (fuel : nat) (s : string)
    (acc : list (string * (bytes * doc))) : option (doc * string) :=
  match fuel with
  | O => None
  | S fuel =>
      match skip_ws s with
      | String c r =>
          if Ascii.eqb c double_quote then
            match read_string (String.length r) O r with
            | Some (key, r1) =>
                match skip_ws r1 with
                | String ":" r2 =>
                    let text := skip_ws r2 in
                    match parse_value fuel text with
                    | Some (v, r3) =>
                        let member := (key, (consumed text r3, v)) in
                        match skip_ws r3 with
                        | String "," r' => parse_members fuel r' (app acc [member])
                        | String "}" r' => Some (JObject (app acc [member]), r')
                        | _ => None
                        end
                    | None => None
                    end
                | _ => None
                end
            | None => None
            end
          else None
      | EmptyString => None
      end
  end.

(** A whole input: one value, with blanks around it. *)
Definition parse (s : bytes) : option doc :=
  match parse_value (S (2 * String.length s)) s with
  | Some (v, rest) =>
      match skip_ws rest with
      | EmptyString => Some v
      | String _ _ => None
      end
  | None => None
  end.

(** [appendCompact] with [escape] set, on valid JSON text: blanks
    outside strings are dropped; the characters [<], [>] and [&] and
    the runes U+2028 and U+2029 are escaped. [in_string] and [escaped]
    follow the scanner; [drop] counts bytes of a rune already
    replaced. *)
Fixpoint compact_from (in_string escaped : bool) (drop : nat) (s : string)
  : string :=
  match s with
  | EmptyString => EmptyString
  | String c rest =>
      let in_string' :=
        if escaped then in_string
        else if Ascii.eqb c double_quote then negb in_string
        else in_string in
      let escaped' := in_string && negb escaped && Ascii.eqb c "\" in
      match drop with
      | S k => compact_from in_string' escaped' k rest
      | O =>
          let b := N_of_ascii c in
          if (b =? 60)%N || (b =? 62)%N || (b =? 38)%N then
            String "\" (String "u" (String "0" (String "0"
              (String (hex_digit (b / 16)) (String (hex_digit (b mod 16))
                (compact_from in_string' escaped' O rest))))))
          else
            match json.line_separator c rest with
            | Some d =>
                "\u202" ++ String d (compact_from in_string' escaped' 2 rest)
            | None =>
                if negb in_string && is_ws c
                then compact_from in_string' escaped' O rest
                else String c (compact_from in_string' escaped' O rest)
            end
      end
  end.

Definition compact (s : bytes) : result bytes :=
  match parse s with
  | Some _ => Ok (compact_from false false O s)
  | None => Err "invalid character in JSON text"
  end.

End jsontext.

(* ===================================================================== *)
(** ** An executable codec

    [encoding/json] on the OpenRTB structs above, by their field tags, and
    [yaml.v2] on configurations written in YAML's flow (JSON) syntax. The
    adapter runs on concrete inputs through this instance; every theorem
    about the adapter holds for any [Codec].

    Where it is narrower than the libraries it fails rather than answer
    differently: floats are printed and read on the range where a decimal
    of at most 22 fraction digits and an integer below 2^53 is exact
    ([1e-6 <= |f| < 1e21] for printing), and block-style YAML is refused.
    Object keys are matched up to ASCII case, and a slice of length zero
    is written as [null]. *)
(* ===================================================================== *)

Module reference.
Import jsontext.

#[local] Instance result_ret : MRet result := λ A a, Ok a.
#[local] Instance result_bind : MBind result := λ A B f m,
  match m with
  | Ok a => f a
  | Err e => Err e
  end.

(** *** Numbers *)

Fixpoint digits_value (s : string) (acc : Z) : Z :=
  match s with
  | String c rest => digits_value rest (10 * acc + (Z.of_N (N_of_ascii c) - 48))
  | EmptyString => acc
  end.

Fixpoint all_digits (s : string) : bool :=
  match s with
  | String c rest => is_digit c && all_digits rest
  | EmptyString => true
  end.

(** [strconv.ParseInt(lit, 10, 64)] on a number literal. *)
Definition parse_int (lit : string) : option Z :=
  match lit with
  | String "-" ds =>
      if all_digits ds then Some (- digits_value ds 0) else None
  | ds => if all_digits ds then Some (digits_value ds 0) else None
  end.

Definition float_of_Z (z : Z) : float := of_uint63 (Uint63Axioms.of_Z z).

(** The float nearest to [m * 10^e10], when one correctly rounded
    operation on exact operands gives it. *)
Definition exact_decimal (m e10 : Z) : option float :=
  if (m <? 2 ^ 53) && (Z.abs e10 <=? 22) then
    Some (if 0 <=? e10
          then (float_of_Z m * float_of_Z (10 ^ e10))%float
          else (float_of_Z m / float_of_Z (10 ^ (- e10)))%float)
  else None.

(** [strconv.ParseFloat(lit, 64)] on a number literal. *)
Definition parse_float (lit : string) : option float :=
  let (neg, s1) :=
    match lit with
    | String "-" r => (true, r)
    | _ => (false, lit)
    end in
  let (int, s2) := span_digits s1 in
  let (frac, s3) :=
    match s2 with
    | String "." r => span_digits r
    | _ => ("", s2)
    end in
  let exp :=
    match s3 with
    | String _ (String "-" ds) => - digits_value ds 0
    | String _ (String "+" ds) => digits_value ds 0
    | String _ ds => digits_value ds 0
    | EmptyString => 0
    end in
  let m := digits_value (int ++ frac) 0 in
  match exact_decimal m (exp - Z.of_nat (String.length frac)) with
  | Some f => Some (if neg then (- f)%float else f)
  | None => None
  end.

Definition round_half_even (n d : Z) : Z :=
  let q := n / d in
  let r := n mod d in
  if 2 * r <? d then q
  else if d <? 2 * r then q + 1
  else if Z.even q then q else q + 1.

(** The least [k <= 22 - fuel'] with a [k]-digit fraction that reads
    back as the float [m * 2^e], and its digits. *)
Fixpoint shortest_fraction (fuel : nat) (k : Z) (m e : Z) (f : float)
  : option (Z * Z) :=
  match fuel with
  | O => None
  | S fuel =>
      let d :=
        if 0 <=? e then m * 2 ^ e * 10 ^ k
        else round_half_even (m * 10 ^ k) (2 ^ (- e)) in
      match exact_decimal d (- k) with
      | Some g =>
          if PrimFloat.eqb g f then Some (d, k)
          else shortest_fraction fuel (k + 1) m e f
      | None => None
      end
  end.

Fixpoint pad_zeros (n : nat) (s : string) : string :=
  match n with
  | O => s
  | S n => if (String.length s <=? n)%nat then pad_zeros n (String "0" s) else s
  end.

(** The float encoder of [encoding/json], in its fixed notation. *)
Definition format_float (f : float) : result bytes :=
  match Prim2SF f with
  | S754_zero neg => Ok (if neg then "-0" else "0")
  | S754_nan => Err "json: unsupported value: NaN"
  | S754_infinity neg =>
      Err (if neg then "json: unsupported value: -Inf"
           else "json: unsupported value: +Inf")
  | S754_finite neg m e =>
      let a := abs f in
      if PrimFloat.ltb a 1e-6 || PrimFloat.leb 1e21 a then
        Err "float outside the fixed notation"
      else
        match shortest_fraction 23 0 (Z.pos m) e a with
        | Some (d, k) =>
            let sign := if neg then "-" else "" in
            let whole := itoa (d / 10 ^ k) in
            if k =? 0 then Ok (sign ++ whole)
            else
              Ok (sign ++ whole ++ "."
                    ++ pad_zeros (Z.to_nat k) (itoa (d mod 10 ^ k)))
        | None => Err "float outside the exact decimals"
        end
  end.

(** *** Decoding *)

Definition kind (d : doc) : string :=
  match d with
  | JNull => "null"
  | JBool _ => "bool"
  | JNumber _ => "number"
  | JString _ => "string"
  | JArray _ => "array"
  | JObject _ => "object"
  end.

Definition mismatch {A : Type} (d : doc) (type : string) : result A :=
  Err ("json: cannot unmarshal " ++ kind d ++ " into Go value of type " ++ type).

Definition lower (c : ascii) : ascii :=
  if json.in_range 65 90 c then byte (N_of_ascii c + 32) else c.

Fixpoint fold_case (s : string) : string :=
  match s with
  | String c rest => String (lower c) (fold_case rest)
  | EmptyString => EmptyString
  end.

(** The member that sets the field tagged [name]: the last one whose
    key matches. *)
Definition field (name : string) (members : list (string * (bytes * doc)))
  : option (bytes * doc) :=
  snd <$> last (filter (λ m, String.eqb (fold_case m.1) (fold_case name) = true) members).

Definition members_of (type : string) (d : doc)
  : result (list (string * (bytes * doc))) :=
  match d with
  | JObject ms => Ok ms
  | JNull => Ok []
  | _ => mismatch d type
  end.

Definition decode_string (d : option (bytes * doc)) : result string :=
  match d with
  | None | Some (_, JNull) => Ok ""
  | Some (_, JString s) => Ok s
  | Some (_, d) => mismatch d "string"
  end.

Definition decode_int (bits : Z) (d : option (bytes * doc)) : result Z :=
  match d with
  | None | Some (_, JNull) => Ok 0
  | Some (_, JNumber lit) =>
      match parse_int lit with
      | Some z =>
          if (- 2 ^ (bits - 1) <=? z) && (z <? 2 ^ (bits - 1)) then Ok z
          else Err ("json: cannot unmarshal number " ++ lit ++ " into Go value of type int")
      | None => Err ("json: cannot unmarshal number " ++ lit ++ " into Go value of type int")
      end
  | Some (_, d) => mismatch d "int"
  end.

Definition decode_int_ptr (d : option (bytes * doc)) : result (option Z) :=
  match d with
  | None | Some (_, JNull) => Ok None
  | Some _ => z ← decode_int 64 d; Ok (Some z)
  end.

Definition decode_float (d : option (bytes * doc)) : result float :=
  match d with
  | None | Some (_, JNull) => Ok 0%float
  | Some (_, JNumber lit) =>
      match parse_float lit with
      | Some f => Ok f
      | None => Err ("number outside the exact decimals: " ++ lit)
      end
  | Some (_, d) => mismatch d "float64"
  end.

Definition decode_bool (d : option (bytes * doc)) : result bool :=
  match d with
  | None | Some (_, JNull) => Ok false
  | Some (_, JBool b) => Ok b
  | Some (_, d) => mismatch d "bool"
  end.

(** A [json.RawMessage] field: the text of the member. *)
Definition decode_raw (d : option (bytes * doc)) : bytes :=
  match d with
  | None => ""
  | Some (raw, _) => raw
  end.

Fixpoint traverse {A B : Type} (f : A → result B) (xs : list A)
  : result (list B) :=
  match xs with
  | [] => Ok []
  | x :: rest => y ← f x; ys ← traverse f rest; Ok (y :: ys)
  end.

Definition decode_slice {A : Type} (type : string) (f : doc → result A)
    (d : option (bytes * doc)) : result (list A) :=
  match d with
  | None | Some (_, JNull) => Ok []
  | Some (_, JArray xs) => traverse f xs
  | Some (_, d) => mismatch d type
  end.

Definition decode_ptr {A : Type} (f : doc → result A)
    (d : option (bytes * doc)) : result (option A) :=
  match d with
  | None | Some (_, JNull) => Ok None
  | Some (_, d) => x ← f d; Ok (Some x)
  end.

Definition decode_Format (d : doc) : result Format.t :=
  ms ← members_of "openrtb2.Format" d;
  w ← decode_int 64 (field "w" ms);
  h ← decode_int 64 (field "h" ms);
  Ok (Format.mk w h).

Definition decode_Banner (d : doc) : result Banner.t :=
  ms ← members_of "openrtb2.Banner" d;
  format ← decode_slice "[]openrtb2.Format" decode_Format (field "format" ms);
  w ← decode_int_ptr (field "w" ms);
  h ← decode_int_ptr (field "h" ms);
  Ok (Banner.mk format w h).

Definition decode_Imp (d : doc) : result Imp.t :=
  ms ← members_of "openrtb2.Imp" d;
  id ← decode_string (field "id" ms);
  banner ← decode_ptr decode_Banner (field "banner" ms);
  bidfloor ← decode_float (field "bidfloor" ms);
  bidfloorcur ← decode_string (field "bidfloorcur" ms);
  Ok (Imp.mk id banner bidfloor bidfloorcur (decode_raw (field "ext" ms))).

Definition decode_Site (d : doc) : result Site.t :=
  ms ← members_of "openrtb2.Site" d;
  id ← decode_string (field "id" ms);
  domain ← decode_string (field "domain" ms);
  page ← decode_string (field "page" ms);
  Ok (Site.mk id domain page).

Definition decode_BidRequest (d : doc) : result (BidRequest.t * option Site.t) :=
  ms ← members_of "openrtb2.BidRequest" d;
  id ← decode_string (field "id" ms);
  imp ← decode_slice "[]openrtb2.Imp" decode_Imp (field "imp" ms);
  site ← decode_ptr decode_Site (field "site" ms);
  test ← decode_int 8 (field "test" ms);
  at_ ← decode_int 64 (field "at" ms);
  tmax ← decode_int 64 (field "tmax" ms);
  Ok (BidRequest.mk id imp None test at_ tmax (decode_raw (field "ext" ms)), site).

Definition decode_Bid (d : doc) : result Bid.t :=
  ms ← members_of "openrtb2.Bid" d;
  id ← decode_string (field "id" ms);
  impid ← decode_string (field "impid" ms);
  price ← decode_float (field "price" ms);
  adm ← decode_string (field "adm" ms);
  Ok (Bid.mk id impid price adm).

Definition decode_SeatBid (d : doc) : result SeatBid.t :=
  ms ← members_of "openrtb2.SeatBid" d;
  bid ← decode_slice "[]openrtb2.Bid" decode_Bid (field "bid" ms);
  seat ← decode_string (field "seat" ms);
  Ok (SeatBid.mk bid seat).

Definition decode_BidResponse (d : doc) : result BidResponse.t :=
  ms ← members_of "openrtb2.BidResponse" d;
  id ← decode_string (field "id" ms);
  seatbid ← decode_slice "[]openrtb2.SeatBid" decode_SeatBid (field "seatbid" ms);
  Ok (BidResponse.mk id seatbid).

(** [json.Unmarshal]: the syntax of the whole input first, then the
    value. *)
Definition Unmarshal {A : Type} (decode : doc → result A) (data : bytes)
  : result A :=
  match parse data with
  | Some d => decode d
  | None => Err "invalid character in JSON text"
  end.

(** A YAML member is found by its exact key. *)
Definition yaml_field (name : string) (members : list (string * (bytes * doc)))
  : option (bytes * doc) :=
  snd <$> last (filter (λ m, String.eqb m.1 name = true) members).

Definition yaml_mapping (d : option (bytes * doc))
  : result (list (string * (bytes * doc))) :=
  match d with
  | None | Some (_, JNull) => Ok []
  | Some (_, JObject ms) => Ok ms
  | Some _ => Err "yaml: unmarshal errors: cannot unmarshal into struct"
  end.

Definition decode_PBSConfig (data : bytes) : result PBSConfig.t :=
  match skip_ws data with
  | EmptyString =>
      Ok (PBSConfig.mk (PBSConfig.Adapters.mk
            (PBSConfig.SmartAdServer.mk false "" 0 (PBSConfig.DefaultConfig.mk 0 0 0 0))))
  | String _ _ =>
      match parse data with
      | None => Err "yaml: not a flow-style document"
      | Some d =>
          root ← yaml_mapping (Some ("", d));
          adapters ← yaml_mapping (yaml_field "adapters" root);
          sas ← yaml_mapping (yaml_field "smartadserver" adapters);
          enabled ← decode_bool (yaml_field "enabled" sas);
          endpoint ← decode_string (yaml_field "endpoint" sas);
          platform ← decode_int 64 (yaml_field "platform-id" sas);
          dc ← yaml_mapping (yaml_field "default-config" sas);
          site ← decode_int 64 (yaml_field "site-id" dc);
          page ← decode_int 64 (yaml_field "page-id" dc);
          format ← decode_int 64 (yaml_field "format-id" dc);
          platform' ← decode_int 64 (yaml_field "platform-id" dc);
          Ok (PBSConfig.mk (PBSConfig.Adapters.mk
                (PBSConfig.SmartAdServer.mk enabled endpoint platform
                   (PBSConfig.DefaultConfig.mk site page format platform'))))
      end
  end.

(** *** Encoding *)

(** A struct field: left out when [omitempty] applies. *)
Definition member (name : string) (omit : bool) (enc : result bytes)
  : result (list (string * bytes)) :=
  if omit then Ok [] else b ← enc; Ok [(name, b)].

Definition object (fields : list (result (list (string * bytes))))
  : result bytes :=
  ms ← traverse id fields;
  Ok (json.object (concat ms)).

Definition array {A : Type} (enc : A → result bytes) (xs : list A)
  : result bytes :=
  match xs with
  | [] => Ok "null"
  | _ => bs ← traverse enc xs; Ok (json.array bs)
  end.

Definition is_nil {A : Type} (p : option A) : bool :=
  match p with
  | None => true
  | Some _ => false
  end.

Definition is_empty {A : Type} (xs : list A) : bool :=
  match xs with
  | [] => true
  | _ :: _ => false
  end.

Definition ptr {A : Type} (enc : A → result bytes) (p : option A)
  : result bytes :=
  match p with
  | None => Ok "null"
  | Some x => enc x
  end.

(** [RawMessage.MarshalJSON] followed by the encoder's compaction. *)
Definition raw_message (m : bytes) : result bytes :=
  match compact (if String.eqb m "" then "null" else m) with
  | Ok b => Ok b
  | Err e => Err ("json: error calling MarshalJSON for type json.RawMessage: " ++ e)
  end.

Definition encode_int (z : Z) : result bytes := Ok (itoa z).
Definition encode_string (s : string) : result bytes := Ok (json.quote s).

Definition encode_Format (f : Format.t) : result bytes :=
  object [
    member "w" (Format.W f =? 0) (encode_int (Format.W f));
    member "h" (Format.H f =? 0) (encode_int (Format.H f))
  ].

Definition encode_Banner (b : Banner.t) : result bytes :=
  object [
    member "format" (is_empty (Banner.Format b)) (array encode_Format (Banner.Format b));
    member "w" (is_nil (Banner.W b)) (ptr encode_int (Banner.W b));
    member "h" (is_nil (Banner.H b)) (ptr encode_int (Banner.H b))
  ].

Definition encode_Imp (i : Imp.t) : result bytes :=
  object [
    member "id" false (encode_string (Imp.ID i));
    member "banner" (is_nil (Imp.Banner i)) (ptr encode_Banner (Imp.Banner i));
    member "bidfloor" (Leibniz.eqb (Imp.BidFloor i) 0%float) (format_float (Imp.BidFloor i));
    member "bidfloorcur" (String.eqb (Imp.BidFloorCur i) "") (encode_string (Imp.BidFloorCur i));
    member "ext" (String.eqb (Imp.Ext i) "") (raw_message (Imp.Ext i))
  ].

Definition encode_Site (s : Site.t) : result bytes :=
  object [
    member "id" (String.eqb (Site.ID s) "") (encode_string (Site.ID s));
    member "domain" (String.eqb (Site.Domain s) "") (encode_string (Site.Domain s));
    member "page" (String.eqb (Site.Page s) "") (encode_string (Site.Page s))
  ].

Definition encode_BidRequest (r : BidRequest.t) (site : option Site.t)
  : result bytes :=
  object [
    member "id" false (encode_string (BidRequest.ID r));
    member "imp" false (array encode_Imp (BidRequest.Imp r));
    member "site" (is_nil site) (ptr encode_Site site);
    member "test" (BidRequest.Test r =? 0) (encode_int (BidRequest.Test r));
    member "at" (BidRequest.AT r =? 0) (encode_int (BidRequest.AT r));
    member "tmax" (BidRequest.TMax r =? 0) (encode_int (BidRequest.TMax r));
    member "ext" (String.eqb (BidRequest.Ext r) "") (raw_message (BidRequest.Ext r))
  ].

#[global] Instance codec : Codec := {|
  json_Marshal_BidRequest := encode_BidRequest;
  json_Unmarshal_BidRequest := Unmarshal decode_BidRequest;
  json_Unmarshal_BidResponse := Unmarshal decode_BidResponse;
  yaml_Unmarshal_PBSConfig := decode_PBSConfig
|}.

End reference.

(* ===================================================================== *)
(** ** Notions used in the statements *)
(* ===================================================================== *)

(** Keys in strictly increasing byte order. *)
Fixpoint increasing (keys : list string) : bool :=
  match keys with
  | k1 :: (k2 :: _) as rest => String.ltb k1 k2 && increasing rest
  | _ => true
  end.

(** The text [json.Marshal] gives for [impExt a domain]. *)
Definition impExtJSON (a : SmartAdServerAdapter) (domain : string) : bytes :=
  json.object [
    ("prebid", json.object [
      ("bidder", json.object [
        ("smartadserver", json.object [
          ("domain", json.quote domain);
          ("formatId", itoa (PBSConfig.DefaultConfig.FormatID (defaultConfig a)));
          ("networkId", itoa (platformID a));
          ("pageId", itoa (PBSConfig.DefaultConfig.PageID (defaultConfig a)));
          ("siteId", itoa (PBSConfig.DefaultConfig.SiteID (defaultConfig a)));
          ("target", json.quote "testing=prebid")
        ])
      ])
    ])
  ].

(** The member of a marshalled object [v] under a path of keys. *)
Fixpoint at_path (path : list string) (v : json.value) : option json.value :=
  match path, v with
  | [], _ => Some v
  | k :: rest, json.VMap m =>
      match m !! k with
      | Some v' => at_path rest v'
      | None => None
      end
  | _ :: _, _ => None
  end.

(** Values made of integers, strings and maps of such values only. *)
Inductive plain : json.value → Prop :=
  | plain_int z : plain (json.VInt z)
  | plain_string s : plain (json.VString s)
  | plain_map m : map_Forall (λ _ v, plain v) m → plain (json.VMap m).

(** The path of the bidder parameters in the impression extension. *)
Definition bidder_params : list string := ["prebid"; "bidder"; "smartadserver"].

(** The condition of line 136 on the [Site] of the request. *)
Definition lacks_page (s : Site.t) : bool :=
  String.eqb (Site.Page s) "" && negb (String.eqb (Site.Domain s) "").

(** The [Site] the outbound request carries, for the [Site] [s] of the
    inbound one. *)
Definition wire_site (s : Site.t) : Site.t :=
  if lacks_page s then Site.with_Page ("https://" ++ Site.Domain s) s else s.

(** The impression and the request that [MakeRequests] serializes, for
    the first impression [imp] of [request] and its [Site] [s]. *)
Definition wire_imp (a : SmartAdServerAdapter) (s : Site.t) (imp : Imp.t) : Imp.t :=
  enrichImp (impExtJSON a (Site.Domain s)) imp.

Definition wire_request (a : SmartAdServerAdapter) (s : Site.t) (imp : Imp.t)
    (request : BidRequest.t) : BidRequest.t :=
  enrichRequest (wire_imp a s imp) request.

(** The bids of a response, seat after seat, each tagged. *)
Definition tagged_bids (bidResp : BidResponse.t) : list TypedBid.t :=
  concat ((λ seatBid, (λ bid, TypedBid.mk bid "banner") <$> SeatBid.Bid seatBid)
            <$> BidResponse.SeatBid bidResp).

(** The locations a request refers to are allocated. *)
Definition allocated (h : Heap) (request : BidRequest.t) : Prop :=
  ∀ l, BidRequest.Site request = Some l → is_Some (h !! l).

(** JSON text written with apostrophes for the double quotes. *)
Fixpoint json_text (s : string) : bytes :=
  match s with
  | String c rest =>
      String (if Ascii.eqb c "'" then double_quote else c) (json_text rest)
  | EmptyString => EmptyString
  end.

(** Sample inputs. *)
Module sample.

Definition adapter : SmartAdServerAdapter :=
  mkAdapter "https://prg.smartadserver.com/prebid/v1" 1234
    (PBSConfig.DefaultConfig.mk 11 22 33 44).

Definition site_location : loc := 1%positive.

(** The request of the specification's scenario: one impression with an
    id only, and a site with a domain only. *)
Definition request : BidRequest.t :=
  BidRequest.mk "" [Imp.mk "1" None 0%float "" ""] (Some site_location) 0 0 0 "".

Definition site : Site.t := Site.mk "" "example.com" "".

Definition heap : Heap := {[ site_location := site ]}.

(** An impression whose banner gives a size and no format list. *)
Definition sized_banner_request : BidRequest.t :=
  BidRequest.mk "" [Imp.mk "1" (Some (Banner.mk [] (Some 300) (Some 250))) 0%float "" ""]
    (Some site_location) 0 0 0 "".

(** An app request: an impression and no site. *)
Definition siteless_request : BidRequest.t :=
  BidRequest.mk "" [Imp.mk "1" None 0%float "" ""] None 0 0 0 "".

Definition two_seats : bytes :=
  json_text "{'id':'r','seatbid':[{'bid':[{'id':'b1','impid':'1','price':1.25,'adm':'<div>'}],'seat':'s1'},{'bid':[{'id':'b2','impid':'1','price':0.5}]}]}".

Definition disabled_config : bytes :=
  json_text "{'adapters': {'smartadserver': {'enabled': false, 'endpoint': 'https://prg.smartadserver.com/prebid/v1', 'platform-id': 1234}}}".

Definition enabled_config : bytes :=
  json_text "{'adapters': {'smartadserver': {'enabled': true, 'endpoint': 'https://prg.smartadserver.com/prebid/v1', 'platform-id': 1234, 'default-config': {'site-id': 11, 'page-id': 22, 'format-id': 33, 'platform-id': 44}}}}".

Definition broken_config : bytes := "adapters: [".

(** The site of [request] once [MakeRequests] has run. *)
Definition site_with_page : Site.t :=
  Site.mk "" "example.com" "https://example.com".

(** The wire body for [request]. *)
Definition wire_body : bytes :=
  json_text "{'id':'','imp':[{'id':'1','banner':{'format':[{'w':728,'h':90}]},'bidfloor':0.01,'bidfloorcur':'USD','ext':{'prebid':{'bidder':{'smartadserver':{'domain':'example.com','formatId':33,'networkId':1234,'pageId':22,'siteId':11,'target':'testing=prebid'}}}}}],'site':{'domain':'example.com','page':'https://example.com'},'test':1,'at':1,'tmax':1000}".

(** The wire body for [sized_banner_request]. *)
Definition sized_banner_body : bytes :=
  json_text "{'id':'','imp':[{'id':'1','banner':{'w':300,'h':250},'bidfloor':0.01,'bidfloorcur':'USD','ext':{'prebid':{'bidder':{'smartadserver':{'domain':'example.com','formatId':33,'networkId':1234,'pageId':22,'siteId':11,'target':'testing=prebid'}}}}}],'site':{'domain':'example.com','page':'https://example.com'},'test':1,'at':1,'tmax':1000}".

(** What [two_seats] decodes to. *)
Definition two_seats_response : BidResponse.t :=
  BidResponse.mk "r" [
    SeatBid.mk [Bid.mk "b1" "1" 1.25%float "<div>"] "s1";
    SeatBid.mk [Bid.mk "b2" "1" 0.5%float ""] ""
  ].

Definition response (status : Z) (body : bytes) : HttpResponse.t :=
  HttpResponse.mk status body ∅.

(** A backend that answers every request with 204 and no body. *)
Definition no_bid_backend : main.Backend :=
  {| main.round_trip := λ _, Ok (response 204 "") |}.

(** A backend that is reached at the adapter's endpoint only, where it
    answers 200 with the body it was sent. *)
Definition echo_backend : main.Backend :=
  {| main.round_trip := λ req,
       if String.eqb (HttpRequest.Uri req) (endpoint adapter)
       then Ok (response 200 (HttpRequest.Body req))
       else Err "backend unreachable" |}.

End sample.

(** [request] handed to [a], for which [MakeRequests] returns exactly one
    request and no error, whose body decodes to a request with exactly
    one impression, with bid floor 0.01, currency USD and a banner with a
    format list that is not empty. *)
Definition one_impression_with_formats `{Codec}
    (a : SmartAdServerAdapter) (request : BidRequest.t) (h : Heap) : Prop :=
  ∃ (w : HttpRequest.t) (h' : Heap),
    MakeRequests a request h = Returned (([w], []), h') ∧
    ∃ (decoded : BidRequest.t) (site : option Site.t) (i : Imp.t) (b : Banner.t),
      json_Unmarshal_BidRequest (HttpRequest.Body w) = Ok (decoded, site) ∧
      BidRequest.Imp decoded = [i] ∧
      Imp.BidFloor i = 0.01%float ∧
      Imp.BidFloorCur i = "USD" ∧
      Imp.Banner i = Some b ∧
      Banner.Format b ≠ [].

(** The two shapes of a result: one request and no error, or no request
    and one error. *)
Definition requests_or_errors (out : list HttpRequest.t * list error) : Prop :=
  (∃ w, out = ([w], [])) ∨ (∃ e, out = ([], [e])).

(** The answers the handler writes on its own account. *)
Definition own_answer (status : Z) : main.Response :=
  main.mkResponse status "" None.

(** The answer that relays a response of the backend. *)
Definition relayed (beresp : HttpResponse.t) : main.Response :=
  main.mkResponse (HttpResponse.StatusCode beresp) (HttpResponse.Body beresp)
    (Some "application/json").

(** The round trip of a request fails. *)
Definition fails `{main.Backend} (req : HttpRequest.t) : Prop :=
  ∃ err, main.round_trip req = Err err.

(** [strings.ToValidUTF8(s, U+FFFD)] byte by byte: what a reader of a
    string literal gets back. [copy] bytes continue a rune already
    begun. *)
Fixpoint valid_utf8 (copy : nat) (s : string) : string :=
  match s with
  | EmptyString => EmptyString
  | String c rest =>
      match copy with
      | S k => String c (valid_utf8 k rest)
      | O =>
          if (N_of_ascii c <? 128)%N then String c (valid_utf8 O rest)
          else
            match json.rune_size c rest with
            | Some size => String c (valid_utf8 (size - 1) rest)
            | None =>
                jsontext.encode_rune jsontext.replacement ++ valid_utf8 O rest
            end
      end
  end.

(** Every byte is below [utf8.RuneSelf]. *)
Fixpoint ascii_only (s : string) : bool :=
  match s with
  | String c rest => (N_of_ascii c <? 128)%N && ascii_only rest
  | EmptyString => true
  end.

(** What may follow a value: nothing, or the comma or the bracket that
    closes the enclosing value. *)
Definition closes (R : string) : bool :=
  match R with
  | EmptyString => true
  | String c _ => Ascii.eqb c "," || Ascii.eqb c "}" || Ascii.eqb c "]"
  end.

(** The text [v] is read as the value [d], whatever closes it. *)
Definition reads (v : string) (d : jsontext.doc) : Prop :=
  (∀ R, jsontext.skip_ws (v ++ R) = v ++ R) ∧
  ∀ f R, (String.length v ≤ f)%nat → closes R = true →
    jsontext.parse_value f (v ++ R) = Some (d, R).

(** The member [m] of an object text is read as the member [d]. *)
Definition member_reads (m : string * bytes)
    (d : string * (bytes * jsontext.doc)) : Prop :=
  d.1 = valid_utf8 0 m.1 ∧ d.2.1 = m.2 ∧ reads m.2 d.2.2.

(** What the extension of the impression reads back as: each member
    with its text and its value. *)
Definition impExt_doc (a : SmartAdServerAdapter) (domain : string)
  : jsontext.doc :=
  let number z := (itoa z, jsontext.JNumber (itoa z)) in
  let string s := (json.quote s, jsontext.JString (valid_utf8 0 s)) in
  let params := [
    ("domain", json.quote domain);
    ("formatId", itoa (PBSConfig.DefaultConfig.FormatID (defaultConfig a)));
    ("networkId", itoa (platformID a));
    ("pageId", itoa (PBSConfig.DefaultConfig.PageID (defaultConfig a)));
    ("siteId", itoa (PBSConfig.DefaultConfig.SiteID (defaultConfig a)));
    ("target", json.quote "testing=prebid")
  ] in
  let object k v d := jsontext.JObject [(k, (v, d))] in
  object "prebid"
    (json.object [("bidder", json.object [("smartadserver", json.object params)])])
    (object "bidder"
       (json.object [("smartadserver", json.object params)])
       (object "smartadserver" (json.object params)
          (jsontext.JObject [
             ("domain", string domain);
             ("formatId", number (PBSConfig.DefaultConfig.FormatID (defaultConfig a)));
             ("networkId", number (platformID a));
             ("pageId", number (PBSConfig.DefaultConfig.PageID (defaultConfig a)));
             ("siteId", number (PBSConfig.DefaultConfig.SiteID (defaultConfig a)));
             ("target", string "testing=prebid")
           ]))).

(** The text of an object. *)
Definition object_text_of (e : string) : Prop := ∃ r, e = String "{" r.

(** Compaction leaves the text [v] as it is, outside a string. *)
Definition compact_stable (v : string) : Prop :=
  ∀ X, jsontext.compact_from false false 0 (v ++ X)
       = v ++ jsontext.compact_from false false 0 X.

(** A byte that continues a rune. *)
Definition high (c : ascii) : Prop := json.in_range 128 191 c = true.

(** [z] fits a signed integer of [bits] bits. *)
Definition fits (bits : Z) (z : Z) : Prop :=
  - 2 ^ (bits - 1) ≤ z < 2 ^ (bits - 1).

(** The integers of a banner are [int64] values. *)
Definition banner_fits (b : Banner.t) : Prop :=
  Forall (λ f, fits 64 (Format.W f) ∧ fits 64 (Format.H f)) (Banner.Format b) ∧
  (∀ w, Banner.W b = Some w → fits 64 w) ∧
  (∀ h, Banner.H b = Some h → fits 64 h).

(** The encoding [enc] of a struct is the text of an object, which is
    read as a document that decodes to [x]. *)
Definition decodes {A : Type} (enc : result bytes)
    (decode : jsontext.doc → result A) (x : A) : Prop :=
  ∃ ms ds,
    enc = Ok (json.object ms) ∧ Forall2 member_reads ms ds ∧
    decode (jsontext.JObject ds) = Ok x.

(** A Site as it is read back: its strings made valid UTF-8. *)
Definition valid_site (s : Site.t) : Site.t :=
  Site.mk (valid_utf8 0 (Site.ID s)) (valid_utf8 0 (Site.Domain s))
    (valid_utf8 0 (Site.Page s)).

(** The banner [MakeRequests] sends for an impression: its own, or the
    default one. *)
Definition wire_banner (imp : Imp.t) : Banner.t :=
  match Imp.Banner imp with
  | Some b => b
  | None => Banner.mk [Format.mk 728 90] None None
  end.

(** The impression that the body of the outbound request decodes to. *)
Definition decoded_imp (a : SmartAdServerAdapter) (s : Site.t) (imp : Imp.t)
  : Imp.t :=
  Imp.mk (valid_utf8 0 (Imp.ID imp)) (Some (wire_banner imp)) 0.01%float "USD"
    (impExtJSON a (Site.Domain s)).

(** The request and the Site that the body of the outbound request
    decodes to. *)
Definition decoded_request (a : SmartAdServerAdapter) (s : Site.t)
    (imp : Imp.t) (request : BidRequest.t) : BidRequest.t * option Site.t :=
  (BidRequest.mk (valid_utf8 0 (BidRequest.ID request)) [decoded_imp a s imp]
     None 1 1 1000 "",
   Some (valid_site (wire_site s))).

(* ===================================================================== *)
(** * Properties *)
(* ===================================================================== *)

(** ** The order of map keys *)

Section key_order.

Lemma ascii_compare_refl c : Ascii.compare c c = Eq.
Proof. unfold Ascii.compare. apply N.compare_refl. Qed.

Lemma string_compare_trans_le s1 : ∀ s2 s3,
  String.compare s1 s2 ≠ Gt → String.compare s2 s3 ≠ Gt →
  String.compare s1 s3 ≠ Gt.
Proof.
  induction s1 as [|c1 s1 IH]; intros [|c2 s2] [|c3 s3]; simpl; try congruence.
  unfold Ascii.compare.
  destruct (N.compare_spec (N_of_ascii c1) (N_of_ascii c2)) as [E12|L12|G12];
    destruct (N.compare_spec (N_of_ascii c2) (N_of_ascii c3)) as [E23|L23|G23];
    destruct (N.compare_spec (N_of_ascii c1) (N_of_ascii c3)) as [E13|L13|G13];
    try congruence; try lia; eauto.
Qed.

Lemma leb_trans s1 s2 s3 :
  String.leb s1 s2 = true → String.leb s2 s3 = true → String.leb s1 s3 = true.
Proof.
  unfold String.leb. intros H12 H23.
  pose proof (string_compare_trans_le s1 s2 s3) as T.
  destruct (String.compare s1 s2), (String.compare s2 s3), (String.compare s1 s3);
    try discriminate; try reflexivity; exfalso; apply T; congruence.
Qed.

Lemma ltb_leb s1 s2 : String.ltb s1 s2 = true → String.leb s1 s2 = true.
Proof.
  unfold String.ltb, String.leb. destruct (String.compare s1 s2); congruence.
Qed.

Lemma ltb_irrefl s : String.ltb s s = false.
Proof.
  unfold String.ltb. induction s as [|c s IH]; simpl; [reflexivity|].
  rewrite ascii_compare_refl. exact IH.
Qed.

Lemma ltb_trans s1 s2 s3 :
  String.ltb s1 s2 = true → String.ltb s2 s3 = true → String.ltb s1 s3 = true.
Proof.
  intros H12 H23.
  assert (L13 : String.leb s1 s3 = true)
    by (eapply leb_trans; eauto using ltb_leb).
  unfold String.ltb, String.leb in *.
  destruct (String.compare s1 s3) eqn:E; try congruence.
  apply String.compare_eq_iff in E. subst s3.
  assert (s1 = s2).
  { apply String.leb_antisym; unfold String.leb.
    - destruct (String.compare s1 s2); congruence.
    - destruct (String.compare s2 s1); congruence. }
  subst s2. pose proof (ltb_irrefl s1) as I. unfold String.ltb in I.
  destruct (String.compare s1 s1); congruence.
Qed.

#[local] Instance key_le_trans : Transitive json.key_le.
Proof. intros x y z. unfold json.key_le. apply leb_trans. Qed.

#[local] Instance key_le_total : Total json.key_le.
Proof. intros x y. unfold json.key_le. apply String.leb_total. Qed.

Lemma increasing_cons k ks :
  increasing (k :: ks) = true →
  Forall (λ k', String.ltb k k' = true) ks ∧ increasing ks = true.
Proof.
  revert k. induction ks as [|k2 ks IH]; intros k Hinc; [by split|].
  cbn [increasing] in Hinc. apply andb_prop in Hinc as [Hk Hrest].
  split; [|exact Hrest].
  constructor; [exact Hk|].
  destruct (IH _ Hrest) as [Hall _].
  eapply Forall_impl; [exact Hall|]. intros k' Hk'. eapply ltb_trans; eauto.
Qed.

Lemma increasing_NoDup ks : increasing ks = true → NoDup ks.
Proof.
  induction ks as [|k ks IH]; intros Hinc; [constructor|].
  destruct (increasing_cons _ _ Hinc) as [Hall Hrest].
  constructor; [|auto].
  intros Hin. rewrite Forall_forall in Hall.
  specialize (Hall _ Hin). rewrite ltb_irrefl in Hall. discriminate.
Qed.

Lemma increasing_Sorted (entries : list (string * json.value)) :
  increasing (entries.*1) = true →
  Sorted json.key_le ((λ kv, (kv.1, json.Marshal kv.2)) <$> entries).
Proof.
  induction entries as [|x entries IH]; intros Hinc; [constructor|].
  destruct (increasing_cons _ _ Hinc) as [Hall Hrest].
  cbn. constructor; [auto|].
  destruct entries as [|y entries]; cbn; constructor.
  unfold json.key_le. cbn. apply ltb_leb. by inversion Hall.
Qed.

End key_order.

(** ** [json.Marshal] on maps *)

Section marshal_map.
Existing Instance key_le_trans.
Existing Instance key_le_total.

Lemma Marshal_VMap_entries (m : gmap string json.value) :
  json.Marshal (json.VMap m) =
  match json.sequence
          (merge_sort json.key_le
             ((λ kv, (kv.1, json.Marshal kv.2)) <$> map_to_list m)) with
  | Ok bs => Ok (json.object bs)
  | Err e => Err e
  end.
Proof.
  cbn [json.Marshal]. rewrite map_fold_foldr.
  replace (foldr _ [] (map_to_list m))
    with ((λ kv : string * json.value, (kv.1, json.Marshal kv.2)) <$> map_to_list m).
  - reflexivity.
  - induction (map_to_list m) as [|[k v] l IH]; cbn; [reflexivity|].
    f_equal. exact IH.
Qed.

(** The members of a map are written in the order of their keys,
    whatever order the map was built or is traversed in. *)
Lemma Marshal_object (entries : list (string * json.value)) :
  increasing (entries.*1) = true →
  json.Marshal (json.VMap (list_to_map entries)) =
  match json.sequence ((λ kv, (kv.1, json.Marshal kv.2)) <$> entries) with
  | Ok bs => Ok (json.object bs)
  | Err e => Err e
  end.
Proof.
  intros Hinc. rewrite Marshal_VMap_entries.
  set (g := λ kv : string * json.value, (kv.1, json.Marshal kv.2)).
  assert (Hnd : NoDup (entries.*1)) by by apply increasing_NoDup.
  assert (Hperm :
    merge_sort json.key_le
      (g <$> map_to_list (list_to_map entries : gmap string json.value))
    ≡ₚ g <$> entries).
  { rewrite merge_sort_Permutation. by rewrite map_to_list_to_map. }
  replace (merge_sort json.key_le
             (g <$> map_to_list (list_to_map entries : gmap string json.value)))
    with (g <$> entries); [reflexivity|].
  symmetry. eapply (Sorted_unique_strong json.key_le); [| | |exact Hperm].
  - intros x1 x2 Hx1 Hx2 H12 H21.
    rewrite Hperm in Hx1.
    apply list_elem_of_fmap in Hx1 as [[k1 v1] [-> Hin1]].
    apply list_elem_of_fmap in Hx2 as [[k2 v2] [-> Hin2]].
    unfold json.key_le, g in *; cbn in *.
    assert (k1 = k2) by by apply String.leb_antisym. subst k2.
    assert (v1 = v2); [|by subst].
    pose proof (elem_of_list_to_map_1 (M := gmap string) entries k1 v1 Hnd Hin1) as E1.
    pose proof (elem_of_list_to_map_1 (M := gmap string) entries k1 v2 Hnd Hin2) as E2.
    congruence.
  - apply Sorted_merge_sort; apply _.
  - by apply increasing_Sorted.
Qed.

(** The extension map, listed by increasing key. *)
Lemma impExt_entries a domain :
  impExt a domain =
  json.VMap (list_to_map [
    ("prebid", json.VMap (list_to_map [
      ("bidder", json.VMap (list_to_map [
        ("smartadserver", json.VMap (list_to_map [
          ("domain", json.VString domain);
          ("formatId", json.VInt (PBSConfig.DefaultConfig.FormatID (defaultConfig a)));
          ("networkId", json.VInt (platformID a));
          ("pageId", json.VInt (PBSConfig.DefaultConfig.PageID (defaultConfig a)));
          ("siteId", json.VInt (PBSConfig.DefaultConfig.SiteID (defaultConfig a)));
          ("target", json.VString "testing=prebid")]))]))]))]).
Proof. reflexivity. Qed.

(** Marshalling the extension always succeeds, with this text. *)
Lemma Marshal_impExt a domain :
  json.Marshal (impExt a domain) = Ok (impExtJSON a domain).
Proof.
  rewrite impExt_entries.
  do 4 (rewrite Marshal_object by reflexivity;
        cbn [fmap list_fmap fst snd json.sequence]).
  reflexivity.
Qed.

Lemma sequence_all_ok {K : Type} (xs : list (K * result bytes)) :
  Forall (λ x, ∃ b, x.2 = Ok b) xs → ∃ bs, json.sequence xs = Ok bs.
Proof.
  induction 1 as [|[k r] xs [b Hb] _ [bs IH]]; cbn; [eauto|].
  cbn in Hb. subst r. rewrite IH. eauto.
Qed.

(** The encoder has no error for a value made of integers, strings and
    maps. *)
Lemma plain_marshals : ∀ v, plain v → ∃ b, json.Marshal v = Ok b.
Proof.
  fix IH 2. intros v Hv. destruct Hv as [z|s|m Hm].
  - cbn. eauto.
  - cbn. eauto.
  - rewrite Marshal_VMap_entries.
    destruct (sequence_all_ok
                (merge_sort json.key_le
                   ((λ kv, (kv.1, json.Marshal kv.2)) <$> map_to_list m)))
      as [bs Hbs]; [|rewrite Hbs; eauto].
    rewrite merge_sort_Permutation.
    apply Forall_fmap, Forall_forall. intros [k x] Hkx. cbn.
    apply elem_of_map_to_list in Hkx.
    apply IH. exact (Hm k x Hkx).
Qed.

Lemma plain_impExt a domain : plain (impExt a domain).
Proof.
  unfold impExt.
  repeat first
    [ apply plain_int | apply plain_string
    | apply plain_map
    | apply map_Forall_insert_2
    | apply map_Forall_singleton
    | apply map_Forall_empty ].
Qed.

Lemma sequence_members (entries : list (string * json.value))
    (texts : list (string * bytes)) :
  Forall2 (λ kv kb, kb.1 = kv.1 ∧ json.Marshal kv.2 = Ok kb.2) entries texts →
  json.sequence ((λ kv, (kv.1, json.Marshal kv.2)) <$> entries) = Ok texts.
Proof.
  induction 1 as [|[k v] [k' b] entries texts [Hk Hb] _ IH]; cbn; [done|].
  cbn in Hk, Hb. subst k'. by rewrite Hb, IH.
Qed.

(** X7. [json.Marshal] of a map writes its members by increasing key,
    whatever order the map was filled in: when the entries, listed by
    increasing key, marshal to the given texts, the map marshals to the
    object that lists those texts in that order. *)
Theorem Marshal_writes_members_by_key
    (entries : list (string * json.value)) (texts : list (string * bytes)) :
  increasing (entries.*1) = true →
  Forall2 (λ kv kb, kb.1 = kv.1 ∧ json.Marshal kv.2 = Ok kb.2) entries texts →
  json.Marshal (json.VMap (list_to_map entries)) = Ok (json.object texts).
Proof.
  intros Hinc Htexts. rewrite Marshal_object by exact Hinc.
  by rewrite (sequence_members entries texts Htexts).
Qed.

(** X6. Marshalling the impression extension has no error, for every
    adapter and every domain; its text is the object of objects
    prebid, bidder, smartadserver whose members are domain, formatId,
    networkId, pageId, siteId and target, in this order. *)
Theorem impExt_text (a : SmartAdServerAdapter) (domain : string) :
  json.Marshal (impExt a domain) =
  Ok (json.object [
    ("prebid", json.object [
      ("bidder", json.object [
        ("smartadserver", json.object [
          ("domain", json.quote domain);
          ("formatId", itoa (PBSConfig.DefaultConfig.FormatID (defaultConfig a)));
          ("networkId", itoa (platformID a));
          ("pageId", itoa (PBSConfig.DefaultConfig.PageID (defaultConfig a)));
          ("siteId", itoa (PBSConfig.DefaultConfig.SiteID (defaultConfig a)));
          ("target", json.quote "testing=prebid")
        ])
      ])
    ])
  ]).
Proof. apply Marshal_impExt. Qed.

End marshal_map.

(** ** [MakeRequests], case by case *)

Section MakeRequests_cases.
Context `{Codec}.

(** No impression: the error, and nothing else happens. *)
Lemma MakeRequests_without_impressions a request h :
  BidRequest.Imp request = [] →
  MakeRequests a request h =
  Returned (([], ["no impressions in bid request"]), h).
Proof. intros Himp. unfold MakeRequests. by rewrite Himp. Qed.

(** An impression and a nil [Site]: the read of [request.Site.Domain]
    panics. *)
Lemma MakeRequests_nil_site a request h :
  BidRequest.Imp request ≠ [] →
  BidRequest.Site request = None →
  MakeRequests a request h = Panicked nil_dereference.
Proof.
  intros Himp Hsite. unfold MakeRequests.
  destruct (BidRequest.Imp request) as [|imp rest]; [done|].
  unfold mbind, Exec_bind, deref. by rewrite Hsite.
Qed.

(** An impression and a [Site]: the call returns, with one request or
    with the error of the encoder, and has written the page of the
    [Site] when it lacked one. *)
Lemma MakeRequests_with_site a request h imp rest l s :
  BidRequest.Imp request = imp :: rest →
  BidRequest.Site request = Some l →
  h !! l = Some s →
  MakeRequests a request h =
  Returned
    (match json_Marshal_BidRequest (wire_request a s imp request)
             (Some (wire_site s)) with
     | Ok body => ([HttpRequest.mk "POST" (endpoint a) body headers], [])
     | Err e => ([], [e])
     end,
     if lacks_page s then <[l := wire_site s]> h else h).
Proof.
  intros Himp Hsite Hl.
  unfold MakeRequests. rewrite Himp.
  unfold mbind, Exec_bind, deref. rewrite Hsite, Hl.
  rewrite Marshal_impExt.
  fold (wire_imp a s imp). fold (wire_request a s imp request).
  assert (Hsite' : BidRequest.Site (wire_request a s imp request) = Some l)
    by (destruct request; exact Hsite).
  rewrite Hsite'. unfold mret, Exec_ret. rewrite Hsite', Hl.
  unfold wire_site, lacks_page.
  destruct (String.eqb (Site.Page s) "") eqn:Hpage; cbn [andb].
  - rewrite Hl.
    destruct (String.eqb (Site.Domain s) "") eqn:Hdom; cbn [negb].
    + unfold pointee, mbind, Exec_bind, deref, mret, Exec_ret.
      rewrite Hl.
      by destruct (json_Marshal_BidRequest _ _).
    + rewrite Hl. unfold assign. rewrite Hl.
      unfold pointee, mbind, Exec_bind, deref, mret, Exec_ret.
      rewrite lookup_insert_eq.
      by destruct (json_Marshal_BidRequest _ _).
  - unfold pointee, mbind, Exec_bind, deref, mret, Exec_ret.
    rewrite Hl.
    by destruct (json_Marshal_BidRequest _ _).
Qed.

(** A location outside the heap is read as such. *)
Lemma MakeRequests_unallocated a request h l :
  BidRequest.Imp request ≠ [] →
  BidRequest.Site request = Some l →
  h !! l = None →
  MakeRequests a request h = Panicked unallocated.
Proof.
  intros Himp Hsite Hl. unfold MakeRequests.
  destruct (BidRequest.Imp request) as [|imp rest]; [done|].
  unfold mbind, Exec_bind, deref. by rewrite Hsite, Hl.
Qed.

Lemma wire_site_idempotent s : wire_site (wire_site s) = wire_site s.
Proof.
  unfold wire_site, lacks_page.
  destruct (String.eqb (Site.Page s) "") eqn:Hpage; cbn [andb];
    [|by rewrite Hpage].
  destruct (String.eqb (Site.Domain s) "") eqn:Hdom; cbn [negb];
    [by rewrite Hpage, Hdom|].
  reflexivity.
Qed.

Lemma wire_site_Domain s : Site.Domain (wire_site s) = Site.Domain s.
Proof. unfold wire_site. by destruct (lacks_page s), s. Qed.

Lemma wire_site_has_page s : lacks_page (wire_site s) = false.
Proof.
  unfold wire_site, lacks_page.
  destruct (String.eqb (Site.Page s) "") eqn:Hpage; cbn [andb];
    [|by rewrite Hpage].
  destruct (String.eqb (Site.Domain s) "") eqn:Hdom; cbn [negb];
    [by rewrite Hpage, Hdom|].
  reflexivity.
Qed.

End MakeRequests_cases.

(** ** The contract of [MakeRequests] *)

Section MakeRequests_properties.
Context `{Codec}.

(** C1, as amended. For every BidRequest with at least one impression
    and a Site, [MakeRequests] returns and leaves a definite heap; the
    request it hands to the encoder has exactly one impression, with
    bid floor 0.01, currency USD and a banner: the single default 728x90
    format when the first impression had no banner, the banner of the
    first impression itself (format list included, empty or not)
    otherwise. If the encoder accepts that request, the result is
    exactly one WireRequest, a POST to the endpoint whose body is the
    encoding, and no error; if it refuses, the result is no request and
    the encoder's error. *)
Theorem MakeRequests_one_enriched_impression
    (a : SmartAdServerAdapter) (request : BidRequest.t) (h : Heap)
    (imp : Imp.t) (rest : list Imp.t) (l : loc) (s : Site.t) :
  BidRequest.Imp request = imp :: rest →
  BidRequest.Site request = Some l →
  h !! l = Some s →
  ∃ (enriched : BidRequest.t) (imp' : Imp.t) (h' : Heap),
    BidRequest.Imp enriched = [imp'] ∧
    Imp.BidFloor imp' = 0.01%float ∧
    Imp.BidFloorCur imp' = "USD" ∧
    Imp.ID imp' = Imp.ID imp ∧
    (Imp.Banner imp = None →
     Imp.Banner imp' = Some (Banner.mk [Format.mk 728 90] None None)) ∧
    (∀ b, Imp.Banner imp = Some b → Imp.Banner imp' = Some b) ∧
    match json_Marshal_BidRequest enriched (Some (wire_site s)) with
    | Ok body =>
        MakeRequests a request h =
        Returned (([HttpRequest.mk "POST" (endpoint a) body headers], []), h')
    | Err e => MakeRequests a request h = Returned (([], [e]), h')
    end.
Proof.
  intros Himp Hsite Hl.
  exists (wire_request a s imp request), (wire_imp a s imp),
    (if lacks_page s then <[l := wire_site s]> h else h).
  rewrite (MakeRequests_with_site a request h imp rest l s Himp Hsite Hl).
  split_and!.
  - reflexivity.
  - reflexivity.
  - reflexivity.
  - unfold wire_imp, enrichImp. cbn. by destruct (Imp.Banner imp).
  - intros Hb. unfold wire_imp, enrichImp. cbn. by rewrite Hb.
  - intros b Hb. unfold wire_imp, enrichImp. cbn. by rewrite Hb.
  - by destruct (json_Marshal_BidRequest _ _).
Qed.

(** C8. Calling [MakeRequests] a second time with the same adapter and
    the same request, on the heap the first call left, returns the same
    requests (byte-identical bodies), the same errors and the same
    heap. *)
Theorem MakeRequests_idempotent
    (a : SmartAdServerAdapter) (request : BidRequest.t) (h h1 : Heap)
    (out : list HttpRequest.t * list error) :
  MakeRequests a request h = Returned (out, h1) →
  MakeRequests a request h1 = Returned (out, h1).
Proof.
  intros Hrun.
  destruct (BidRequest.Imp request) as [|imp rest] eqn:Himp.
  { rewrite MakeRequests_without_impressions in Hrun |- * by done.
    by injection Hrun as <- <-. }
  destruct (BidRequest.Site request) as [l|] eqn:Hsite.
  2:{ rewrite MakeRequests_nil_site in Hrun by (done || by rewrite Himp).
      discriminate. }
  destruct (h !! l) as [s|] eqn:Hl.
  2:{ rewrite (MakeRequests_unallocated a request h l) in Hrun
        by (done || by rewrite Himp).
      discriminate. }
  rewrite (MakeRequests_with_site a request h imp rest l s Himp Hsite Hl) in Hrun.
  injection Hrun as <- <-.
  destruct (lacks_page s) eqn:Hlacks.
  - rewrite (MakeRequests_with_site a request _ imp rest l (wire_site s) Himp Hsite)
      by apply lookup_insert_eq.
    rewrite wire_site_has_page, wire_site_idempotent.
    unfold wire_request, wire_imp. by rewrite wire_site_Domain.
  - rewrite (MakeRequests_with_site a request h imp rest l s Himp Hsite Hl).
    by rewrite Hlacks.
Qed.

(** C9. On a heap where the Site of the request is allocated,
    [MakeRequests] panics exactly when the request has an impression
    and a nil Site: the read of [request.Site.Domain] is its only
    partial access. So it returns for every request with an impression
    and a Site. The impression extension is, for every adapter and every
    domain, a nesting of maps of integers and strings, and marshalling
    it succeeds, which leaves the error branch after it without an
    input. *)
Theorem MakeRequests_faults_only_on_nil_site
    (a : SmartAdServerAdapter) (request : BidRequest.t) (h : Heap) :
  allocated h request →
  ((∃ msg, MakeRequests a request h = Panicked msg) ↔
     BidRequest.Imp request ≠ [] ∧ BidRequest.Site request = None) ∧
  (BidRequest.Imp request ≠ [] → BidRequest.Site request ≠ None →
     ∃ out h', MakeRequests a request h = Returned (out, h')) ∧
  (∀ domain,
     plain (impExt a domain) ∧
     ∃ impExtJSON, json.Marshal (impExt a domain) = Ok impExtJSON).
Proof.
  intros Halloc.
  assert (Hreturns : BidRequest.Imp request ≠ [] →
            BidRequest.Site request ≠ None →
            ∃ out h', MakeRequests a request h = Returned (out, h')).
  { intros Himp Hsite.
    destruct (BidRequest.Imp request) as [|imp rest] eqn:Himp'; [done|].
    destruct (BidRequest.Site request) as [l|] eqn:Hsite'; [|done].
    destruct (Halloc l Hsite') as [s Hl].
    rewrite (MakeRequests_with_site a request h imp rest l s Himp' Hsite' Hl).
    eauto. }
  split; [|split].
  - split.
    + intros [msg Hpanic].
      destruct (BidRequest.Imp request) as [|imp rest] eqn:Himp.
      { by rewrite MakeRequests_without_impressions in Hpanic. }
      split; [done|].
      destruct (BidRequest.Site request) as [l|] eqn:Hsite; [|done].
      destruct Hreturns as (out & h' & Hret); [done|done|].
      congruence.
    + intros [Himp Hsite]. exists nil_dereference.
      by apply MakeRequests_nil_site.
  - exact Hreturns.
  - intros domain. split; [apply plain_impExt|].
    apply plain_marshals, plain_impExt.
Qed.


End MakeRequests_properties.

(** ** The contract of [MakeBids] *)

Section MakeBids_properties.
Context `{Codec}.

Lemma append_each {A B : Type} (f : A → B) (xs : list A) (acc : list B) :
  fold_left (λ acc x, app acc [f x]) xs acc = app acc (f <$> xs).
Proof.
  revert acc. induction xs as [|x xs IH]; intros acc; cbn.
  - by rewrite app_nil_r.
  - rewrite IH. by rewrite <- app_assoc.
Qed.

Lemma append_each_seat (seats : list SeatBid.t) (acc : list TypedBid.t) :
  fold_left
    (λ bids seatBid,
       fold_left (λ bids bid, app bids [TypedBid.mk bid "banner"])
         (SeatBid.Bid seatBid) bids)
    seats acc
  = app acc (concat ((λ seatBid,
              (λ bid, TypedBid.mk bid "banner") <$> SeatBid.Bid seatBid) <$> seats)).
Proof.
  revert acc. induction seats as [|seat seats IH]; intros acc; cbn.
  - by rewrite app_nil_r.
  - rewrite IH, append_each. by rewrite <- app_assoc.
Qed.

(** A response with status 200: the decoder decides. *)
Lemma MakeBids_ok a request response :
  HttpResponse.StatusCode response = 200 →
  MakeBids a request response =
  match json_Unmarshal_BidResponse (HttpResponse.Body response) with
  | Ok bidResp => (Some (BidderResponse.mk (tagged_bids bidResp)), [])
  | Err err => (None, [err])
  end.
Proof.
  intros Hcode. unfold MakeBids. rewrite Hcode. cbn.
  destruct (json_Unmarshal_BidResponse _); [|done].
  by rewrite append_each_seat.
Qed.

Lemma tagged_bids_length bidResp :
  length (tagged_bids bidResp) =
  sum_list (length ∘ SeatBid.Bid <$> BidResponse.SeatBid bidResp).
Proof.
  unfold tagged_bids.
  induction (BidResponse.SeatBid bidResp) as [|seat seats IH]; cbn; [done|].
  by rewrite length_app, length_fmap, IH.
Qed.

Lemma tagged_bids_Bid bidResp :
  TypedBid.Bid <$> tagged_bids bidResp =
  concat (SeatBid.Bid <$> BidResponse.SeatBid bidResp).
Proof.
  unfold tagged_bids.
  induction (BidResponse.SeatBid bidResp) as [|seat seats IH]; cbn; [done|].
  rewrite fmap_app, IH. f_equal.
  rewrite <- list_fmap_compose. by rewrite list_fmap_id.
Qed.

Lemma tagged_bids_banner bidResp :
  Forall (λ b, TypedBid.BidType b = "banner") (tagged_bids bidResp).
Proof.
  unfold tagged_bids.
  induction (BidResponse.SeatBid bidResp) as [|seat seats IH]; cbn;
    [constructor|].
  apply Forall_app; split; [|exact IH].
  by apply Forall_fmap, Forall_true.
Qed.

(** C2. [MakeBids] classifies the status code: 204 gives no response
    and no error; 400, 404 and every other code but 200 give no
    response and one error that carries the body (and, for the other
    codes, the code); 200 is decided by the decoding of the body. For
    every code but 200 the result is the same whatever the decoder
    is: the body is decoded for 200 only. *)
Theorem MakeBids_status_classification
    (a : SmartAdServerAdapter) (request : BidRequest.t)
    (response : HttpResponse.t) :
  let code := HttpResponse.StatusCode response in
  let body := HttpResponse.Body response in
  (code = 204 → MakeBids a request response = (None, [])) ∧
  (code = 400 →
     MakeBids a request response = (None, ["Bad request: " ++ body])) ∧
  (code = 404 →
     MakeBids a request response = (None, ["404 Not Found: " ++ body])) ∧
  (code ≠ 204 → code ≠ 400 → code ≠ 404 → code ≠ 200 →
     MakeBids a request response =
     (None, ["Unexpected status code: " ++ itoa code ++ ". Body: " ++ body])) ∧
  (code = 200 →
     MakeBids a request response =
     match json_Unmarshal_BidResponse body with
     | Ok bidResp => (Some (BidderResponse.mk (tagged_bids bidResp)), [])
     | Err err => (None, [err])
     end) ∧
  (code ≠ 200 →
     ∀ other : Codec,
       @MakeBids other a request response = MakeBids a request response).
Proof.
  intros code body. split_and!.
  - intros Hcode. unfold MakeBids. fold code. by rewrite Hcode.
  - intros Hcode. unfold MakeBids. fold code. by rewrite Hcode.
  - intros Hcode. unfold MakeBids. fold code. by rewrite Hcode.
  - intros H204 H400 H404 H200. unfold MakeBids. fold code body.
    apply Z.eqb_neq in H204, H400, H404, H200.
    by rewrite H204, H400, H404, H200.
  - intros Hcode. by apply MakeBids_ok.
  - intros H200 other. unfold MakeBids. fold code.
    apply Z.eqb_neq in H200. rewrite H200.
    by destruct (code =? 204), (code =? 400), (code =? 404).
Qed.

(** C5. For every response with status 200 whose body decodes as a
    BidResponse, [MakeBids] returns no error and a list with one bid
    per bid of every seat, in order: its length is the number of bids
    over all seats, every entry is typed banner, and it is empty when
    the response has no seat. *)
Theorem MakeBids_flattens_every_seat
    (a : SmartAdServerAdapter) (request : BidRequest.t)
    (response : HttpResponse.t) (bidResp : BidResponse.t) :
  HttpResponse.StatusCode response = 200 →
  json_Unmarshal_BidResponse (HttpResponse.Body response) = Ok bidResp →
  ∃ bids : list TypedBid.t,
    MakeBids a request response = (Some (BidderResponse.mk bids), []) ∧
    TypedBid.Bid <$> bids = concat (SeatBid.Bid <$> BidResponse.SeatBid bidResp) ∧
    length bids = sum_list (length ∘ SeatBid.Bid <$> BidResponse.SeatBid bidResp) ∧
    Forall (λ b, TypedBid.BidType b = "banner") bids ∧
    (BidResponse.SeatBid bidResp = [] → bids = []).
Proof.
  intros Hcode Hbody. exists (tagged_bids bidResp). split_and!.
  - by rewrite MakeBids_ok, Hbody.
  - apply tagged_bids_Bid.
  - apply tagged_bids_length.
  - apply tagged_bids_banner.
  - intros Hseats. unfold tagged_bids. by rewrite Hseats.
Qed.

(** C10. The result of [MakeBids] is the same for every two BidRequest
    arguments: bid list and error list depend on the response only. *)
Theorem MakeBids_ignores_request
    (a : SmartAdServerAdapter) (request1 request2 : BidRequest.t)
    (response : HttpResponse.t) :
  MakeBids a request1 response = MakeBids a request2 response.
Proof. reflexivity. Qed.

End MakeBids_properties.

(** ** The contract of [BuildBidder] *)

Section BuildBidder_properties.
Context `{Codec}.

(** C6. A configuration that decodes with the enabled flag off gives
    an error and no adapter; a configuration that does not decode gives
    the parse error and no adapter. *)
Theorem BuildBidder_fails_closed (config : bytes) :
  (∀ pbsConfig,
     yaml_Unmarshal_PBSConfig config = Ok pbsConfig →
     PBSConfig.SmartAdServer.Enabled
       (PBSConfig.Adapters.SmartAdServer (PBSConfig.Adapters pbsConfig)) = false →
     BuildBidder config =
     (None, Some "SmartAdServer adapter is not enabled in config")) ∧
  (∀ err,
     yaml_Unmarshal_PBSConfig config = Err err →
     BuildBidder config = (None, Some ("error parsing PBS config: " ++ err))).
Proof.
  split.
  - intros pbsConfig Hdecode Hdisabled. unfold BuildBidder.
    by rewrite Hdecode, Hdisabled.
  - intros err Hdecode. unfold BuildBidder. by rewrite Hdecode.
Qed.

(** X5. A configuration that decodes with the enabled flag on gives no
    error and the adapter closed over the endpoint and the identifiers
    of the configuration. *)
Theorem BuildBidder_enabled (config : bytes) (pbsConfig : PBSConfig.t) :
  yaml_Unmarshal_PBSConfig config = Ok pbsConfig →
  PBSConfig.SmartAdServer.Enabled
    (PBSConfig.Adapters.SmartAdServer (PBSConfig.Adapters pbsConfig)) = true →
  ∃ a, BuildBidder config = (Some a, None) ∧
    endpoint a = PBSConfig.SmartAdServer.Endpoint
      (PBSConfig.Adapters.SmartAdServer (PBSConfig.Adapters pbsConfig)) ∧
    platformID a = PBSConfig.SmartAdServer.PlatformID
      (PBSConfig.Adapters.SmartAdServer (PBSConfig.Adapters pbsConfig)) ∧
    defaultConfig a = PBSConfig.SmartAdServer.DefaultConfig
      (PBSConfig.Adapters.SmartAdServer (PBSConfig.Adapters pbsConfig)).
Proof.
  intros Hdecode Henabled. unfold BuildBidder. rewrite Hdecode, Henabled.
  eexists. split_and!; try reflexivity.
  cbn. by destruct (PBSConfig.SmartAdServer.DefaultConfig _).
Qed.

End BuildBidder_properties.

(** ** What [MakeRequests] does to a request without a Site, and to the
    Site of the caller *)

Section MakeRequests_defects.
Context `{Codec}.

(** The heap [MakeRequests] leaves: the one it was given, except that
    the page of the caller's Site is written when it was empty and the
    domain was not. *)
Lemma MakeRequests_heap_effect a request h out h' :
  MakeRequests a request h = Returned (out, h') →
  h' = h ∨
  ∃ l s, BidRequest.Site request = Some l ∧ h !! l = Some s ∧
         Site.Page s = "" ∧ Site.Domain s ≠ "" ∧
         h' = <[l := Site.with_Page ("https://" ++ Site.Domain s) s]> h.
Proof.
  intros Hrun.
  destruct (BidRequest.Imp request) as [|imp rest] eqn:Himp.
  { rewrite MakeRequests_without_impressions in Hrun by done.
    left. congruence. }
  destruct (BidRequest.Site request) as [l|] eqn:Hsite.
  2:{ rewrite MakeRequests_nil_site in Hrun by (done || by rewrite Himp).
      discriminate. }
  destruct (h !! l) as [s|] eqn:Hl.
  2:{ rewrite (MakeRequests_unallocated a request h l) in Hrun
        by (done || by rewrite Himp).
      discriminate. }
  rewrite (MakeRequests_with_site a request h imp rest l s Himp Hsite Hl) in Hrun.
  injection Hrun as _ <-.
  unfold wire_site. destruct (lacks_page s) eqn:Hlacks; [|by left].
  right. exists l, s. unfold lacks_page in Hlacks.
  apply andb_prop in Hlacks as [Hpage Hdom].
  apply String.eqb_eq in Hpage. apply negb_true_iff, String.eqb_neq in Hdom.
  done.
Qed.

(** X3. Whenever [MakeRequests] returns, its result has one of the two
    shapes: exactly one request and no error, or no request and exactly
    one error. *)
Theorem MakeRequests_shape
    (a : SmartAdServerAdapter) (request : BidRequest.t) (h h' : Heap)
    (out : list HttpRequest.t * list error) :
  MakeRequests a request h = Returned (out, h') → requests_or_errors out.
Proof.
  intros Hrun.
  destruct (BidRequest.Imp request) as [|imp rest] eqn:Himp.
  { rewrite MakeRequests_without_impressions in Hrun by done.
    injection Hrun as <- _. right. by eexists. }
  destruct (BidRequest.Site request) as [l|] eqn:Hsite.
  2:{ rewrite MakeRequests_nil_site in Hrun by (done || by rewrite Himp).
      discriminate. }
  destruct (h !! l) as [s|] eqn:Hl.
  2:{ rewrite (MakeRequests_unallocated a request h l) in Hrun
        by (done || by rewrite Himp).
      discriminate. }
  rewrite (MakeRequests_with_site a request h imp rest l s Himp Hsite Hl) in Hrun.
  injection Hrun as <- _.
  destruct (json_Marshal_BidRequest _ _); [left|right]; eauto.
Qed.

(** X1. For every BidRequest with no impression, [MakeRequests] returns
    no request and the one error "no impressions in bid request", and
    leaves the heap as it was. *)
Theorem MakeRequests_rejects_no_impressions
    (a : SmartAdServerAdapter) (request : BidRequest.t) (h : Heap) :
  BidRequest.Imp request = [] →
  MakeRequests a request h =
  Returned (([], ["no impressions in bid request"]), h).
Proof. apply MakeRequests_without_impressions. Qed.

(** X4. Whenever [MakeRequests] returns, every object but the Site of
    the request is as it was; the Site of a request with an impression
    keeps its id and domain and has the page https:// followed by the
    domain when its page was empty and its domain was not; the Site of a
    request without impressions is as it was. *)
Theorem MakeRequests_frame
    (a : SmartAdServerAdapter) (request : BidRequest.t) (h h' : Heap)
    (out : list HttpRequest.t * list error) :
  MakeRequests a request h = Returned (out, h') →
  (∀ l', BidRequest.Site request ≠ Some l' → h' !! l' = h !! l') ∧
  (∀ l s, BidRequest.Site request = Some l → h !! l = Some s →
     h' !! l = Some (match BidRequest.Imp request with
                     | [] => s
                     | _ :: _ => wire_site s
                     end)).
Proof.
  intros Hrun.
  destruct (BidRequest.Imp request) as [|imp rest] eqn:Himp.
  { rewrite MakeRequests_without_impressions in Hrun by done.
    injection Hrun as _ <-. done. }
  destruct (MakeRequests_heap_effect _ _ _ _ _ Hrun)
    as [->|(l & s & Hsite & Hl & Hpage & Hdom & ->)].
  - split; [done|]. intros l s Hsite Hl.
    rewrite (MakeRequests_with_site a request h imp rest l s Himp Hsite Hl) in Hrun.
    injection Hrun as _ Hh.
    destruct (lacks_page s) eqn:Hlacks.
    + rewrite <- Hh. by rewrite lookup_insert_eq.
    + rewrite Hl. unfold wire_site. by rewrite Hlacks.
  - split.
    + intros l' Hl'. rewrite lookup_insert_ne; [done|congruence].
    + intros l0 s0 Hsite0 Hl0.
      assert (l0 = l) by congruence. subst l0.
      assert (s0 = s) by congruence. subst s0.
      rewrite lookup_insert_eq. f_equal. unfold wire_site, lacks_page.
      rewrite Hpage. apply String.eqb_neq in Hdom. by rewrite Hdom.
Qed.

(** C3, at the request of the specification's scenario (one impression,
    a Site with the domain example.com and no page): after the call,
    the Site object of the caller, which held an empty page, holds the
    page https://example.com. *)
Theorem MakeRequests_writes_the_callers_site :
  sample.heap !! sample.site_location = Some (Site.mk "" "example.com" "") ∧
  ∃ out h',
    MakeRequests sample.adapter sample.request sample.heap = Returned (out, h') ∧
    h' !! sample.site_location
      = Some (Site.mk "" "example.com" "https://example.com").
Proof.
  split; [reflexivity|].
  rewrite (MakeRequests_with_site sample.adapter sample.request sample.heap
             _ [] sample.site_location sample.site eq_refl eq_refl eq_refl).
  eexists _, _. split; [reflexivity|]. reflexivity.
Qed.

(** C4, at a request with one impression and no Site: the call panics
    on the read of [request.Site.Domain], before the lines that would
    synthesize a Site; and no call that returns has allocated one. *)
Theorem MakeRequests_never_synthesizes_a_site :
  (∀ a h, MakeRequests a sample.siteless_request h = Panicked nil_dereference) ∧
  (∀ a request h out h',
     MakeRequests a request h = Returned (out, h') → dom h' = dom h).
Proof.
  split.
  - intros a h. by apply MakeRequests_nil_site.
  - intros a request h out h' Hrun.
    destruct (MakeRequests_heap_effect _ _ _ _ _ Hrun)
      as [->|(l & s & _ & Hl & _ & _ & ->)]; [done|].
    by apply dom_insert_lookup_L.
Qed.

(** C7, at a request with one impression and no Site: the call returns
    neither of the two shapes, for it does not return. *)
Theorem MakeRequests_without_site_returns_nothing :
  ∀ a h, ¬ ∃ out h',
    MakeRequests a sample.siteless_request h = Returned (out, h').
Proof.
  intros a h (out & h' & Hrun).
  rewrite MakeRequests_nil_site in Hrun by done. discriminate.
Qed.

End MakeRequests_defects.

(* ===================================================================== *)
(** * The adapter on concrete inputs, through the executable codec *)
(* ===================================================================== *)

Section scenarios.
Existing Instance reference.codec.

(** The scenario of the specification: the request with one impression
    of id 1 and the site domain example.com gives one POST whose
    impression extension holds the domain and whose site page is
    https://example.com. *)
Example scenario_site_domain :
  MakeRequests sample.adapter sample.request sample.heap =
  Returned
    (([HttpRequest.mk "POST" "https://prg.smartadserver.com/prebid/v1"
         sample.wire_body headers], []),
     {[ sample.site_location := sample.site_with_page ]}).
Proof. vm_compute. reflexivity. Qed.

Example scenario_wire_body_decodes :
  json_Unmarshal_BidRequest sample.wire_body =
  Ok (BidRequest.mk ""
        [Imp.mk "1" (Some (Banner.mk [Format.mk 728 90] None None))
           0.01%float "USD" (impExtJSON sample.adapter "example.com")]
        None 1 1 1000 "",
      Some sample.site_with_page).
Proof. vm_compute. reflexivity. Qed.

Example scenario_sized_banner :
  MakeRequests sample.adapter sample.sized_banner_request sample.heap =
  Returned
    (([HttpRequest.mk "POST" "https://prg.smartadserver.com/prebid/v1"
         sample.sized_banner_body headers], []),
     {[ sample.site_location := sample.site_with_page ]}).
Proof. vm_compute. reflexivity. Qed.

Example scenario_sized_banner_decodes :
  json_Unmarshal_BidRequest sample.sized_banner_body =
  Ok (BidRequest.mk ""
        [Imp.mk "1" (Some (Banner.mk [] (Some 300) (Some 250)))
           0.01%float "USD" (impExtJSON sample.adapter "example.com")]
        None 1 1 1000 "",
      Some sample.site_with_page).
Proof. vm_compute. reflexivity. Qed.

Example scenario_no_impressions :
  MakeRequests sample.adapter (BidRequest.mk "r" [] None 0 0 0 "") ∅ =
  Returned (([], ["no impressions in bid request"]), ∅).
Proof. reflexivity. Qed.

Example scenario_two_seats_decode :
  json_Unmarshal_BidResponse sample.two_seats = Ok sample.two_seats_response.
Proof. vm_compute. reflexivity. Qed.

(** The scenario of the specification: status 200 and no seat. *)
Example scenario_no_seat :
  MakeBids sample.adapter sample.request
    (sample.response 200 (json_text "{'seatbid':[]}"))
  = (Some (BidderResponse.mk []), []).
Proof. vm_compute. reflexivity. Qed.

Example scenario_undecodable_response :
  ∃ err,
    MakeBids sample.adapter sample.request (sample.response 200 "<html>")
    = (None, [err]).
Proof. eexists. vm_compute. reflexivity. Qed.

Example scenario_enabled_config :
  BuildBidder sample.enabled_config = (Some sample.adapter, None).
Proof. vm_compute. reflexivity. Qed.

(** C1, as stated, fails at the request whose impression has a banner
    with a size and no format list: [MakeRequests] returns one request,
    and the banner of the impression its body decodes to has an empty
    format list. *)
Lemma sized_banner_keeps_empty_format_list :
  BidRequest.Imp sample.sized_banner_request ≠ [] ∧
  ¬ one_impression_with_formats
      sample.adapter sample.sized_banner_request sample.heap.
Proof.
  split; [discriminate|].
  intros (w & h' & Hrun & decoded & site & i & b & Hdec & Himp & _ & _ & Hb & Hformat).
  rewrite scenario_sized_banner in Hrun. injection Hrun as <- _.
  cbn [HttpRequest.Body] in Hdec.
  rewrite scenario_sized_banner_decodes in Hdec. injection Hdec as <- _.
  cbn [BidRequest.Imp] in Himp. injection Himp as <-.
  cbn [Imp.Banner] in Hb. injection Hb as <-.
  by apply Hformat.
Qed.

(** *** Witnesses *)

Lemma MakeRequests_one_enriched_impression_witness :
  BidRequest.Imp sample.request = [Imp.mk "1" None 0%float "" ""] ∧
  BidRequest.Site sample.request = Some sample.site_location ∧
  sample.heap !! sample.site_location = Some sample.site ∧
  ∃ (enriched : BidRequest.t) (imp' : Imp.t),
    BidRequest.Imp enriched = [imp'] ∧
    Imp.BidFloor imp' = 0.01%float ∧
    Imp.BidFloorCur imp' = "USD" ∧
    Imp.ID imp' = "1" ∧
    Imp.Banner imp' = Some (Banner.mk [Format.mk 728 90] None None) ∧
    json_Marshal_BidRequest enriched (Some sample.site_with_page)
      = Ok sample.wire_body ∧
    MakeRequests sample.adapter sample.request sample.heap =
      Returned
        (([HttpRequest.mk "POST" "https://prg.smartadserver.com/prebid/v1"
             sample.wire_body headers], []),
         {[ sample.site_location := sample.site_with_page ]}).
Proof.
  split; [reflexivity|]. split; [reflexivity|]. split; [reflexivity|].
  destruct (MakeRequests_one_enriched_impression
              sample.adapter sample.request sample.heap
              (Imp.mk "1" None 0%float "" "") [] sample.site_location sample.site
              eq_refl eq_refl eq_refl)
    as (enriched & imp' & h' & Himp & Hfloor & Hcur & Hid & Hdefault & _ & Hrun).
  exists enriched, imp'.
  change (wire_site sample.site) with sample.site_with_page in Hrun.
  rewrite scenario_site_domain in Hrun.
  destruct (json_Marshal_BidRequest enriched (Some sample.site_with_page))
    as [body|e]; [|discriminate].
  injection Hrun as Hbody _. subst body.
  split_and!; [exact Himp|exact Hfloor|exact Hcur|exact Hid| |reflexivity|].
  - by apply Hdefault.
  - exact scenario_site_domain.
Defined.

Lemma MakeRequests_idempotent_witness :
  MakeRequests sample.adapter sample.request sample.heap =
    Returned
      (([HttpRequest.mk "POST" "https://prg.smartadserver.com/prebid/v1"
           sample.wire_body headers], []),
       {[ sample.site_location := sample.site_with_page ]}) ∧
  MakeRequests sample.adapter sample.request
      {[ sample.site_location := sample.site_with_page ]} =
    Returned
      (([HttpRequest.mk "POST" "https://prg.smartadserver.com/prebid/v1"
           sample.wire_body headers], []),
       {[ sample.site_location := sample.site_with_page ]}).
Proof.
  split; [exact scenario_site_domain|].
  exact (MakeRequests_idempotent sample.adapter sample.request sample.heap _ _
           scenario_site_domain).
Defined.

Lemma MakeRequests_faults_only_on_nil_site_witness :
  allocated sample.heap sample.request ∧
  ((∃ msg, MakeRequests sample.adapter sample.request sample.heap = Panicked msg) ↔
     BidRequest.Imp sample.request ≠ [] ∧ BidRequest.Site sample.request = None) ∧
  (BidRequest.Imp sample.request ≠ [] → BidRequest.Site sample.request ≠ None →
     ∃ out h', MakeRequests sample.adapter sample.request sample.heap = Returned (out, h')) ∧
  (∀ domain,
     plain (impExt sample.adapter domain) ∧
     ∃ impExtJSON, json.Marshal (impExt sample.adapter domain) = Ok impExtJSON).
Proof.
  assert (Halloc : allocated sample.heap sample.request).
  { intros l Hl. injection Hl as <-. by eexists. }
  split; [exact Halloc|].
  exact (MakeRequests_faults_only_on_nil_site
           sample.adapter sample.request sample.heap Halloc).
Defined.

Lemma MakeBids_status_classification_witness :
  MakeBids sample.adapter sample.request (sample.response 204 "") = (None, []) ∧
  MakeBids sample.adapter sample.request (sample.response 400 "bad imp")
    = (None, ["Bad request: bad imp"]) ∧
  MakeBids sample.adapter sample.request (sample.response 404 "no such page")
    = (None, ["404 Not Found: no such page"]) ∧
  MakeBids sample.adapter sample.request (sample.response 503 "busy")
    = (None, ["Unexpected status code: 503. Body: busy"]) ∧
  MakeBids sample.adapter sample.request (sample.response 200 sample.two_seats)
    = (Some (BidderResponse.mk (tagged_bids sample.two_seats_response)), []).
Proof.
  split_and!.
  - exact (proj1 (MakeBids_status_classification
             sample.adapter sample.request (sample.response 204 "")) eq_refl).
  - exact (proj1 (proj2 (MakeBids_status_classification
             sample.adapter sample.request (sample.response 400 "bad imp"))) eq_refl).
  - exact (proj1 (proj2 (proj2 (MakeBids_status_classification
             sample.adapter sample.request (sample.response 404 "no such page")))) eq_refl).
  - refine (proj1 (proj2 (proj2 (proj2 (MakeBids_status_classification
             sample.adapter sample.request (sample.response 503 "busy"))))) _ _ _ _);
      discriminate.
  - pose proof (proj1 (proj2 (proj2 (proj2 (proj2 (MakeBids_status_classification
             sample.adapter sample.request (sample.response 200 sample.two_seats))))))
             eq_refl) as Hok.
    cbn [HttpResponse.Body sample.response] in Hok.
    rewrite scenario_two_seats_decode in Hok. exact Hok.
Defined.

Lemma MakeBids_flattens_every_seat_witness :
  HttpResponse.StatusCode (sample.response 200 sample.two_seats) = 200 ∧
  json_Unmarshal_BidResponse sample.two_seats = Ok sample.two_seats_response ∧
  ∃ bids : list TypedBid.t,
    MakeBids sample.adapter sample.request (sample.response 200 sample.two_seats)
      = (Some (BidderResponse.mk bids), []) ∧
    TypedBid.Bid <$> bids
      = [Bid.mk "b1" "1" 1.25%float "<div>"; Bid.mk "b2" "1" 0.5%float ""] ∧
    length bids = 2%nat ∧
    Forall (λ b, TypedBid.BidType b = "banner") bids ∧
    (BidResponse.SeatBid sample.two_seats_response = [] → bids = []).
Proof.
  split; [reflexivity|]. split; [exact scenario_two_seats_decode|].
  exact (MakeBids_flattens_every_seat
           sample.adapter sample.request
           (sample.response 200 sample.two_seats) sample.two_seats_response
           eq_refl scenario_two_seats_decode).
Defined.

Lemma BuildBidder_fails_closed_witness :
  BuildBidder sample.disabled_config
    = (None, Some "SmartAdServer adapter is not enabled in config") ∧
  BuildBidder sample.broken_config
    = (None, Some "error parsing PBS config: yaml: not a flow-style document").
Proof.
  split.
  - refine (proj1 (BuildBidder_fails_closed sample.disabled_config)
              (PBSConfig.mk (PBSConfig.Adapters.mk
                 (PBSConfig.SmartAdServer.mk false
                    "https://prg.smartadserver.com/prebid/v1" 1234
                    (PBSConfig.DefaultConfig.mk 0 0 0 0)))) _ eq_refl).
    vm_compute. reflexivity.
  - refine (proj2 (BuildBidder_fails_closed sample.broken_config)
              "yaml: not a flow-style document" _).
    vm_compute. reflexivity.
Defined.


Lemma MakeRequests_rejects_no_impressions_witness :
  BidRequest.Imp (BidRequest.mk "r" [] None 0 0 0 "") = [] ∧
  MakeRequests sample.adapter (BidRequest.mk "r" [] None 0 0 0 "") ∅ =
  Returned (([], ["no impressions in bid request"]), ∅).
Proof.
  split; [reflexivity|].
  exact (MakeRequests_rejects_no_impressions sample.adapter
           (BidRequest.mk "r" [] None 0 0 0 "") ∅ eq_refl).
Defined.

Lemma MakeRequests_shape_witness :
  MakeRequests sample.adapter sample.request sample.heap =
    Returned
      (([HttpRequest.mk "POST" "https://prg.smartadserver.com/prebid/v1"
           sample.wire_body headers], []),
       {[ sample.site_location := sample.site_with_page ]}) ∧
  requests_or_errors
    ([HttpRequest.mk "POST" "https://prg.smartadserver.com/prebid/v1"
        sample.wire_body headers], []).
Proof.
  split; [exact scenario_site_domain|].
  exact (MakeRequests_shape sample.adapter sample.request sample.heap _ _
           scenario_site_domain).
Defined.

Lemma MakeRequests_frame_witness :
  MakeRequests sample.adapter sample.request sample.heap =
    Returned
      (([HttpRequest.mk "POST" "https://prg.smartadserver.com/prebid/v1"
           sample.wire_body headers], []),
       {[ sample.site_location := sample.site_with_page ]}) ∧
  (∀ l', BidRequest.Site sample.request ≠ Some l' →
     ({[ sample.site_location := sample.site_with_page ]} : Heap) !! l'
     = sample.heap !! l') ∧
  (∀ l s, BidRequest.Site sample.request = Some l → sample.heap !! l = Some s →
     ({[ sample.site_location := sample.site_with_page ]} : Heap) !! l
     = Some (wire_site s)).
Proof.
  split; [exact scenario_site_domain|].
  exact (MakeRequests_frame sample.adapter sample.request sample.heap _ _
           scenario_site_domain).
Defined.

Lemma BuildBidder_enabled_witness :
  ∃ a, BuildBidder sample.enabled_config = (Some a, None) ∧
    endpoint a = "https://prg.smartadserver.com/prebid/v1" ∧
    platformID a = 1234 ∧
    defaultConfig a = PBSConfig.DefaultConfig.mk 11 22 33 44.
Proof.
  refine (BuildBidder_enabled sample.enabled_config
            (PBSConfig.mk (PBSConfig.Adapters.mk
               (PBSConfig.SmartAdServer.mk true
                  "https://prg.smartadserver.com/prebid/v1" 1234
                  (PBSConfig.DefaultConfig.mk 11 22 33 44)))) _ eq_refl).
  vm_compute. reflexivity.
Defined.

Lemma Marshal_writes_members_by_key_witness :
  increasing ["a"; "b"] = true ∧
  json.Marshal (json.VMap (<["b" := json.VInt 2]> {[ "a" := json.VString "x<y" ]}))
  = Ok (json.object [("a", json.quote "x<y"); ("b", "2")]).
Proof.
  split; [reflexivity|].
  apply (Marshal_writes_members_by_key
           [("a", json.VString "x<y"); ("b", json.VInt 2)]
           [("a", json.quote "x<y"); ("b", "2")] eq_refl).
  repeat constructor.
Defined.

(** *** The handler *)

Existing Instance sample.no_bid_backend.

Example serve_relays_the_backend :
  main.serve sample.adapter "/openrtb2/auction"
    (Ok (json_text "{'imp':[{'id':'1'}],'site':{'domain':'example.com'}}")) ∅
  = Returned (main.mkResponse 204 "" (Some "application/json"),
              {[ 1%positive := sample.site_with_page ]}).
Proof. vm_compute. reflexivity. Qed.

Example serve_rejects_a_request_without_impressions :
  main.serve sample.adapter "/openrtb2/auction" (Ok (json_text "{'imp':[]}")) ∅
  = Returned (main.mkResponse 500 "" None, ∅).
Proof. vm_compute. reflexivity. Qed.

Example serve_rejects_a_body_that_is_not_json :
  main.serve sample.adapter "/openrtb2/auction" (Ok "imp=1") ∅
  = Returned (main.mkResponse 400 "" None, ∅).
Proof. vm_compute. reflexivity. Qed.

(** A body with an impression and no site. *)
Example serve_panics_on_a_request_without_site :
  main.serve sample.adapter "/openrtb2/auction"
    (Ok (json_text "{'imp':[{'id':'1'}]}")) ∅
  = Panicked nil_dereference.
Proof. vm_compute. reflexivity. Qed.

End scenarios.

(** ** The handler's routing *)

Section serve_properties.
Context `{Codec} `{main.Backend}.

(** X8. Any path but /openrtb2/auction is answered 404, whatever the
    body, and the heap is left as it was: the adapter is not called. *)
Theorem serve_other_path
    (bidder : SmartAdServerAdapter) (path : string) (read : result bytes)
    (h : Heap) :
  path ≠ "/openrtb2/auction" →
  main.serve bidder path read h = Returned (main.mkResponse 404 "" None, h).
Proof.
  intros Hpath. unfold main.serve.
  apply String.eqb_neq in Hpath. by rewrite Hpath.
Qed.

End serve_properties.

Section serve_witness.
Existing Instance reference.codec.
Existing Instance sample.no_bid_backend.

Lemma serve_other_path_witness :
  "/" ≠ "/openrtb2/auction" ∧
  main.serve sample.adapter "/" (Ok "") ∅
  = Returned (main.mkResponse 404 "" None, ∅).
Proof.
  split; [discriminate|].
  exact (serve_other_path sample.adapter "/" (Ok "") ∅ ltac:(discriminate)).
Defined.

End serve_witness.

(** ** What [MakeRequests] reads, and when it writes *)

Section MakeRequests_inputs.
Context `{Codec}.

(** The request handed to the encoder is built from the id, extension
    and Site of the caller's request and from the id and banner of its
    first impression. *)
Lemma wire_request_inputs a1 a2 s id imp1 imp2 rest1 rest2 site
    test1 test2 at1 at2 tmax1 tmax2 ext :
  impExtJSON a1 (Site.Domain s) = impExtJSON a2 (Site.Domain s) →
  Imp.ID imp1 = Imp.ID imp2 →
  Imp.Banner imp1 = Imp.Banner imp2 →
  wire_request a1 s imp1 (BidRequest.mk id (imp1 :: rest1) site test1 at1 tmax1 ext)
  = wire_request a2 s imp2 (BidRequest.mk id (imp2 :: rest2) site test2 at2 tmax2 ext).
Proof.
  intros Hext Hid Hbanner.
  unfold wire_request, wire_imp, enrichRequest, enrichImp. rewrite Hext.
  destruct imp1 as [id1 b1 f1 c1 e1], imp2 as [id2 b2 f2 c2 e2].
  cbn in Hid, Hbanner |- *. subst id2 b2. by destruct b1.
Qed.


Lemma wire_site_changes s : lacks_page s = true → wire_site s ≠ s.
Proof.
  intros Hlacks Heq. unfold wire_site in Heq. rewrite Hlacks in Heq.
  unfold lacks_page in Hlacks. apply andb_prop in Hlacks as [Hpage _].
  apply String.eqb_eq in Hpage.
  destruct s as [id domain page]. cbn in Hpage, Heq. subst page.
  discriminate.
Qed.

(** X11. A call of [MakeRequests] that returns has left the heap as it
    was exactly when the request has no impression, or its Site has a
    page already, or its Site has no domain: in every other case it has
    written the page of the caller's Site. *)
Theorem MakeRequests_writes_exactly_a_missing_page
    (a : SmartAdServerAdapter) (request : BidRequest.t) (h h' : Heap)
    (out : list HttpRequest.t * list error) (l : loc) (s : Site.t) :
  MakeRequests a request h = Returned (out, h') →
  BidRequest.Site request = Some l →
  h !! l = Some s →
  (h' = h ↔
   BidRequest.Imp request = [] ∨ Site.Page s ≠ "" ∨ Site.Domain s = "") ∧
  (h' ≠ h → h' !! l = Some (Site.with_Page ("https://" ++ Site.Domain s) s)).
Proof.
  intros Hrun Hsite Hl.
  destruct (BidRequest.Imp request) as [|imp rest] eqn:Himp.
  { rewrite MakeRequests_without_impressions in Hrun by done.
    injection Hrun as _ <-. split; [|done]. split; [by left|done]. }
  rewrite (MakeRequests_with_site a request h imp rest l s Himp Hsite Hl) in Hrun.
  injection Hrun as _ <-.
  destruct (lacks_page s) eqn:Hlacks.
  - split.
    + split.
      * intros Heq. exfalso. apply (wire_site_changes s Hlacks).
        assert (Hl' : (<[l:=wire_site s]> h) !! l = Some s) by (by rewrite Heq).
        rewrite lookup_insert_eq in Hl'. by injection Hl'.
      * unfold lacks_page in Hlacks. apply andb_prop in Hlacks as [Hpage Hdom].
        apply String.eqb_eq in Hpage.
        apply negb_true_iff, String.eqb_neq in Hdom.
        intros [?|[?|?]]; done.
    + intros _. rewrite lookup_insert_eq. unfold wire_site. by rewrite Hlacks.
  - split; [|done]. split; [|done]. intros _. right.
    unfold lacks_page in Hlacks. apply andb_false_iff in Hlacks as [Hpage|Hdom].
    + left. by apply String.eqb_neq.
    + right. apply negb_false_iff in Hdom. by apply String.eqb_eq.
Qed.

End MakeRequests_inputs.

(** ** The results of [MakeBids] *)

Section MakeBids_results.
Context `{Codec}.

(** X12. [MakeBids] returns at most one error and never a response
    together with an error. It returns neither (nil, nil) for the
    status 204 only, and a response for the status 200 with a body that
    decodes only. *)
Theorem MakeBids_result_shape
    (a : SmartAdServerAdapter) (request : BidRequest.t)
    (response : HttpResponse.t) :
  let code := HttpResponse.StatusCode response in
  let out := MakeBids a request response in
  (out = (None, []) ↔ code = 204) ∧
  (is_Some out.1 ↔
   code = 200 ∧
   ∃ bidResp, json_Unmarshal_BidResponse (HttpResponse.Body response) = Ok bidResp) ∧
  (is_Some out.1 → out.2 = []) ∧
  (length out.2 ≤ 1)%nat ∧
  (out.1 = None → code ≠ 204 → length out.2 = 1%nat).
Proof.
  intros code out. subst out. unfold MakeBids. fold code.
  destruct (code =? 204) eqn:H204;
    [apply Z.eqb_eq in H204|apply Z.eqb_neq in H204];
  (destruct (code =? 400) eqn:H400;
    [apply Z.eqb_eq in H400|apply Z.eqb_neq in H400]);
  (destruct (code =? 404) eqn:H404;
    [apply Z.eqb_eq in H404|apply Z.eqb_neq in H404]);
  (destruct (code =? 200) eqn:H200;
    [apply Z.eqb_eq in H200|apply Z.eqb_neq in H200]);
  cbn [negb]; try lia;
  try destruct (json_Unmarshal_BidResponse _) as [bidResp|err];
  cbn; split_and!; try lia; try (intros; done);
  try (split; intros; try done; try lia; naive_solver).
Qed.

End MakeBids_results.

(** ** The handler, case by case *)

Section handler_properties.
Context `{Codec} `{main.Backend}.

(** The handler once the body is decoded: the decoded request, with its
    Site in a new object, goes through [MakeRequests]. *)
Lemma serve_decoded bidder body decoded site h :
  json_Unmarshal_BidRequest body = Ok (decoded, site) →
  main.serve bidder "/openrtb2/auction" (Ok body) h =
  let request :=
    BidRequest.with_Site ((λ _, fresh (dom h)) <$> site) decoded in
  let h1 :=
    match site with
    | Some s => <[fresh (dom h) := s]> h
    | None => h
    end in
  match MakeRequests bidder request h1 with
  | Returned (out, h') =>
      Returned (if (0 <? length out.2)%nat then own_answer 500
                else main.relay out.1, h')
  | Panicked msg => Panicked msg
  end.
Proof.
  intros Hdecode. unfold main.serve. cbn [String.eqb Ascii.eqb Bool.eqb negb].
  rewrite Hdecode.
  destruct site as [s|]; cbn.
  - unfold mbind, Exec_bind, new, mret, Exec_ret. cbn.
    destruct (MakeRequests _ _ _) as [[out h']|msg]; [|done].
    by destruct (length out.2).
  - unfold mbind, Exec_bind, mret, Exec_ret. cbn.
    destruct (MakeRequests _ _ _) as [[out h']|msg]; [|done].
    by destruct (length out.2).
Qed.

(** The two shapes of a result of [MakeRequests], with the request. *)
Lemma MakeRequests_result a request h out h' :
  MakeRequests a request h = Returned (out, h') →
  (∃ body, out = ([HttpRequest.mk "POST" (endpoint a) body headers], [])) ∨
  (∃ e, out = ([], [e])).
Proof.
  intros Hrun.
  destruct (BidRequest.Imp request) as [|imp rest] eqn:Himp.
  { rewrite MakeRequests_without_impressions in Hrun by done.
    injection Hrun as <- _. right. by eexists. }
  destruct (BidRequest.Site request) as [l|] eqn:Hsite.
  2:{ rewrite MakeRequests_nil_site in Hrun by (done || by rewrite Himp).
      discriminate. }
  destruct (h !! l) as [s|] eqn:Hl.
  2:{ rewrite (MakeRequests_unallocated a request h l) in Hrun
        by (done || by rewrite Himp).
      discriminate. }
  rewrite (MakeRequests_with_site a request h imp rest l s Himp Hsite Hl) in Hrun.
  injection Hrun as <- _.
  destruct (json_Marshal_BidRequest _ _); [left|right]; eauto.
Qed.

Lemma relay_skips_failures before rest :
  Forall fails before → main.relay (app before rest) = main.relay rest.
Proof.
  induction 1 as [|req before [err Herr] _ IH]; [done|].
  cbn. by rewrite Herr.
Qed.

(** X13. The loop over the requests answers with the first response the
    backend gives, in request order: the requests whose round trip fails
    are skipped and the requests after the one answered are not sent.
    The handler answers 500, with no body, exactly when every round
    trip failed. *)
Theorem relay_answers_with_the_first_response
    (requests : list HttpRequest.t) :
  (∀ before req after beresp,
     requests = app before (req :: after) →
     Forall fails before →
     main.round_trip req = Ok beresp →
     main.relay requests = relayed beresp) ∧
  (main.relay requests = own_answer 500 ↔ Forall fails requests).
Proof.
  split.
  - intros before req after beresp -> Hbefore Hreq.
    rewrite relay_skips_failures by done. cbn. by rewrite Hreq.
  - induction requests as [|req rest IH]; cbn.
    + split; [constructor|done].
    + destruct (main.round_trip req) as [beresp|err] eqn:Hreq.
      * split; [discriminate|].
        intros Hall. apply Forall_cons in Hall as [[err Herr] _]. congruence.
      * rewrite IH. split.
        -- intros Hrest. constructor; [by eexists|done].
        -- intros Hall. by apply Forall_cons in Hall as [_ ?].
Qed.

(** X14. On /openrtb2/auction the handler answers 400, with no body, a
    request whose body cannot be read or does not decode, and 500, with
    no body, a request that decodes without impressions, or whose
    enriched form the encoder refuses. None of these answers involves
    the backend: they are the same for every backend. *)
Theorem serve_answers_without_the_backend
    (bidder : SmartAdServerAdapter) (h : Heap) :
  (∀ err,
     main.serve bidder "/openrtb2/auction" (Err err) h
     = Returned (own_answer 400, h)) ∧
  (∀ body err,
     json_Unmarshal_BidRequest body = Err err →
     main.serve bidder "/openrtb2/auction" (Ok body) h
     = Returned (own_answer 400, h)) ∧
  (∀ body decoded site,
     json_Unmarshal_BidRequest body = Ok (decoded, site) →
     BidRequest.Imp decoded = [] →
     ∃ h', main.serve bidder "/openrtb2/auction" (Ok body) h
           = Returned (own_answer 500, h')) ∧
  (∀ body decoded s imp rest err,
     json_Unmarshal_BidRequest body = Ok (decoded, Some s) →
     BidRequest.Imp decoded = imp :: rest →
     json_Marshal_BidRequest
       (wire_request bidder s imp
          (BidRequest.with_Site (Some (fresh (dom h))) decoded))
       (Some (wire_site s)) = Err err →
     ∃ h', main.serve bidder "/openrtb2/auction" (Ok body) h
           = Returned (own_answer 500, h')).
Proof.
  split_and!.
  - done.
  - intros body err Hdecode. unfold main.serve. cbn. by rewrite Hdecode.
  - intros body decoded site Hdecode Himp.
    rewrite (serve_decoded bidder body decoded site h Hdecode). cbn zeta.
    rewrite MakeRequests_without_impressions by (by destruct decoded).
    by eexists.
  - intros body decoded s imp rest err Hdecode Himp Hmarshal.
    rewrite (serve_decoded bidder body decoded (Some s) h Hdecode). cbn zeta.
    cbn [fmap option_fmap option_map].
    rewrite (MakeRequests_with_site bidder _ _ imp rest (fresh (dom h)) s);
      [|by destruct decoded|by destruct decoded|apply lookup_insert_eq].
    rewrite Hmarshal. by eexists.
Qed.

(** X15. For a body that decodes to a request with an impression and a
    Site, whose enriched form the encoder accepts, the handler makes
    one round trip, a POST of the encoding to the adapter's endpoint
    with the three headers, and answers with the status and the body of
    the backend's response as they are, under the content type
    application/json, whatever that status is; it answers 500, with no
    body, when the round trip fails. *)
Theorem serve_relays_the_backend_response
    (bidder : SmartAdServerAdapter) (body : bytes) (decoded : BidRequest.t)
    (s : Site.t) (imp : Imp.t) (rest : list Imp.t) (wire : bytes) (h : Heap) :
  json_Unmarshal_BidRequest body = Ok (decoded, Some s) →
  BidRequest.Imp decoded = imp :: rest →
  json_Marshal_BidRequest
    (wire_request bidder s imp
       (BidRequest.with_Site (Some (fresh (dom h))) decoded))
    (Some (wire_site s)) = Ok wire →
  ∃ h',
    main.serve bidder "/openrtb2/auction" (Ok body) h =
    Returned
      (match main.round_trip
               (HttpRequest.mk "POST" (endpoint bidder) wire headers) with
       | Ok beresp => relayed beresp
       | Err _ => own_answer 500
       end, h').
Proof.
  intros Hdecode Himp Hmarshal.
  rewrite (serve_decoded bidder body decoded (Some s) h Hdecode). cbn zeta.
  cbn [fmap option_fmap option_map].
  rewrite (MakeRequests_with_site bidder _ _ imp rest (fresh (dom h)) s);
    [|by destruct decoded|by destruct decoded|apply lookup_insert_eq].
  rewrite Hmarshal. eexists. cbn.
  by destruct (main.round_trip _).
Qed.

(** X16. Every answer of the handler is one of its own three, 404, 400
    or 500 with no body and no content type, or the response the
    backend gave to a POST to the adapter's endpoint with the three
    headers: the handler writes no body of its own, and a status other
    than these three only as the backend's. *)
Theorem serve_answers_are_its_own_or_the_backends
    (bidder : SmartAdServerAdapter) (path : string) (read : result bytes)
    (h h' : Heap) (answer : main.Response) :
  main.serve bidder path read h = Returned (answer, h') →
  answer = own_answer 404 ∨ answer = own_answer 400 ∨ answer = own_answer 500 ∨
  ∃ wire beresp,
    main.round_trip (HttpRequest.mk "POST" (endpoint bidder) wire headers)
      = Ok beresp ∧
    answer = relayed beresp.
Proof.
  intros Hrun.
  destruct (String.eqb path "/openrtb2/auction") eqn:Hpath.
  2:{ unfold main.serve in Hrun. rewrite Hpath in Hrun.
      injection Hrun as <- _. by left. }
  apply String.eqb_eq in Hpath. subst path.
  destruct read as [body|err].
  2:{ injection Hrun as <- _. right. by left. }
  destruct (json_Unmarshal_BidRequest body) as [[decoded site]|err] eqn:Hdecode.
  2:{ unfold main.serve in Hrun. cbn in Hrun. rewrite Hdecode in Hrun.
      injection Hrun as <- _. right. by left. }
  rewrite (serve_decoded bidder body decoded site h Hdecode) in Hrun.
  cbn zeta in Hrun.
  destruct (MakeRequests _ _ _) as [[out h1]|msg] eqn:Hmake; [|discriminate].
  injection Hrun as <- _.
  destruct (MakeRequests_result _ _ _ _ _ Hmake) as [[wire ->]|[e ->]]; cbn.
  - destruct (main.round_trip _) as [beresp|err] eqn:Hsend.
    + do 3 right. by exists wire, beresp.
    + right. right. by left.
  - right. right. by left.
Qed.

(** X9. A body that decodes to a request with an impression and no Site
    makes the handler panic, in [MakeRequests], with a nil pointer
    dereference: it writes no answer. *)
Theorem serve_panics_without_a_site
    (bidder : SmartAdServerAdapter) (body : bytes) (decoded : BidRequest.t)
    (h : Heap) :
  json_Unmarshal_BidRequest body = Ok (decoded, None) →
  BidRequest.Imp decoded ≠ [] →
  main.serve bidder "/openrtb2/auction" (Ok body) h = Panicked nil_dereference.
Proof.
  intros Hdecode Himp.
  rewrite (serve_decoded bidder body decoded None h Hdecode). cbn zeta.
  rewrite MakeRequests_nil_site; by destruct decoded.
Qed.

(** X17. [main] serves exactly when the embedded configuration is
    read, decodes and has the adapter enabled, and the handler then
    holds the adapter built from it, never a nil one; in every other
    case [main] returns without serving. *)
Theorem main_serves_enabled_configurations_only (readFile : result bytes) :
  (∀ bidder,
     main.main readFile = main.Serves bidder ↔
     ∃ config pbsConfig a,
       readFile = Ok config ∧
       yaml_Unmarshal_PBSConfig config = Ok pbsConfig ∧
       PBSConfig.SmartAdServer.Enabled
         (PBSConfig.Adapters.SmartAdServer (PBSConfig.Adapters pbsConfig)) = true ∧
       bidder = Some a ∧
       endpoint a = PBSConfig.SmartAdServer.Endpoint
         (PBSConfig.Adapters.SmartAdServer (PBSConfig.Adapters pbsConfig)) ∧
       platformID a = PBSConfig.SmartAdServer.PlatformID
         (PBSConfig.Adapters.SmartAdServer (PBSConfig.Adapters pbsConfig)) ∧
       defaultConfig a = PBSConfig.SmartAdServer.DefaultConfig
         (PBSConfig.Adapters.SmartAdServer (PBSConfig.Adapters pbsConfig))) ∧
  (main.main readFile = main.Exits ↔
   match readFile with
   | Err _ => True
   | Ok config =>
       match yaml_Unmarshal_PBSConfig config with
       | Err _ => True
       | Ok pbsConfig =>
           PBSConfig.SmartAdServer.Enabled
             (PBSConfig.Adapters.SmartAdServer (PBSConfig.Adapters pbsConfig))
           = false
       end
   end).
Proof.
  unfold main.main, BuildBidder.
  destruct readFile as [config|err].
  2:{ split; [|done]. intros bidder. split; [done|].
      by intros (? & ? & ? & ? & _). }
  destruct (yaml_Unmarshal_PBSConfig config) as [pbsConfig|err] eqn:Hdecode.
  2:{ split; [|done]. intros bidder. split; [done|].
      intros (config' & ? & ? & Hread & Hdecode' & _).
      injection Hread as <-. congruence. }
  destruct (PBSConfig.SmartAdServer.Enabled _) eqn:Henabled; cbn [negb].
  - split; [|done]. intros bidder. split.
    + intros Hserves. injection Hserves as <-.
      eexists config, pbsConfig, _. split_and!; try done.
      cbn. by destruct (PBSConfig.SmartAdServer.DefaultConfig _).
    + intros (config' & pbsConfig' & a & Hread & Hdecode' & _ & -> & Hep & Hpid & Hdc).
      injection Hread as <-.
      assert (pbsConfig' = pbsConfig) by congruence. subst pbsConfig'.
      f_equal. f_equal. destruct a as [ep pid dc]. cbn in Hep, Hpid, Hdc.
      subst ep pid dc.
      by destruct (PBSConfig.SmartAdServer.DefaultConfig _).
  - split; [|done]. intros bidder. split; [done|].
    intros (config' & pbsConfig' & ? & Hread & Hdecode' & Henabled' & _).
    injection Hread as <-.
    assert (pbsConfig' = pbsConfig) by congruence. subst pbsConfig'.
    congruence.
Qed.

End handler_properties.

(** ** What the handler leaves of the heap *)

Section handler_frame.
Context `{Codec} `{main.Backend}.

(** X21. The handler leaves every object that existed before the
    request as it was: the Site whose page [MakeRequests] writes is the
    one the decoder allocated for this request. *)
Theorem serve_leaves_existing_objects
    (bidder : SmartAdServerAdapter) (path : string) (read : result bytes)
    (h h' : Heap) (answer : main.Response) :
  main.serve bidder path read h = Returned (answer, h') →
  ∀ l s, h !! l = Some s → h' !! l = Some s.
Proof.
  intros Hrun l s Hl.
  destruct (String.eqb path "/openrtb2/auction") eqn:Hpath.
  2:{ unfold main.serve in Hrun. rewrite Hpath in Hrun.
      by injection Hrun as _ <-. }
  apply String.eqb_eq in Hpath. subst path.
  destruct read as [body|err].
  2:{ by injection Hrun as _ <-. }
  destruct (json_Unmarshal_BidRequest body) as [[decoded site]|err] eqn:Hdecode.
  2:{ unfold main.serve in Hrun. cbn in Hrun. rewrite Hdecode in Hrun.
      by injection Hrun as _ <-. }
  rewrite (serve_decoded bidder body decoded site h Hdecode) in Hrun.
  cbn zeta in Hrun.
  destruct (MakeRequests _ _ _) as [[out h1]|msg] eqn:Hmake; [|discriminate].
  injection Hrun as _ <-.
  assert (Hfresh : l ≠ fresh (dom h)).
  { intros ->. apply (is_fresh (dom h)). apply elem_of_dom. by eexists. }
  destruct (MakeRequests_heap_effect _ _ _ _ _ Hmake)
    as [->|(l0 & s0 & Hsite & _ & _ & _ & ->)].
  - destruct site; [by rewrite lookup_insert_ne|done].
  - destruct site as [s1|]; [|by destruct decoded].
    assert (l0 = fresh (dom h)) as -> by (by destruct decoded; injection Hsite).
    by rewrite !lookup_insert_ne.
Qed.

End handler_frame.

(** *** The handler and [main] on concrete inputs *)

Section handler_witnesses.
Existing Instance reference.codec.
Existing Instance sample.echo_backend.

Lemma serve_panics_without_a_site_witness :
  json_Unmarshal_BidRequest (json_text "{'imp':[{'id':'1'}]}")
    = Ok (sample.siteless_request, None) ∧
  BidRequest.Imp sample.siteless_request ≠ [] ∧
  main.serve sample.adapter "/openrtb2/auction"
    (Ok (json_text "{'imp':[{'id':'1'}]}")) ∅
  = Panicked nil_dereference.
Proof.
  assert (Hdecode : json_Unmarshal_BidRequest (json_text "{'imp':[{'id':'1'}]}")
                    = Ok (sample.siteless_request, None))
    by (vm_compute; reflexivity).
  split; [exact Hdecode|]. split; [discriminate|].
  exact (serve_panics_without_a_site sample.adapter _ _ ∅ Hdecode
           ltac:(discriminate)).
Defined.

Lemma MakeRequests_writes_exactly_a_missing_page_witness :
  MakeRequests sample.adapter sample.request sample.heap =
    Returned
      (([HttpRequest.mk "POST" "https://prg.smartadserver.com/prebid/v1"
           sample.wire_body headers], []),
       {[ sample.site_location := sample.site_with_page ]}) ∧
  (({[ sample.site_location := sample.site_with_page ]} : Heap) = sample.heap ↔
   BidRequest.Imp sample.request = [] ∨ Site.Page sample.site ≠ "" ∨
   Site.Domain sample.site = "") ∧
  (({[ sample.site_location := sample.site_with_page ]} : Heap) ≠ sample.heap →
   ({[ sample.site_location := sample.site_with_page ]} : Heap)
     !! sample.site_location = Some sample.site_with_page).
Proof.
  split; [exact scenario_site_domain|].
  exact (MakeRequests_writes_exactly_a_missing_page
           sample.adapter sample.request sample.heap _ _
           sample.site_location sample.site
           scenario_site_domain eq_refl eq_refl).
Defined.

Lemma relay_answers_with_the_first_response_witness :
  main.relay
    [HttpRequest.mk "POST" "https://elsewhere.example" "first" ∅;
     HttpRequest.mk "POST" "https://prg.smartadserver.com/prebid/v1" "second" ∅;
     HttpRequest.mk "POST" "https://prg.smartadserver.com/prebid/v1" "third" ∅]
  = main.mkResponse 200 "second" (Some "application/json").
Proof.
  refine (proj1 (relay_answers_with_the_first_response _)
            [HttpRequest.mk "POST" "https://elsewhere.example" "first" ∅]
            (HttpRequest.mk "POST" "https://prg.smartadserver.com/prebid/v1" "second" ∅)
            [HttpRequest.mk "POST" "https://prg.smartadserver.com/prebid/v1" "third" ∅]
            (sample.response 200 "second") eq_refl _ eq_refl).
  constructor; [|constructor]. by eexists.
Defined.

Lemma serve_answers_without_the_backend_witness :
  main.serve sample.adapter "/openrtb2/auction" (Err "unexpected EOF") ∅
    = Returned (own_answer 400, ∅) ∧
  main.serve sample.adapter "/openrtb2/auction" (Ok "imp=1") ∅
    = Returned (own_answer 400, ∅) ∧
  ∃ h', main.serve sample.adapter "/openrtb2/auction"
          (Ok (json_text "{'imp':[],'site':{'domain':'example.com'}}")) ∅
        = Returned (own_answer 500, h').
Proof.
  pose proof (serve_answers_without_the_backend sample.adapter ∅)
    as (Hread & Hdecode & Hempty & _).
  split; [exact (Hread _)|]. split.
  - refine (Hdecode "imp=1" _ _). vm_compute. reflexivity.
  - refine (Hempty _ (BidRequest.mk "" [] None 0 0 0 "") (Some sample.site) _ eq_refl).
    vm_compute. reflexivity.
Defined.

Lemma serve_relays_the_backend_response_witness :
  ∃ h',
    main.serve sample.adapter "/openrtb2/auction"
      (Ok (json_text "{'imp':[{'id':'1'}],'site':{'domain':'example.com'}}")) ∅
    = Returned
        (main.mkResponse 200 sample.wire_body (Some "application/json"), h').
Proof.
  refine (serve_relays_the_backend_response sample.adapter _
            sample.siteless_request sample.site
            (Imp.mk "1" None 0%float "" "") [] sample.wire_body ∅ _ eq_refl _);
    vm_compute; reflexivity.
Defined.

Lemma serve_answers_are_its_own_or_the_backends_witness :
  main.serve sample.adapter "/openrtb2/auction"
    (Ok (json_text "{'imp':[{'id':'1'}],'site':{'domain':'example.com'}}")) ∅
  = Returned
      (main.mkResponse 200 sample.wire_body (Some "application/json"),
       {[ 1%positive := sample.site_with_page ]}) ∧
  (main.mkResponse 200 sample.wire_body (Some "application/json") = own_answer 404 ∨
   main.mkResponse 200 sample.wire_body (Some "application/json") = own_answer 400 ∨
   main.mkResponse 200 sample.wire_body (Some "application/json") = own_answer 500 ∨
   ∃ wire beresp,
     main.round_trip
       (HttpRequest.mk "POST" "https://prg.smartadserver.com/prebid/v1" wire headers)
       = Ok beresp ∧
     main.mkResponse 200 sample.wire_body (Some "application/json") = relayed beresp).
Proof.
  assert (Hrun :
    main.serve sample.adapter "/openrtb2/auction"
      (Ok (json_text "{'imp':[{'id':'1'}],'site':{'domain':'example.com'}}")) ∅
    = Returned
        (main.mkResponse 200 sample.wire_body (Some "application/json"),
         {[ 1%positive := sample.site_with_page ]}))
    by (vm_compute; reflexivity).
  split; [exact Hrun|].
  exact (serve_answers_are_its_own_or_the_backends sample.adapter _ _ _ _ _ Hrun).
Defined.

Lemma main_serves_enabled_configurations_only_witness :
  main.main (Ok sample.enabled_config) = main.Serves (Some sample.adapter) ∧
  main.main (Ok sample.disabled_config) = main.Exits ∧
  main.main (Ok sample.broken_config) = main.Exits ∧
  main.main (Err "open pbs.yaml: file does not exist") = main.Exits.
Proof.
  split_and!.
  - apply (proj1 (main_serves_enabled_configurations_only (Ok sample.enabled_config))).
    exists sample.enabled_config,
      (PBSConfig.mk (PBSConfig.Adapters.mk
         (PBSConfig.SmartAdServer.mk true
            "https://prg.smartadserver.com/prebid/v1" 1234
            (PBSConfig.DefaultConfig.mk 11 22 33 44)))),
      sample.adapter.
    split_and!; vm_compute; reflexivity.
  - apply (proj2 (main_serves_enabled_configurations_only (Ok sample.disabled_config))).
    vm_compute. reflexivity.
  - apply (proj2 (main_serves_enabled_configurations_only (Ok sample.broken_config))).
    by vm_compute.
  - by apply (proj2 (main_serves_enabled_configurations_only
                       (Err "open pbs.yaml: file does not exist"))).
Defined.

Lemma serve_leaves_existing_objects_witness :
  main.serve sample.adapter "/openrtb2/auction"
    (Ok (json_text "{'imp':[{'id':'1'}],'site':{'domain':'example.com'}}"))
    sample.heap
  = Returned
      (main.mkResponse 200 sample.wire_body (Some "application/json"),
       <[ 2%positive := sample.site_with_page ]> sample.heap) ∧
  ∀ l s,
    sample.heap !! l = Some s →
    (<[ 2%positive := sample.site_with_page ]> sample.heap) !! l = Some s.
Proof.
  assert (Hrun :
    main.serve sample.adapter "/openrtb2/auction"
      (Ok (json_text "{'imp':[{'id':'1'}],'site':{'domain':'example.com'}}"))
      sample.heap
    = Returned
        (main.mkResponse 200 sample.wire_body (Some "application/json"),
         <[ 2%positive := sample.site_with_page ]> sample.heap))
    by (vm_compute; reflexivity).
  split; [exact Hrun|].
  exact (serve_leaves_existing_objects sample.adapter _ _ _ _ _ Hrun).
Defined.

End handler_witnesses.

(** ** Reading back what [json.Marshal] wrote *)

Section read_back.
Import jsontext.

(** One step of the reader on what [appendString] wrote for one byte
    or one rune. *)
Lemma read_string_ascii c f X :
  (N_of_ascii c <? 128)%N = true →
  jsontext.read_string (S f) 0 (json.escape_ascii c ++ X)
  = match jsontext.read_string f 0 X with
    | Some (str, r) => Some (String c str, r)
    | None => None
    end.
Proof.
  destruct c as [[] [] [] [] [] [] [] []]; intros Hc; try discriminate Hc;
    reflexivity.
Qed.

Lemma escape_Copy_cons n c rest :
  json.escape (json.Copy (S n)) (String c rest)
  = String c (json.escape (json.Copy n) rest).
Proof. reflexivity. Qed.

Lemma escape_Copy0 s : json.escape (json.Copy 0) s = json.escape json.Scan s.
Proof. by destruct s. Qed.

Lemma escape_Drop0 s : json.escape (json.Drop 0) s = json.escape json.Scan s.
Proof. by destruct s. Qed.

Lemma rune_size_prefix c rest size Y :
  json.rune_size c rest = Some size →
  (size - 1 ≤ String.length rest)%nat ∧
  (128 <=? N_of_ascii c)%N = true ∧
  json.rune_size c (json.escape (json.Copy (size - 1)) rest ++ Y) = Some size.
Proof.
  intros Hsize. unfold json.rune_size in Hsize.
  destruct (N_of_ascii c <? 194)%N eqn:H194; [discriminate|].
  assert (H128 : (128 <=? N_of_ascii c)%N = true).
  { apply N.leb_le. apply N.ltb_ge in H194. lia. }
  destruct rest as [|c2 [|c3 [|c4 r]]]; cbn in Hsize;
    repeat (match type of Hsize with
            | context [if ?x then _ else _] => destruct x eqn:?
            end; cbn in Hsize);
    try discriminate Hsize; injection Hsize as <-;
    repeat match goal with
           | H : _ && _ = true |- _ => apply andb_prop in H as [? ?]
           end;
    try discriminate;
    (split; [cbn; lia|]); (split; [done|]);
    unfold json.rune_size; simpl;
    repeat (match goal with
            | H : ?x = _ |- context [?x] => rewrite H
            end; simpl); try done.
Qed.

Lemma line_separator_inv c rest d :
  json.line_separator c rest = Some d →
  ∃ c3 rest',
    c = ascii_of_N 226 ∧
    rest = String (ascii_of_N 128) (String c3 rest') ∧
    ((c3 = ascii_of_N 168 ∧ d = "8"%char) ∨ (c3 = ascii_of_N 169 ∧ d = "9"%char)).
Proof.
  unfold json.line_separator.
  destruct (N_of_ascii c) as [|p] eqn:Hc; [done|].
  destruct (decide (p = 226%positive)) as [->|Hp].
  2:{ intros Hd. exfalso.
      repeat (destruct p as [p|p|]; try discriminate Hd); by apply Hp. }
  assert (c = ascii_of_N 226) as ->.
  { rewrite <- (ascii_N_embedding c). by rewrite Hc. }
  destruct rest as [|c2 [|c3 rest']]; try done.
  destruct (N_of_ascii c2 =? 128)%N eqn:Hc2; [|done].
  apply N.eqb_eq in Hc2.
  assert (c2 = ascii_of_N 128) as ->.
  { rewrite <- (ascii_N_embedding c2). by rewrite Hc2. }
  intros Hd. exists c3, rest'. split; [done|]. split; [done|].
  destruct (N_of_ascii c3 =? 168)%N eqn:H168.
  { apply N.eqb_eq in H168. left. injection Hd as <-. split; [|done].
    rewrite <- (ascii_N_embedding c3). by rewrite H168. }
  destruct (N_of_ascii c3 =? 169)%N eqn:H169; [|done].
  apply N.eqb_eq in H169. right. injection Hd as <-. split; [|done].
  rewrite <- (ascii_N_embedding c3). by rewrite H169.
Qed.

Lemma read_string_replacement f X :
  jsontext.read_string (S f) 0 ("\ufffd" ++ X)
  = match jsontext.read_string f 0 X with
    | Some (str, r) =>
        Some (jsontext.encode_rune jsontext.replacement ++ str, r)
    | None => None
    end.
Proof. reflexivity. Qed.

Lemma read_string_lead c f X :
  (128 <=? N_of_ascii c)%N = true →
  jsontext.read_string (S f) 0 (String c X)
  = match json.rune_size c X with
    | Some size =>
        match jsontext.read_string f (size - 1) X with
        | Some (str, r) => Some (String c str, r)
        | None => None
        end
    | None =>
        match jsontext.read_string f 0 X with
        | Some (str, r) =>
            Some (jsontext.encode_rune jsontext.replacement ++ str, r)
        | None => None
        end
    end.
Proof.
  destruct c as [[] [] [] [] [] [] [] []]; intros Hc; try discriminate Hc;
    reflexivity.
Qed.

Lemma escape_ascii_length c : (1 ≤ String.length (json.escape_ascii c))%nat.
Proof.
  destruct c as [[] [] [] [] [] [] [] []]; vm_compute; lia.
Qed.

Lemma append_cons c x y : String c x ++ y = String c (x ++ y).
Proof. reflexivity. Qed.

Lemma append_assoc (x y z : string) : (x ++ y) ++ z = x ++ (y ++ z).
Proof. induction x as [|c x IH]; [done|]. by rewrite !append_cons, IH. Qed.

Lemma append_length (x y : string) :
  String.length (x ++ y) = (String.length x + String.length y)%nat.
Proof. induction x as [|c x IH]; [done|]. rewrite append_cons. cbn. by rewrite IH. Qed.

Lemma escape_Drop2 a b r :
  json.escape (json.Drop 2) (String a (String b r)) = json.escape json.Scan r.
Proof. by destruct r. Qed.

Lemma read_string_separator (last : bool) f X :
  jsontext.read_string (S f) 0
    ("\u202" ++ String (if last then "9" else "8")%char X)
  = match jsontext.read_string f 0 X with
    | Some (str, r) =>
        Some (String (ascii_of_N 226) (String (ascii_of_N 128)
                (String (ascii_of_N (if last then 169 else 168)) str)), r)
    | None => None
    end.
Proof. by destruct last. Qed.

(** The reader on an escaped string, up to its closing quote. *)
Lemma read_escaped n :
  ∀ s, (String.length s ≤ n)%nat →
  ∀ copy f R,
    (copy ≤ String.length s)%nat →
    (String.length (json.escape (json.Copy copy) s) < f)%nat →
    jsontext.read_string f copy
      (json.escape (json.Copy copy) s ++ String double_quote R)
    = Some (valid_utf8 copy s, R).
Proof.
  induction n as [|n IH]; intros s Hn copy f R Hcopy Hf.
  { destruct s; [|cbn in Hn; lia]. cbn in Hcopy.
    assert (copy = 0%nat) as -> by lia.
    destruct f; [cbn in Hf; lia|]. reflexivity. }
  destruct s as [|c rest].
  { cbn in Hcopy. assert (copy = 0%nat) as -> by lia.
    destruct f; [cbn in Hf; lia|]. reflexivity. }
  cbn in Hn.
  destruct copy as [|k].
  2:{ rewrite escape_Copy_cons in Hf |- *. cbn in Hf, Hcopy.
      destruct f as [|f]; [lia|].
      rewrite append_cons. cbn [jsontext.read_string valid_utf8].
      rewrite (IH rest) by lia. reflexivity. }
  rewrite escape_Copy0 in Hf |- *.
  cbn [json.escape valid_utf8] in Hf |- *.
  destruct f as [|f]; [lia|].
  destruct (N_of_ascii c <? 128)%N eqn:Hc.
  { rewrite append_length in Hf.
    pose proof (escape_ascii_length c).
    rewrite append_assoc, read_string_ascii by done.
    rewrite <- escape_Copy0, (IH rest); [done|lia|lia|].
    rewrite escape_Copy0. lia. }
  destruct (json.rune_size c rest) as [size|] eqn:Hsize.
  2:{ rewrite append_assoc, read_string_replacement.
      rewrite append_length in Hf. cbn in Hf.
      rewrite <- escape_Copy0, (IH rest); [done|lia|lia|].
      rewrite escape_Copy0. lia. }
  destruct (json.line_separator c rest) as [d|] eqn:Hsep.
  - apply line_separator_inv in Hsep
      as (c3 & rest' & -> & -> & [[-> ->]|[-> ->]]);
      injection Hsize as <-;
      change (3 - 1)%nat with 2%nat in *;
      rewrite escape_Drop2 in Hf |- *;
      rewrite append_length in Hf; cbn in Hf, Hn;
      rewrite append_assoc;
      [rewrite (append_cons "8"%char), (read_string_separator false)
      |rewrite (append_cons "9"%char), (read_string_separator true)];
      cbn [valid_utf8];
      rewrite <- escape_Copy0, (IH rest'); [done|lia|lia| |done|lia|lia|];
      rewrite escape_Copy0; lia.
  - destruct (rune_size_prefix c rest size (String double_quote R) Hsize)
      as (Hlen & H128 & Hprefix).
    rewrite append_cons, read_string_lead by done.
    rewrite Hprefix. cbn in Hf.
    rewrite (IH rest); [done|lia|lia|lia].
Qed.

(** Integers in decimal. *)
Lemma span_digits_uint d R :
  closes R = true →
  jsontext.span_digits (NilEmpty.string_of_uint d ++ R)
  = (NilEmpty.string_of_uint d, R).
Proof.
  intros HR. induction d; cbn [NilEmpty.string_of_uint];
    try (rewrite append_cons; cbn [jsontext.span_digits];
         change (jsontext.is_digit _) with true; cbn iota; by rewrite IHd).
  destruct R as [|c R]; [done|]. cbn in HR |- *.
  destruct c as [[] [] [] [] [] [] [] []]; try discriminate HR; reflexivity.
Qed.

Lemma to_uint_head p :
  match Pos.to_uint p with
  | Decimal.Nil | Decimal.D0 _ => False
  | _ => True
  end.
Proof.
  assert (Hnorm : Decimal.unorm (Pos.to_uint p) = Pos.to_uint p).
  { rewrite <- (DecimalN.Unsigned.to_of (Pos.to_uint p)).
    change (N.of_uint (Pos.to_uint p)) with (Pos.of_uint (Pos.to_uint p)).
    by rewrite DecimalPos.Unsigned.of_to. }
  pose proof (Unsigned.to_uint_nonzero p) as Hnz.
  pose proof (Unsigned.to_uint_nonnil p) as Hnn.
  destruct (Pos.to_uint p) as [|d| | | | | | | | |] eqn:Hd; try done.
  unfold Decimal.unorm in Hnorm.
  pose proof (nzhead_nonzero (Decimal.D0 d)) as Hhead.
  destruct (Decimal.nzhead (Decimal.D0 d)) eqn:Hh; try congruence.
Qed.

Lemma append_nil_r (x : string) : x ++ "" = x.
Proof. induction x as [|c x IH]; [done|]. by rewrite append_cons, IH. Qed.

Lemma uint_digits d :
  d ≠ Decimal.Nil →
  ∃ c ds, NilEmpty.string_of_uint d = String c ds ∧ jsontext.is_digit c = true ∧
    (Ascii.eqb c "0" = true → ∃ d', d = Decimal.D0 d').
Proof.
  destruct d; try done; intros _; cbn [NilEmpty.string_of_uint];
    eexists _, _; (split; [reflexivity|]); (split; [reflexivity|]);
    try discriminate.
  by eexists.
Qed.

Lemma scan_number_digits (negative : bool) c ds R :
  closes R = true →
  jsontext.is_digit c = true →
  jsontext.span_digits (String c ds ++ R) = (String c ds, R) →
  jsontext.leading_zero (String c ds) = false →
  jsontext.scan_number ((if negative then "-" else "") ++ String c ds ++ R)
  = Some ((if negative then "-" else "") ++ String c ds, R).
Proof.
  intros HR Hc Hspan Hlead.
  assert (Htail : ∀ sign,
    (if String.eqb (String c ds) "" || jsontext.leading_zero (String c ds)
     then None
     else
       let frac :=
         match R with
         | String "." r =>
             let (ds, s3) := jsontext.span_digits r in
             if String.eqb ds "" then None else Some ("." ++ ds, s3)
         | _ => Some ("", R)
         end in
       match frac with
       | None => None
       | Some (frac, s3) =>
           let exp :=
             match s3 with
             | String e r =>
                 if Ascii.eqb e "e" || Ascii.eqb e "E" then
                   let (esign, r1) :=
                     match r with
                     | String "+" r' => ("+", r')
                     | String "-" r' => ("-", r')
                     | _ => ("", r)
                     end in
                   let (ds, s4) := jsontext.span_digits r1 in
                   if String.eqb ds "" then None
                   else Some (String e (esign ++ ds), s4)
                 else Some ("", s3)
             | EmptyString => Some ("", s3)
             end in
           match exp with
           | None => None
           | Some (exp, s4) => Some (sign ++ String c ds ++ frac ++ exp, s4)
           end
       end) = Some (sign ++ String c ds, R)).
  { intros sign. rewrite Hlead. cbn [String.eqb orb].
    destruct R as [|r R]; [cbn; by rewrite !append_nil_r|].
    cbn in HR.
    destruct r as [[] [] [] [] [] [] [] []]; try discriminate HR;
      cbn; by rewrite !append_nil_r. }
  unfold jsontext.scan_number.
  destruct negative.
  - change ("-" ++ String c ds ++ R) with (String "-" (String c ds ++ R)).
    cbv beta iota. rewrite Hspan. apply Htail.
  - change ("" ++ String c ds ++ R) with (String c ds ++ R).
    rewrite append_cons.
    assert (Hsign :
      match String c (ds ++ R) with
      | String "-" r => ("-", r)
      | _ => ("", String c (ds ++ R))
      end = ("", String c (ds ++ R))).
    { destruct c as [[] [] [] [] [] [] [] []]; try discriminate Hc; reflexivity. }
    rewrite Hsign. rewrite <- append_cons, Hspan. apply Htail.
Qed.

Lemma scan_number_itoa z R :
  closes R = true →
  jsontext.scan_number (itoa z ++ R) = Some (itoa z, R).
Proof.
  intros HR. unfold itoa, Z.to_int.
  destruct z as [|p|p].
  - apply (scan_number_digits false "0" "" R HR eq_refl); [|done].
    apply (span_digits_uint (Decimal.D0 Decimal.Nil) R HR).
  - pose proof (to_uint_head p) as Hhead.
    cbn [NilZero.string_of_int]. unfold NilZero.string_of_uint.
    destruct (uint_digits (Pos.to_uint p)) as (c & ds & Hstr & Hc & Hzero).
    { by destruct (Pos.to_uint p). }
    assert (NilEmpty.string_of_uint (Pos.to_uint p) = String c ds ∧
            match Pos.to_uint p with
            | Decimal.Nil => "0"
            | _ => NilEmpty.string_of_uint (Pos.to_uint p)
            end = String c ds) as [Hstr' ->].
    { split; [done|]. by destruct (Pos.to_uint p). }
    apply (scan_number_digits false c ds R HR Hc).
    + rewrite <- Hstr'. by apply span_digits_uint.
    + destruct (Ascii.eqb c "0") eqn:Hc0.
      * destruct (Hzero eq_refl) as [d' Hd']. by rewrite Hd' in Hhead.
      * destruct c as [[] [] [] [] [] [] [] []]; try discriminate Hc;
          try discriminate Hc0; by destruct ds.
  - pose proof (to_uint_head p) as Hhead.
    cbn [NilZero.string_of_int]. unfold NilZero.string_of_uint.
    destruct (uint_digits (Pos.to_uint p)) as (c & ds & Hstr & Hc & Hzero).
    { by destruct (Pos.to_uint p). }
    assert (NilEmpty.string_of_uint (Pos.to_uint p) = String c ds ∧
            match Pos.to_uint p with
            | Decimal.Nil => "0"
            | _ => NilEmpty.string_of_uint (Pos.to_uint p)
            end = String c ds) as [Hstr' ->].
    { split; [done|]. by destruct (Pos.to_uint p). }
    apply (scan_number_digits true c ds R HR Hc).
    + rewrite <- Hstr'. by apply span_digits_uint.
    + destruct (Ascii.eqb c "0") eqn:Hc0.
      * destruct (Hzero eq_refl) as [d' Hd']. by rewrite Hd' in Hhead.
      * destruct c as [[] [] [] [] [] [] [] []]; try discriminate Hc;
          try discriminate Hc0; by destruct ds.
Qed.

(** Values, members and objects. *)
Lemma parse_value_string f X :
  parse_value (S f) (String double_quote X)
  = match read_string (String.length X) 0 X with
    | Some (str, r) => Some (JString str, r)
    | None => None
    end.
Proof. reflexivity. Qed.

Lemma quote_text s R :
  json.quote s ++ R
  = String double_quote (json.escape (json.Copy 0) s ++ String double_quote R).
Proof.
  unfold json.quote. rewrite append_cons, append_assoc, escape_Copy0.
  reflexivity.
Qed.

Lemma reads_quote s : reads (json.quote s) (JString (valid_utf8 0 s)).
Proof.
  split.
  - intros R. by rewrite quote_text.
  - intros f R Hf _. rewrite quote_text.
    destruct f as [|f]; [cbn in Hf; lia|].
    rewrite parse_value_string, read_escaped with (n := String.length s);
      [done|lia|lia|].
    rewrite append_length. cbn. lia.
Qed.

Lemma itoa_head z :
  ∃ c ds, itoa z = String c ds ∧
    (is_digit c = true ∨ c = "-"%char).
Proof.
  unfold itoa, Z.to_int. destruct z as [|p|p].
  - eexists _, _. split; [reflexivity|]. by left.
  - cbn [NilZero.string_of_int]. unfold NilZero.string_of_uint.
    destruct (uint_digits (Pos.to_uint p)) as (c & ds & Hstr & Hc & _).
    { apply Unsigned.to_uint_nonnil. }
    exists c, ds. split; [|by left].
    destruct (Pos.to_uint p); try done.
  - eexists _, _. split; [reflexivity|]. by right.
Qed.

Lemma parse_value_number f c X :
  is_digit c = true ∨ c = "-"%char →
  skip_ws (String c X) = String c X ∧
  parse_value (S f) (String c X)
  = match scan_number (String c X) with
    | Some (lit, r) => Some (JNumber lit, r)
    | None => None
    end.
Proof.
  intros [Hc| ->]; [|done].
  destruct c as [[] [] [] [] [] [] [] []]; try discriminate Hc; done.
Qed.

Lemma reads_itoa z : reads (itoa z) (JNumber (itoa z)).
Proof.
  destruct (itoa_head z) as (c & ds & Hstr & Hc).
  split.
  - intros R. rewrite Hstr, append_cons.
    apply (parse_value_number 0 c _ Hc).
  - intros f R Hf HR.
    destruct f as [|f]; [rewrite Hstr in Hf; cbn in Hf; lia|].
    pose proof (scan_number_itoa z R HR) as Hscan.
    rewrite Hstr, append_cons in Hscan |- *.
    rewrite (proj2 (parse_value_number f c _ Hc)). by rewrite Hscan.
Qed.

Lemma substring_prefix v R : substring 0 (String.length v) (v ++ R) = v.
Proof.
  induction v as [|c v IH]; cbn.
  - by destruct R.
  - rewrite append_cons. cbn. by rewrite IH.
Qed.

Lemma consumed_value v R : consumed (v ++ R) R = v.
Proof.
  unfold consumed. rewrite append_length.
  replace (String.length v + String.length R - String.length R)%nat
    with (String.length v) by lia.
  apply substring_prefix.
Qed.

Lemma member_text k (v : bytes) X :
  json.member (k, v) ++ X
  = String double_quote
      (json.escape (json.Copy 0) k ++ String double_quote (String ":" (v ++ X))).
Proof.
  unfold json.member. cbn [fst snd].
  rewrite append_assoc, quote_text, append_assoc. reflexivity.
Qed.

Lemma parse_members_key f X acc :
  parse_members (S f) (String double_quote X) acc
  = match read_string (String.length X) 0 X with
    | Some (key, r1) =>
        match skip_ws r1 with
        | String ":" r2 =>
            let text := skip_ws r2 in
            match parse_value f text with
            | Some (v, r3) =>
                let member := (key, (consumed text r3, v)) in
                match skip_ws r3 with
                | String "," r' => parse_members f r' (app acc [member])
                | String "}" r' => Some (JObject (app acc [member]), r')
                | _ => None
                end
            | None => None
            end
        | _ => None
        end
    | None => None
    end.
Proof. reflexivity. Qed.

(** One member, closed by [X]. *)

Lemma parse_member f k (v : bytes) d X acc :
  reads v d →
  (String.length v ≤ f)%nat →
  closes X = true →
  parse_members (S f) (json.member (k, v) ++ X) acc
  = match X with
    | String "," r' => parse_members f r' (app acc [(valid_utf8 0 k, (v, d))])
    | String "}" r' => Some (JObject (app acc [(valid_utf8 0 k, (v, d))]), r')
    | _ => None
    end.
Proof.
  intros [Hstart Hreads] Hf HX.
  rewrite member_text, parse_members_key.
  rewrite read_escaped with (n := String.length k); [|lia|lia|].
  2:{ rewrite append_length. cbn. lia. }
  change (skip_ws (String ":" (v ++ X))) with (String ":" (v ++ X)).
  cbv beta iota zeta. rewrite Hstart, Hreads by done.
  rewrite consumed_value.
  destruct X as [|c X]; [done|]. cbn in HX.
  destruct c as [[] [] [] [] [] [] [] []]; try discriminate HX; reflexivity.
Qed.

Lemma member_length k (v : bytes) : (String.length v + 3 ≤ String.length (json.member (k, v)))%nat.
Proof.
  unfold json.member, json.quote. cbn [fst snd].
  rewrite !append_length. cbn. rewrite append_length. cbn. lia.
Qed.

Lemma parse_members_join ms ds :
  Forall2 member_reads ms ds →
  ms ≠ [] →
  ∀ f R acc,
    (String.length (json.join "," (map json.member ms)) ≤ f)%nat →
    parse_members f (json.join "," (map json.member ms) ++ String "}" R) acc
    = Some (JObject (app acc ds), R).
Proof.
  induction 1 as [|[k v] [k' [v' d]] ms ds (Hk & Hv & Hd) Hrest IH];
    [done|]; intros _ f R acc Hf.
  cbn in Hk, Hv, Hd. subst k' v'.
  pose proof (member_length k v) as Hlen.
  destruct ms as [|m ms].
  - apply Forall2_nil_inv_l in Hrest as ->.
    cbn [map json.join] in Hf |- *.
    destruct f as [|f]; [lia|].
    rewrite (parse_member f k v d (String "}" R) acc Hd) by (done || lia).
    reflexivity.
  - change (json.join "," (map json.member ((k, v) :: m :: ms)))
      with (json.member (k, v) ++ "," ++ json.join "," (map json.member (m :: ms)))
      in Hf |- *.
    rewrite !append_length in Hf. rewrite !append_assoc.
    destruct f as [|f]; [lia|].
    change ("," ++ json.join "," (map json.member (m :: ms)) ++ String "}" R)
      with (String "," (json.join "," (map json.member (m :: ms)) ++ String "}" R)).
    rewrite (parse_member f k v d _ acc Hd) by (done || lia).
    rewrite IH; [|done|change (String.length ",") with 1%nat in Hf; lia].
    by rewrite <- app_assoc.
Qed.

Lemma parse_value_object f X :
  parse_value (S f) (String "{" (String double_quote X))
  = parse_members f (String double_quote X) [].
Proof. reflexivity. Qed.

Lemma object_text ms R :
  json.object ms ++ R
  = String "{" (json.join "," (map json.member ms) ++ String "}" R).
Proof.
  unfold json.object.
  change ("{" ++ ?x) with (String "{" x).
  by rewrite append_cons, append_assoc.
Qed.

Lemma object_length ms :
  String.length (json.object ms)
  = S (S (String.length (json.join "," (map json.member ms)))).
Proof.
  unfold json.object.
  change ("{" ++ ?x) with (String "{" x). cbn [String.length].
  rewrite append_length. cbn. lia.
Qed.

Lemma reads_object ms ds :
  Forall2 member_reads ms ds →
  reads (json.object ms) (JObject ds).
Proof.
  intros Hms. split; [done|].
  intros f R Hf _. rewrite object_length in Hf. rewrite object_text.
  destruct f as [|f]; [lia|].
  destruct ms as [|[k v] ms].
  { by apply Forall2_nil_inv_l in Hms as ->. }
  assert (Hhead : ∃ X, json.join "," (map json.member ((k, v) :: ms)) ++ String "}" R
                       = String double_quote X).
  { destruct ms; cbn [map json.join]; rewrite ?append_assoc, member_text; eauto. }
  destruct Hhead as [X HX].
  rewrite HX, parse_value_object, <- HX.
  rewrite (parse_members_join _ ds Hms); [done|done|lia].
Qed.

Lemma reads_parse v d : reads v d → parse v = Some d.
Proof.
  intros [_ Hreads]. unfold parse.
  pose proof (Hreads (S (2 * String.length v)) "" ltac:(lia) eq_refl) as Hv.
  rewrite append_nil_r in Hv. by rewrite Hv.
Qed.

Lemma valid_utf8_ascii s : ascii_only s = true → valid_utf8 0 s = s.
Proof.
  induction s as [|c s IH]; [done|]. cbn.
  intros [Hc Hs]%andb_prop. rewrite Hc. by rewrite IH.
Qed.

(** X18. The string literal [json.Marshal] writes for a Go string is
    read back, by the reader of JSON text, as that string with every
    byte that is not part of a valid UTF-8 rune replaced by U+FFFD, and
    the reader stops at the closing quote: whatever the string holds
    (quotes, backslashes, control characters, markup), it cannot end the
    literal early. A string of ASCII bytes is read back as itself. *)
Theorem quote_reads_back (s : string) :
  parse (json.quote s) = Some (JString (valid_utf8 0 s)) ∧
  (ascii_only s = true → parse (json.quote s) = Some (JString s)).
Proof.
  assert (H := reads_parse _ _ (reads_quote s)).
  split; [done|]. intros Hs. by rewrite H, valid_utf8_ascii.
Qed.

Lemma reads_impExtJSON a domain : reads (impExtJSON a domain) (impExt_doc a domain).
Proof.
  unfold impExtJSON, impExt_doc.
  repeat (apply reads_object; repeat constructor;
          try apply reads_itoa; try apply (reads_quote domain);
          try apply (reads_quote "testing=prebid")).
Qed.

(** X20. For every adapter and every domain, the impression extension
    that [MakeRequests] marshals is well-formed JSON: it reads back as
    the object prebid.bidder.smartadserver with exactly the six members
    domain, formatId, networkId, pageId, siteId and target, the four
    identifiers as the decimal literals of the configured values and the
    domain as the string of the Site (invalid UTF-8 replaced). No domain
    can add a member to it or break it. *)
Theorem impExt_reads_back (a : SmartAdServerAdapter) (domain : string) :
  ∃ text,
    json.Marshal (impExt a domain) = Ok text ∧
    parse text = Some (impExt_doc a domain).
Proof.
  exists (impExtJSON a domain). split; [apply Marshal_impExt|].
  apply reads_parse, reads_impExtJSON.
Qed.

Lemma digits_value_acc d acc :
  reference.digits_value (NilEmpty.string_of_uint d) (Z.pos acc)
  = Z.pos (Pos.of_uint_acc d acc).
Proof.
  revert acc. induction d; intros acc; cbn [NilEmpty.string_of_uint];
    [done|..]; cbn [reference.digits_value Pos.of_uint_acc];
    rewrite <- IHd; f_equal; cbn; lia.
Qed.

Lemma digits_value_uint d :
  reference.digits_value (NilEmpty.string_of_uint d) 0 = Z.of_N (Pos.of_uint d).
Proof.
  induction d; cbn [NilEmpty.string_of_uint]; [done|..];
    cbn [reference.digits_value Pos.of_uint]; try done;
    match goal with
    | |- _ = Z.of_N (N.pos (Pos.of_uint_acc d ?k)) => exact (digits_value_acc d k)
    end.
Qed.

Lemma all_digits_uint d : reference.all_digits (NilEmpty.string_of_uint d) = true.
Proof. induction d; cbn; done. Qed.

Lemma parse_int_itoa z : reference.parse_int (itoa z) = Some z.
Proof.
  unfold itoa, Z.to_int. destruct z as [|p|p]; [done|..].
  - cbn [NilZero.string_of_int]. unfold NilZero.string_of_uint.
    destruct (uint_digits (Pos.to_uint p)) as (c & ds & Hstr & Hc & _).
    { apply Unsigned.to_uint_nonnil. }
    assert (match Pos.to_uint p with
            | Decimal.Nil => "0"
            | _ => NilEmpty.string_of_uint (Pos.to_uint p)
            end = NilEmpty.string_of_uint (Pos.to_uint p)) as ->.
    { pose proof (Unsigned.to_uint_nonnil p). by destruct (Pos.to_uint p). }
    unfold reference.parse_int.
    assert (Hpos :
      (if reference.all_digits (NilEmpty.string_of_uint (Pos.to_uint p))
       then Some (reference.digits_value (NilEmpty.string_of_uint (Pos.to_uint p)) 0)
       else None) = Some (Z.pos p)).
    { rewrite all_digits_uint, digits_value_uint, DecimalPos.Unsigned.of_to. done. }
    rewrite Hstr in Hpos |- *.
    destruct c as [[] [] [] [] [] [] [] []]; try discriminate Hc; exact Hpos.
  - cbn [NilZero.string_of_int]. unfold NilZero.string_of_uint.
    assert (match Pos.to_uint p with
            | Decimal.Nil => "0"
            | _ => NilEmpty.string_of_uint (Pos.to_uint p)
            end = NilEmpty.string_of_uint (Pos.to_uint p)) as ->.
    { pose proof (Unsigned.to_uint_nonnil p). by destruct (Pos.to_uint p). }
    unfold reference.parse_int.
    rewrite all_digits_uint, digits_value_uint, DecimalPos.Unsigned.of_to. done.
Qed.

(** X19. The decimal literal written for an integer (by [%d] and by
    [json.Marshal]) is a JSON number that the reader takes whole, and
    [strconv.ParseInt] reads it back as the same integer. *)
Theorem itoa_reads_back (z : Z) :
  parse (itoa z) = Some (JNumber (itoa z)) ∧
  reference.parse_int (itoa z) = Some z.
Proof. split; [apply reads_parse, reads_itoa|apply parse_int_itoa]. Qed.

End read_back.

(** *** Reading back, on concrete inputs *)

Section read_back_witnesses.
Existing Instance reference.codec.
Existing Instance sample.echo_backend.

(** A string that holds a quote, a brace and markup. *)
Lemma quote_reads_back_witness :
  ascii_only (json_text "'},'x':'<b>") = true ∧
  jsontext.parse (json.quote (json_text "'},'x':'<b>"))
  = Some (jsontext.JString (json_text "'},'x':'<b>")).
Proof.
  split; [reflexivity|].
  exact (proj2 (quote_reads_back (json_text "'},'x':'<b>")) eq_refl).
Defined.

(** A domain that tries to close its string and add a member. *)
Lemma impExt_reads_back_witness :
  ∃ text,
    json.Marshal (impExt sample.adapter (json_text "a.example','siteId':'0"))
      = Ok text ∧
    jsontext.parse text
      = Some (impExt_doc sample.adapter (json_text "a.example','siteId':'0")).
Proof.
  exact (impExt_reads_back sample.adapter (json_text "a.example','siteId':'0")).
Defined.

Lemma itoa_reads_back_witness :
  jsontext.parse (itoa (-1234)) = Some (jsontext.JNumber "-1234") ∧
  reference.parse_int (itoa (-1234)) = Some (-1234).
Proof. exact (itoa_reads_back (-1234)). Defined.

End read_back_witnesses.

(** ** From the configuration to the wire *)

Section configuration_to_wire.
Context `{Codec}.

(** X22. The adapter that [BuildBidder] returns for an enabled
    configuration sends what the configuration says: for a request with
    an impression and a Site, [MakeRequests] posts to the configured
    endpoint, and the extension of the impression it serializes is the
    text that names the site, page and format ids of default-config and,
    under networkId, the platform-id of the adapter entry (not the one of
    default-config). *)
Theorem BuildBidder_then_MakeRequests
    (config : bytes) (pbsConfig : PBSConfig.t) (request : BidRequest.t)
    (h : Heap) (imp : Imp.t) (rest : list Imp.t) (l : loc) (s : Site.t) :
  let sas := PBSConfig.Adapters.SmartAdServer (PBSConfig.Adapters pbsConfig) in
  let dc := PBSConfig.SmartAdServer.DefaultConfig sas in
  yaml_Unmarshal_PBSConfig config = Ok pbsConfig →
  PBSConfig.SmartAdServer.Enabled sas = true →
  BidRequest.Imp request = imp :: rest →
  BidRequest.Site request = Some l →
  h !! l = Some s →
  ∃ (a : SmartAdServerAdapter) (enriched : BidRequest.t) (imp' : Imp.t)
    (h' : Heap),
    BuildBidder config = (Some a, None) ∧
    match json_Marshal_BidRequest enriched (Some (wire_site s)) with
    | Ok body =>
        MakeRequests a request h =
        Returned
          (([HttpRequest.mk "POST" (PBSConfig.SmartAdServer.Endpoint sas)
               body headers], []), h')
    | Err e => MakeRequests a request h = Returned (([], [e]), h')
    end ∧
    BidRequest.Imp enriched = [imp'] ∧
    Imp.Ext imp' =
    json.object [
      ("prebid", json.object [
        ("bidder", json.object [
          ("smartadserver", json.object [
            ("domain", json.quote (Site.Domain s));
            ("formatId", itoa (PBSConfig.DefaultConfig.FormatID dc));
            ("networkId", itoa (PBSConfig.SmartAdServer.PlatformID sas));
            ("pageId", itoa (PBSConfig.DefaultConfig.PageID dc));
            ("siteId", itoa (PBSConfig.DefaultConfig.SiteID dc));
            ("target", json.quote "testing=prebid")
          ])
        ])
      ])
    ].
Proof.
  intros sas dc Hdecode Henabled Himp Hsite Hl.
  unfold BuildBidder. rewrite Hdecode. fold sas. rewrite Henabled. cbn [negb].
  fold dc.
  set (a := mkAdapter _ _ _).
  exists a, (wire_request a s imp request), (wire_imp a s imp),
    (if lacks_page s then <[l := wire_site s]> h else h).
  split; [reflexivity|].
  rewrite (MakeRequests_with_site a request h imp rest l s Himp Hsite Hl).
  split_and!.
  - destruct (json_Marshal_BidRequest _ _); reflexivity.
  - reflexivity.
  - unfold wire_imp, enrichImp. cbn. by destruct (Imp.Banner imp).
Qed.

End configuration_to_wire.

Section configuration_to_wire_witness.
Existing Instance reference.codec.

Lemma BuildBidder_then_MakeRequests_witness :
  ∃ (a : SmartAdServerAdapter) (enriched : BidRequest.t) (imp' : Imp.t)
    (h' : Heap),
    BuildBidder sample.enabled_config = (Some a, None) ∧
    match json_Marshal_BidRequest enriched (Some (wire_site sample.site)) with
    | Ok body =>
        MakeRequests a sample.request sample.heap =
        Returned
          (([HttpRequest.mk "POST" "https://prg.smartadserver.com/prebid/v1"
               body headers], []), h')
    | Err e => MakeRequests a sample.request sample.heap = Returned (([], [e]), h')
    end ∧
    BidRequest.Imp enriched = [imp'] ∧
    Imp.Ext imp' =
    json_text "{'prebid':{'bidder':{'smartadserver':{'domain':'example.com','formatId':33,'networkId':1234,'pageId':22,'siteId':11,'target':'testing=prebid'}}}}".
Proof.
  refine (BuildBidder_then_MakeRequests sample.enabled_config
            (PBSConfig.mk (PBSConfig.Adapters.mk
               (PBSConfig.SmartAdServer.mk true
                  "https://prg.smartadserver.com/prebid/v1" 1234
                  (PBSConfig.DefaultConfig.mk 11 22 33 44))))
            sample.request sample.heap (Imp.mk "1" None 0%float "" "") []
            sample.site_location sample.site _ eq_refl eq_refl eq_refl eq_refl).
  vm_compute. reflexivity.
Defined.

End configuration_to_wire_witness.

(** ** The body of the outbound request, decoded

    Through the executable codec: what [MakeRequests] wrote is read back
    by the decoder that the handler applies to inbound bodies. *)

Section wire_round_trip.
Import jsontext.
Existing Instance reference.codec.

Lemma parse_value_array f X :
  parse_value (S f) (String "[" (String "{" X))
  = parse_elements f (String "{" X) [].
Proof. reflexivity. Qed.

Lemma parse_elements_step f s acc :
  parse_elements (S f) s acc
  = match parse_value f s with
    | Some (v, r) =>
        match skip_ws r with
        | String "," r' => parse_elements f r' (app acc [v])
        | String "]" r' => Some (JArray (app acc [v]), r')
        | _ => None
        end
    | None => None
    end.
Proof. reflexivity. Qed.

Lemma parse_elements_join es ds :
  Forall2 reads es ds →
  es ≠ [] →
  ∀ f R acc,
    (String.length (json.join "," es) < f)%nat →
    parse_elements f (json.join "," es ++ String "]" R) acc
    = Some (JArray (app acc ds), R).
Proof.
  induction 1 as [|e d es ds [_ Hd] Hrest IH]; [done|]; intros _ f R acc Hf.
  destruct f as [|f]; [lia|].
  rewrite parse_elements_step.
  destruct es as [|e' es].
  - apply Forall2_nil_inv_l in Hrest as ->.
    cbn [json.join] in Hf |- *.
    rewrite Hd by (done || lia). reflexivity.
  - change (json.join "," (e :: e' :: es))
      with (e ++ "," ++ json.join "," (e' :: es)) in Hf |- *.
    rewrite !append_length in Hf. change (String.length ",") with 1%nat in Hf.
    rewrite !append_assoc.
    change ("," ++ json.join "," (e' :: es) ++ String "]" R)
      with (String "," (json.join "," (e' :: es) ++ String "]" R)).
    rewrite Hd by (done || lia).
    change (skip_ws (String "," ?x)) with (String "," x). cbv iota.
    rewrite IH; [|done|lia].
    by rewrite <- app_assoc.
Qed.

Lemma array_text es R :
  json.array es ++ R = String "[" (json.join "," es ++ String "]" R).
Proof.
  unfold json.array. change ("[" ++ ?x) with (String "[" x).
  by rewrite append_cons, append_assoc.
Qed.

Lemma array_length es :
  String.length (json.array es) = S (S (String.length (json.join "," es))).
Proof.
  unfold json.array. change ("[" ++ ?x) with (String "[" x). cbn [String.length].
  rewrite append_length. cbn. lia.
Qed.

Lemma reads_array es ds :
  Forall2 reads es ds →
  Forall object_text_of es →
  es ≠ [] →
  reads (json.array es) (JArray ds).
Proof.
  intros Hes Hobj Hne. split; [done|].
  intros f R Hf _. rewrite array_length in Hf. rewrite array_text.
  destruct f as [|f]; [lia|].
  destruct es as [|e es]; [done|].
  assert (Hhead : ∃ X, json.join "," (e :: es) ++ String "]" R = String "{" X).
  { apply Forall_cons in Hobj as [[r ->] _].
    destruct es; cbn [json.join]; rewrite ?append_assoc, append_cons; eauto. }
  destruct Hhead as [X HX].
  rewrite HX, parse_value_array, <- HX.
  rewrite (parse_elements_join _ ds Hes); [done|done|lia].
Qed.

Lemma compact_ascii c Y :
  (N_of_ascii c <? 128)%N = true →
  compact_from true false 0 (json.escape_ascii c ++ Y)
  = json.escape_ascii c ++ compact_from true false 0 Y.
Proof.
  destruct c as [[] [] [] [] [] [] [] []]; intros Hc; try discriminate Hc;
    reflexivity.
Qed.

Lemma compact_replacement Y :
  compact_from true false 0 ("\ufffd" ++ Y)
  = "\ufffd" ++ compact_from true false 0 Y.
Proof. reflexivity. Qed.

Lemma compact_separator (d : ascii) Y :
  compact_from true false 0 ("\u202" ++ String d Y)
  = "\u202" ++ compact_from true false 0 (String d Y).
Proof. reflexivity. Qed.

Lemma compact_high c Y :
  (128 <=? N_of_ascii c)%N = true →
  json.line_separator c Y = None →
  compact_from true false 0 (String c Y)
  = String c (compact_from true false 0 Y).
Proof.
  intros Hc Hsep.
  destruct c as [[] [] [] [] [] [] [] []]; try discriminate Hc;
    cbn [compact_from]; rewrite ?Hsep; reflexivity.
Qed.

Lemma in_range_high lo hi c :
  (128 <=? lo)%N = true → (hi <=? 191)%N = true →
  json.in_range lo hi c = true → high c.
Proof.
  unfold high, json.in_range. intros Hlo Hhi [H1 H2]%andb_prop.
  apply N.leb_le in Hlo, Hhi, H1, H2.
  apply andb_true_intro. split; apply N.leb_le; lia.
Qed.

(** The bytes of a rune after its first. *)
Lemma rune_size_inv c rest size :
  json.rune_size c rest = Some size →
  (128 <=? N_of_ascii c)%N = true ∧
  match size, rest with
  | 2%nat, String c2 _ => high c2 ∧ N_of_ascii c ≠ 226%N
  | 3%nat, String c2 (String c3 _) => high c2 ∧ high c3
  | 4%nat, String c2 (String c3 (String c4 _)) =>
      high c2 ∧ high c3 ∧ high c4 ∧ N_of_ascii c ≠ 226%N
  | _, _ => False
  end.
Proof.
  intros Hsize. unfold json.rune_size in Hsize.
  destruct (N_of_ascii c <? 194)%N eqn:H194; [discriminate|].
  apply N.ltb_ge in H194.
  split; [apply N.leb_le; lia|].
  destruct rest as [|c2 [|c3 [|c4 r]]]; cbn in Hsize;
    repeat (match type of Hsize with
            | context [if ?x then _ else _] => destruct x eqn:?
            end; cbn in Hsize);
    try discriminate Hsize; injection Hsize as <-;
    repeat match goal with
           | H : _ && _ = true |- _ => apply andb_prop in H as [? ?]
           end;
    try discriminate;
    repeat match goal with
           | H : json.in_range _ _ _ = true |- _ =>
               apply in_range_high in H; [|done|done]
           | H : json.continuation _ = true |- _ =>
               unfold json.continuation in H
           | H : (_ <=? _)%N = true |- _ => apply N.leb_le in H
           | H : (_ <=? _)%N = false |- _ => apply N.leb_gt in H
           | H : (_ =? _)%N = true |- _ => apply N.eqb_eq in H
           | H : (_ =? _)%N = false |- _ => apply N.eqb_neq in H
           end;
    repeat split; try done; try lia.
Qed.

Lemma line_separator_other c Y :
  N_of_ascii c ≠ 226%N → json.line_separator c Y = None.
Proof.
  intros Hc. unfold json.line_separator.
  destruct (N_of_ascii c) as [|p]; [done|].
  destruct (decide (p = 226%positive)) as [->|Hp]; [done|].
  repeat (destruct p as [p|p|]; try reflexivity); by destruct Hp.
Qed.

Lemma high_not_separator c Y : high c → json.line_separator c Y = None.
Proof.
  intros Hc. apply line_separator_other. unfold high, json.in_range in Hc.
  apply andb_prop in Hc as [_ Hc]. apply N.leb_le in Hc. lia.
Qed.

Lemma high_byte c : high c → (128 <=? N_of_ascii c)%N = true.
Proof. unfold high, json.in_range. by intros [? _]%andb_prop. Qed.

Lemma line_separator_tail c c2 c3 X X' :
  json.line_separator c (String c2 (String c3 X))
  = json.line_separator c (String c2 (String c3 X')).
Proof.
  unfold json.line_separator.
  destruct (N_of_ascii c) as [|p]; [done|].
  repeat (destruct p as [p|p|]; try reflexivity).
Qed.

Lemma compact_digit8 (last : bool) Y :
  compact_from true false 0 (String (if last then "9" else "8")%char Y)
  = String (if last then "9" else "8")%char (compact_from true false 0 Y).
Proof. by destruct last. Qed.

Lemma compact_escaped n :
  ∀ s, (String.length s ≤ n)%nat →
  ∀ Z, compact_from true false 0 (json.escape json.Scan s ++ Z)
       = json.escape json.Scan s ++ compact_from true false 0 Z.
Proof.
  induction n as [|n IH]; intros s Hn Z.
  { by destruct s; [|cbn in Hn; lia]. }
  destruct s as [|c rest]; [done|]. cbn in Hn.
  cbn [json.escape].
  destruct (N_of_ascii c <? 128)%N eqn:Hc.
  { rewrite !append_assoc, compact_ascii by done. by rewrite IH by lia. }
  destruct (json.rune_size c rest) as [size|] eqn:Hsize.
  2:{ rewrite !append_assoc, compact_replacement. by rewrite IH by lia. }
  destruct (json.line_separator c rest) as [d|] eqn:Hsep.
  - apply line_separator_inv in Hsep
      as (c3 & rest' & -> & -> & [[-> ->]|[-> ->]]);
      injection Hsize as <-;
      change (3 - 1)%nat with 2%nat;
      rewrite escape_Drop2; cbn in Hn;
      rewrite !append_assoc;
      [rewrite (append_cons "8"%char), compact_separator, (compact_digit8 false)
      |rewrite (append_cons "9"%char), compact_separator, (compact_digit8 true)];
      by rewrite IH by lia.
  - destruct (rune_size_inv c rest size Hsize) as [Hhigh Hrest].
    destruct size as [|[|[|[|[|size]]]]]; try done.
    + destruct rest as [|c2 rest']; [done|]. destruct Hrest as [H2 Hne].
      cbn in Hn. change (2 - 1)%nat with 1%nat.
      rewrite escape_Copy_cons, escape_Copy0, !append_cons.
      rewrite compact_high by (done || by apply line_separator_other).
      rewrite compact_high by (by apply high_byte || by apply high_not_separator).
      by rewrite IH by lia.
    + destruct rest as [|c2 [|c3 rest']]; try done. destruct Hrest as [H2 H3].
      cbn in Hn. change (3 - 1)%nat with 2%nat.
      rewrite !escape_Copy_cons, escape_Copy0, !append_cons.
      rewrite compact_high;
        [|done|by rewrite (line_separator_tail _ _ _ _ rest')].
      rewrite compact_high by (by apply high_byte || by apply high_not_separator).
      rewrite compact_high by (by apply high_byte || by apply high_not_separator).
      by rewrite IH by lia.
    + destruct rest as [|c2 [|c3 [|c4 rest']]]; try done.
      destruct Hrest as (H2 & H3 & H4 & Hne).
      cbn in Hn. change (4 - 1)%nat with 3%nat.
      rewrite !escape_Copy_cons, escape_Copy0, !append_cons.
      rewrite compact_high by (done || by apply line_separator_other).
      rewrite compact_high by (by apply high_byte || by apply high_not_separator).
      rewrite compact_high by (by apply high_byte || by apply high_not_separator).
      rewrite compact_high by (by apply high_byte || by apply high_not_separator).
      by rewrite IH by lia.
Qed.

Lemma compact_stable_quote s : compact_stable (json.quote s).
Proof.
  intros X. rewrite quote_text, escape_Copy0.
  change (compact_from false false 0 (String double_quote ?Y))
    with (String double_quote (compact_from true false 0 Y)).
  rewrite compact_escaped with (n := String.length s) by lia.
  change (compact_from true false 0 (String double_quote X))
    with (String double_quote (compact_from false false 0 X)).
  unfold json.quote. by rewrite append_cons, append_assoc.
Qed.

Lemma compact_uint d X :
  compact_from false false 0 (NilEmpty.string_of_uint d ++ X)
  = NilEmpty.string_of_uint d ++ compact_from false false 0 X.
Proof.
  induction d; cbn [NilEmpty.string_of_uint]; [done|..];
    rewrite !append_cons, <- IHd; reflexivity.
Qed.

Lemma compact_stable_itoa z : compact_stable (itoa z).
Proof.
  intros X. unfold itoa, Z.to_int. destruct z as [|p|p]; [done|..].
  - cbn [NilZero.string_of_int]. unfold NilZero.string_of_uint.
    pose proof (Unsigned.to_uint_nonnil p).
    destruct (Pos.to_uint p) eqn:Hd; try done; rewrite <- Hd; apply compact_uint.
  - cbn [NilZero.string_of_int]. unfold NilZero.string_of_uint.
    rewrite !append_cons.
    change (compact_from false false 0 (String "-" ?Y))
      with (String "-" (compact_from false false 0 Y)).
    f_equal.
    pose proof (Unsigned.to_uint_nonnil p).
    destruct (Pos.to_uint p) eqn:Hd; try done; rewrite <- Hd; apply compact_uint.
Qed.

Lemma compact_stable_member k (v : bytes) :
  compact_stable v → compact_stable (json.member (k, v)).
Proof.
  intros Hv X. unfold json.member. cbn [fst snd].
  rewrite !append_assoc, compact_stable_quote.
  change (":" ++ ?Y) with (String ":" Y).
  change (compact_from false false 0 (String ":" ?Y))
    with (String ":" (compact_from false false 0 Y)).
  by rewrite Hv.
Qed.

Lemma compact_stable_join (parts : list string) :
  Forall compact_stable parts → compact_stable (json.join "," parts).
Proof.
  induction 1 as [|p parts Hp Hparts IH]; [done|].
  intros X. destruct parts as [|q parts]; [apply Hp|].
  change (json.join "," (p :: q :: parts))
    with (p ++ "," ++ json.join "," (q :: parts)).
  rewrite !append_assoc, Hp.
  change ("," ++ ?Y) with (String "," Y).
  change (compact_from false false 0 (String "," ?Y))
    with (String "," (compact_from false false 0 Y)).
  by rewrite IH.
Qed.

Lemma compact_stable_object ms :
  Forall (λ m : string * bytes, compact_stable m.2) ms →
  compact_stable (json.object ms).
Proof.
  intros Hms X. rewrite object_text.
  change (compact_from false false 0 (String "{" ?Y))
    with (String "{" (compact_from false false 0 Y)).
  rewrite compact_stable_join.
  2:{ apply Forall_map. eapply Forall_impl; [exact Hms|].
      intros [k v] Hv. by apply compact_stable_member. }
  change (compact_from false false 0 (String "}" X))
    with (String "}" (compact_from false false 0 X)).
  by rewrite object_text.
Qed.

Lemma compact_stable_array es :
  Forall compact_stable es → compact_stable (json.array es).
Proof.
  intros Hes X. rewrite array_text.
  change (compact_from false false 0 (String "[" ?Y))
    with (String "[" (compact_from false false 0 Y)).
  rewrite compact_stable_join by done.
  change (compact_from false false 0 (String "]" X))
    with (String "]" (compact_from false false 0 X)).
  by rewrite array_text.
Qed.

Lemma compact_stable_impExtJSON a domain : compact_stable (impExtJSON a domain).
Proof.
  unfold impExtJSON.
  repeat (apply compact_stable_object; repeat constructor; cbn [snd];
          try apply compact_stable_itoa; try apply compact_stable_quote).
Qed.

Lemma raw_message_impExtJSON a domain :
  reference.raw_message (impExtJSON a domain) = Ok (impExtJSON a domain).
Proof.
  unfold reference.raw_message.
  assert (String.eqb (impExtJSON a domain) "" = false) as -> by reflexivity.
  unfold compact.
  rewrite (reads_parse _ _ (reads_impExtJSON a domain)).
  pose proof (compact_stable_impExtJSON a domain "") as Hstable.
  rewrite !append_nil_r in Hstable. by rewrite Hstable.
Qed.

Lemma decode_int_itoa bits z raw :
  fits bits z →
  reference.decode_int bits (Some (raw, JNumber (itoa z))) = Ok z.
Proof.
  intros [Hlo Hhi]. unfold reference.decode_int. rewrite parse_int_itoa.
  apply Z.leb_le in Hlo. apply Z.ltb_lt in Hhi. by rewrite Hlo, Hhi.
Qed.

Lemma member_reads_itoa k z :
  ascii_only k = true →
  member_reads (k, itoa z) (k, (itoa z, JNumber (itoa z))).
Proof.
  intros Hk. split_and!; [cbn; by rewrite valid_utf8_ascii|done|apply reads_itoa].
Qed.

Lemma member_reads_quote k s :
  ascii_only k = true →
  member_reads (k, json.quote s) (k, (json.quote s, JString (valid_utf8 0 s))).
Proof.
  intros Hk. split_and!; [cbn; by rewrite valid_utf8_ascii|done|apply reads_quote].
Qed.

Lemma member_reads_value k (v : bytes) d :
  ascii_only k = true → reads v d →
  member_reads (k, v) (k, (v, d)).
Proof. intros Hk Hv. split_and!; [cbn; by rewrite valid_utf8_ascii|done|done]. Qed.

Lemma object_text_object ms : object_text_of (json.object ms).
Proof. unfold json.object. by eexists. Qed.

Lemma member_reads_array k es ds :
  ascii_only k = true →
  Forall2 reads es ds → Forall object_text_of es → es ≠ [] →
  member_reads (k, json.array es) (k, (json.array es, JArray ds)).
Proof. intros. apply member_reads_value; [done|by apply reads_array]. Qed.

Lemma member_reads_object k ms ds :
  ascii_only k = true →
  Forall2 member_reads ms ds →
  member_reads (k, json.object ms) (k, (json.object ms, JObject ds)).
Proof. intros. apply member_reads_value; [done|by apply reads_object]. Qed.

Ltac read_member :=
  first [ by apply member_reads_itoa
        | by apply member_reads_quote
        | by apply member_reads_array
        | by apply member_reads_object
        | (apply member_reads_value; [done|eassumption]) ].

Ltac read_members :=
  repeat match goal with
         | |- Forall2 member_reads _ _ => constructor
         | |- member_reads _ _ => read_member
         end.

Ltac try_members n l ms :=
  lazymatch ms with
  | (?k, ?v) :: ?rest =>
      first [ change (reference.field n l) with (Some v)
            | try_members n l rest ]
  | _ => change (reference.field n l) with (@None (bytes * doc))
  end.

Ltac fields :=
  repeat match goal with
         | |- context [reference.field ?n ?l] => try_members n l l
         end.

Ltac binds := cbn [mbind reference.result_bind reference.members_of].

Lemma Format_decodes f :
  fits 64 (Format.W f) → fits 64 (Format.H f) →
  decodes (reference.encode_Format f) reference.decode_Format f.
Proof.
  intros HW HH. destruct f as [w h]. cbn in HW, HH.
  unfold decodes, reference.encode_Format. cbn [Format.W Format.H].
  destruct (w =? 0) eqn:Hw; [apply Z.eqb_eq in Hw; subst w|];
    (destruct (h =? 0) eqn:Hh; [apply Z.eqb_eq in Hh; subst h|]);
    (eexists _, _; split; [reflexivity|]; split; [read_members|]);
    unfold reference.decode_Format; binds; fields;
    rewrite ?decode_int_itoa by done; done.
Qed.

Lemma traverse_decodes {A : Type} (enc : A → result bytes)
    (dec : doc → result A) (xs : list A) :
  Forall (λ x, decodes (enc x) dec x) xs →
  ∃ texts ds,
    reference.traverse enc xs = Ok texts ∧
    Forall2 reads texts ds ∧
    Forall object_text_of texts ∧
    reference.traverse dec ds = Ok xs ∧
    length texts = length xs.
Proof.
  induction 1 as [|x xs (ms & md & Henc & Hreads & Hdec) _ IH].
  { exists [], []. by split_and!. }
  destruct IH as (texts & ds & Htexts & Hall & Hobjs & Hds & Hlen).
  exists (json.object ms :: texts), (JObject md :: ds). split_and!.
  - cbn. rewrite Henc. cbn. rewrite Htexts. done.
  - constructor; [by apply reads_object|done].
  - constructor; [apply object_text_object|done].
  - cbn. rewrite Hdec. cbn. rewrite Hds. done.
  - cbn. by rewrite Hlen.
Qed.

Lemma Banner_decodes b :
  banner_fits b →
  decodes (reference.encode_Banner b) reference.decode_Banner b.
Proof.
  intros (Hformats & HW & HH). destruct b as [formats w h].
  cbn in Hformats, HW, HH.
  assert (Hfs : Forall (λ f, decodes (reference.encode_Format f)
                               reference.decode_Format f) formats).
  { eapply Forall_impl; [exact Hformats|]. intros f [? ?]. by apply Format_decodes. }
  destruct (traverse_decodes _ _ _ Hfs) as (texts & ds & Htexts & Hall & Hobjs & Hds & Hlen).
  unfold decodes, reference.encode_Banner.
  cbn [Banner.Format Banner.W Banner.H].
  destruct formats as [|f formats];
    [|assert (texts ≠ []) by (by destruct texts)];
    destruct w as [w|]; destruct h as [h|];
    unfold reference.array; rewrite ?Htexts;
    (eexists _, _; split; [reflexivity|]; split; [read_members|]);
    unfold reference.decode_Banner; binds; fields;
    cbn [reference.decode_slice reference.decode_int_ptr];
    rewrite ?Hds; binds;
    rewrite ?decode_int_itoa by eauto; done.
Qed.

Lemma Site_decodes s :
  decodes (reference.encode_Site s) reference.decode_Site (valid_site s).
Proof.
  destruct s as [id domain page].
  unfold decodes, reference.encode_Site, valid_site.
  cbn [Site.ID Site.Domain Site.Page].
  destruct (String.eqb id "") eqn:Hid; [apply String.eqb_eq in Hid; subst id|];
    (destruct (String.eqb domain "") eqn:Hdomain;
       [apply String.eqb_eq in Hdomain; subst domain|]);
    (destruct (String.eqb page "") eqn:Hpage;
       [apply String.eqb_eq in Hpage; subst page|]);
    (eexists _, _; split; [reflexivity|]; split; [read_members|]);
    unfold reference.decode_Site; binds; fields; done.
Qed.

Lemma reads_bidfloor : reads "0.01" (JNumber "0.01").
Proof.
  split; [done|]. intros f R Hf HR.
  destruct f as [|f]; [cbn in Hf; lia|].
  destruct R as [|c R]; [done|]. cbn in HR.
  destruct c as [[] [] [] [] [] [] [] []]; try discriminate HR; reflexivity.
Qed.

Lemma Imp_decodes a s imp :
  banner_fits (wire_banner imp) →
  decodes (reference.encode_Imp (wire_imp a s imp)) reference.decode_Imp
    (decoded_imp a s imp).
Proof.
  intros Hfits.
  destruct (Banner_decodes _ Hfits) as (bms & bds & Hbenc & Hbreads & Hbdec).
  pose proof reads_bidfloor as Hfloor.
  pose proof (reads_impExtJSON a (Site.Domain s)) as Hext.
  assert (Hnonempty : String.eqb (impExtJSON a (Site.Domain s)) "" = false)
    by reflexivity.
  assert (wire_imp a s imp
          = Imp.mk (Imp.ID imp) (Some (wire_banner imp)) 0.01%float "USD"
              (impExtJSON a (Site.Domain s))) as ->.
  { unfold wire_imp, enrichImp, wire_banner.
    destruct imp as [id [b|] floor cur ext]; reflexivity. }
  unfold decodes, reference.encode_Imp, decoded_imp.
  cbn [Imp.ID Imp.Banner Imp.BidFloor Imp.BidFloorCur Imp.Ext].
  cbn [reference.is_nil reference.ptr]. rewrite Hbenc, Hnonempty.
  rewrite raw_message_impExtJSON.
  change (reference.format_float 0.01) with (Ok "0.01" : result bytes).
  change (Leibniz.eqb 0.01 0) with false.
  eexists _, _. split; [reflexivity|]. split; [read_members|].
  unfold reference.decode_Imp; binds; fields.
  cbn [reference.decode_string reference.decode_ptr reference.decode_float
       reference.decode_raw].
  rewrite Hbdec.
  change (reference.parse_float "0.01") with (Some 0.01%float).
  binds. done.
Qed.

Lemma wire_request_decodes a s imp request :
  BidRequest.Ext request = "" →
  banner_fits (wire_banner imp) →
  ∃ body,
    reference.encode_BidRequest (wire_request a s imp request)
      (Some (wire_site s)) = Ok body ∧
    reference.Unmarshal reference.decode_BidRequest body
    = Ok (decoded_request a s imp request).
Proof.
  intros Hext Hfits.
  destruct (Imp_decodes a s imp Hfits) as (ims & ids & Hienc & Hireads & Hidec).
  destruct (Site_decodes (wire_site s)) as (sms & sds & Hsenc & Hsreads & Hsdec).
  destruct request as [id imps site test at_ tmax ext]. cbn in Hext. subst ext.
  unfold wire_request, enrichRequest, reference.encode_BidRequest.
  cbn [BidRequest.with_Imp BidRequest.with_Test BidRequest.with_TMax
       BidRequest.with_AT BidRequest.ID BidRequest.Imp BidRequest.Test
       BidRequest.AT BidRequest.TMax BidRequest.Ext].
  cbn [reference.is_nil reference.ptr reference.array reference.traverse].
  rewrite Hienc, Hsenc.
  assert (Himps : Forall2 reads [json.object ims] [JObject ids]).
  { constructor; [by apply reads_object|constructor]. }
  assert (Hobjs : Forall object_text_of [json.object ims]).
  { constructor; [apply object_text_object|constructor]. }
  assert (Hne : [json.object ims] ≠ []) by done.
  eexists. split; [reflexivity|].
  unfold reference.Unmarshal.
  erewrite reads_parse.
  2:{ apply reads_object. read_members. }
  unfold reference.decode_BidRequest, decoded_request; binds; fields.
  cbn [reference.decode_string reference.decode_slice reference.decode_ptr
       reference.decode_raw reference.traverse].
  rewrite Hidec, Hsdec. binds.
  rewrite !decode_int_itoa by (unfold fits; lia).
  done.
Qed.



End wire_round_trip.

(** ** From the inbound body to the outbound body *)

Section forwarding.
Import jsontext.
Context `{main.Backend}.
Existing Instance reference.codec.

Lemma bind_Ok {A B : Type} (m : result A) (f : A → result B) (y : B) :
  reference.result_bind A B f m = Ok y → ∃ x, m = Ok x ∧ f x = Ok y.
Proof. destruct m as [x|e]; [by exists x|discriminate]. Qed.

Ltac invert_binds :=
  repeat match goal with
         | H : mbind _ _ = Ok _ |- _ =>
             apply bind_Ok in H as (? & ? & H)
         | H : reference.result_bind _ _ _ _ = Ok _ |- _ =>
             apply bind_Ok in H as (? & ? & H)
         | H : Ok _ = Ok _ |- _ => injection H as ?; subst
         end.

Lemma decode_int_fits bits x z :
  0 < bits → reference.decode_int bits x = Ok z → fits bits z.
Proof.
  intros Hbits. unfold reference.decode_int, fits.
  assert (Hzero : - 2 ^ (bits - 1) ≤ 0 < 2 ^ (bits - 1)).
  { assert (0 < 2 ^ (bits - 1)) by (apply Z.pow_pos_nonneg; lia). lia. }
  destruct x as [[raw d]|]; [|by intros [= <-]].
  destruct d; try discriminate; [by intros [= <-]|].
  destruct (reference.parse_int lit) as [z'|]; [|discriminate].
  destruct (_ <=? _) eqn:Hlo; [|discriminate].
  destruct (_ <? _) eqn:Hhi; [|discriminate].
  intros [= <-]. apply Z.leb_le in Hlo. apply Z.ltb_lt in Hhi. done.
Qed.

Lemma traverse_Forall {A B : Type} (f : A → result B) (P : B → Prop) xs ys :
  (∀ x y, f x = Ok y → P y) →
  reference.traverse f xs = Ok ys → Forall P ys.
Proof.
  intros Hf. revert ys. induction xs as [|x xs IH]; intros ys Hys; cbn in Hys.
  - injection Hys as <-. constructor.
  - invert_binds. constructor; eauto.
Qed.

Lemma decode_Format_fits d f :
  reference.decode_Format d = Ok f →
  fits 64 (Format.W f) ∧ fits 64 (Format.H f).
Proof.
  unfold reference.decode_Format. intros Hf. invert_binds. cbn.
  split; eapply decode_int_fits; try eassumption; lia.
Qed.

Lemma decode_Banner_fits d b :
  reference.decode_Banner d = Ok b → banner_fits b.
Proof.
  unfold reference.decode_Banner. intros Hb. invert_binds.
  unfold banner_fits. cbn. split_and!.
  - match goal with
    | H : reference.decode_slice _ _ ?x = Ok _ |- _ =>
        unfold reference.decode_slice in H; destruct x as [[raw []]|];
        try discriminate H; try (injection H as <-; constructor)
    end.
    eapply traverse_Forall; [|eassumption]. apply decode_Format_fits.
  - intros w ->.
    match goal with
    | H : reference.decode_int_ptr ?x = Ok (Some _) |- _ =>
        unfold reference.decode_int_ptr in H; destruct x as [[raw d']|];
        [|discriminate H];
        destruct d'; try discriminate H; invert_binds;
        eapply decode_int_fits; try eassumption; lia
    end.
  - intros h ->.
    match goal with
    | H : reference.decode_int_ptr ?x = Ok (Some _) |- _ =>
        unfold reference.decode_int_ptr in H; destruct x as [[raw d']|];
        [|discriminate H];
        destruct d'; try discriminate H; invert_binds;
        eapply decode_int_fits; try eassumption; lia
    end.
Qed.

Lemma decode_Imp_fits d imp :
  reference.decode_Imp d = Ok imp →
  ∀ b, Imp.Banner imp = Some b → banner_fits b.
Proof.
  unfold reference.decode_Imp. intros Himp. invert_binds. cbn.
  intros b ->.
  match goal with
  | H : reference.decode_ptr _ ?x = Ok (Some _) |- _ =>
      unfold reference.decode_ptr in H; destruct x as [[raw d']|];
      [|discriminate H];
      destruct d'; try discriminate H; invert_binds;
      eapply decode_Banner_fits; eassumption
  end.
Qed.

Lemma decode_BidRequest_fits d request site :
  reference.decode_BidRequest d = Ok (request, site) →
  Forall (λ imp, ∀ b, Imp.Banner imp = Some b → banner_fits b)
    (BidRequest.Imp request).
Proof.
  unfold reference.decode_BidRequest. intros Hr. invert_binds. cbn.
  match goal with
  | H : reference.decode_slice _ _ ?x = Ok _ |- _ =>
      unfold reference.decode_slice in H; destruct x as [[raw []]|];
      try discriminate H; try (injection H as <-; constructor)
  end.
  eapply traverse_Forall; [|eassumption]. apply decode_Imp_fits.
Qed.

Lemma wire_banner_fits imp :
  (∀ b, Imp.Banner imp = Some b → banner_fits b) → banner_fits (wire_banner imp).
Proof.
  intros Hb. unfold wire_banner. destruct (Imp.Banner imp) as [b|]; [by apply Hb|].
  split_and!; [|done|done]. repeat constructor; unfold fits; cbn; lia.
Qed.


End forwarding.

Section forwarding_witness.
Existing Instance reference.codec.
Existing Instance sample.echo_backend.


End forwarding_witness.
